(** * Letify: the resilient fetch client and the listing hash

    A shallow embedding of
      - [src/scrapers/vbt.py] and [src/scrapers/hureninhollandrijnland.py]:
        [_generate_property_hash];
      - [src/utils/http.py]: [EnhancedHttpClient] with [_get_browser_headers],
        [_get_random_proxy], [_try_decompress_content], [_decode_content],
        [_extract_charset], [get] and [get_with_fallback].

    Conventions.  A Python [str] is a Rocq [string] holding its UTF-8
    encoding (a surrogate code point as the three bytes the scheme gives
    it); a Python [bytes] is a [list byte], a literal [b'...'] the
    [list_byte_of_string] of its text; a Python [int] is a [Z]; a
    [dict] with string keys is a [gmap string _].  An [async] method is a
    function of the world (random generator, clock, network) and of a state
    (the client object, the positions in the generator and the clock, the
    trace of sleeps and requests) that returns a value or raises.  One call
    is run on its own: the semaphore and the interleaving of calls are not
    modelled, and neither are the log messages.

    The first part holds the definitions, the second the theorems. *)

From Stdlib Require Import ZArith List String Ascii Bool Lia.
From Stdlib Require Import Strings.Byte.
From stdpp Require Import base option list strings pretty gmap.

Local Open Scope string_scope.
Local Open Scope list_scope.
Local Open Scope Z_scope.

(** ** Python built-ins on [str] and [bytes] *)

Module Py.

Definition bytes := list byte.

(** A [str] is held as the UTF-8 encoding of its code points.  A [str] can
    hold a surrogate code point, U+D800 to U+DFFF ([json.loads] produces
    one from an unpaired escape); it is held as the three bytes the UTF-8
    scheme gives it, ED A0..BF 80..BF, which is the only place where ED is
    followed by a byte from A0 on. *)
Definition surrogate_lead (a b : ascii) : bool :=
  (N_of_ascii a =? 237)%N && (160 <=? N_of_ascii b)%N && (N_of_ascii b <=? 191)%N.

Fixpoint has_surrogate (s : string) : bool :=
  match s with
  | EmptyString => false
  | String a s' =>
      match s' with
      | String b _ => surrogate_lead a b
      | EmptyString => false
      end || has_surrogate s'
  end.

(** [s.encode()]: the UTF-8 bytes, which the representation already is;
    [None] is [UnicodeEncodeError], raised for a surrogate. *)
Definition encode (s : string) : option bytes :=
  if has_surrogate s then None else Some (list_byte_of_string s).

Definition byte_val (b : byte) : Z := Z.of_N (Byte.to_N b).

(** Truthiness of a [str]: the empty string is false. *)
Definition truthy (s : string) : bool :=
  match s with EmptyString => false | _ => true end.

(** [sep.join(l)] *)
Fixpoint join (sep : string) (l : list string) : string :=
  match l with
  | [] => ""
  | [x] => x
  | x :: rest => x +:+ sep +:+ join sep rest
  end.

(** [p in s] on strings: [p] occurs as a contiguous substring. *)
Fixpoint contains (p s : string) : bool :=
  String.prefix p s ||
  match s with
  | EmptyString => false
  | String _ s' => contains p s'
  end.

(** [s.split(sep)] for a one-character separator. *)
Fixpoint split_acc (sep : ascii) (acc : string) (s : string) : list string :=
  match s with
  | EmptyString => [String.rev acc]
  | String c s' =>
      if Ascii.eqb c sep then String.rev acc :: split_acc sep "" s'
      else split_acc sep (String c acc) s'
  end.

Definition split (sep : ascii) (s : string) : list string := split_acc sep "" s.

(** [str(n)] for an [int]. *)
Definition str_int (n : Z) : string := pretty n.

(** [len(s)]: the number of code points, that is of bytes that are not
    UTF-8 continuation bytes (10xxxxxx). *)
Definition is_continuation (c : ascii) : bool :=
  let n := N_of_ascii c in (128 <=? n)%N && (n <? 192)%N.

Fixpoint len (s : string) : Z :=
  match s with
  | EmptyString => 0
  | String c s' => (if is_continuation c then 0 else 1) + len s'
  end.

End Py.

(** ** MD5 ([hashlib.md5]), RFC 1321, on 32-bit words held in [Z] *)

Module MD5.

Definition w32 (x : Z) : Z := x mod 2 ^ 32.
Definition add32 (x y : Z) : Z := w32 (x + y).
Definition not32 (x : Z) : Z := Z.lxor x 0xffffffff.
Definition rotl32 (x n : Z) : Z :=
  Z.lor (w32 (Z.shiftl x n)) (Z.shiftr x (32 - n)).

Definition K : list Z :=
  [ 0xd76aa478; 0xe8c7b756; 0x242070db; 0xc1bdceee; 0xf57c0faf; 0x4787c62a; 0xa8304613; 0xfd469501;
    0x698098d8; 0x8b44f7af; 0xffff5bb1; 0x895cd7be; 0x6b901122; 0xfd987193; 0xa679438e; 0x49b40821;
    0xf61e2562; 0xc040b340; 0x265e5a51; 0xe9b6c7aa; 0xd62f105d; 0x02441453; 0xd8a1e681; 0xe7d3fbc8;
    0x21e1cde6; 0xc33707d6; 0xf4d50d87; 0x455a14ed; 0xa9e3e905; 0xfcefa3f8; 0x676f02d9; 0x8d2a4c8a;
    0xfffa3942; 0x8771f681; 0x6d9d6122; 0xfde5380c; 0xa4beea44; 0x4bdecfa9; 0xf6bb4b60; 0xbebfbc70;
    0x289b7ec6; 0xeaa127fa; 0xd4ef3085; 0x04881d05; 0xd9d4d039; 0xe6db99e5; 0x1fa27cf8; 0xc4ac5665;
    0xf4292244; 0x432aff97; 0xab9423a7; 0xfc93a039; 0x655b59c3; 0x8f0ccc92; 0xffeff47d; 0x85845dd1;
    0x6fa87e4f; 0xfe2ce6e0; 0xa3014314; 0x4e0811a1; 0xf7537e82; 0xbd3af235; 0x2ad7d2bb; 0xeb86d391 ].

Definition shifts : list Z :=
  [ 7; 12; 17; 22; 7; 12; 17; 22; 7; 12; 17; 22; 7; 12; 17; 22;
    5;  9; 14; 20; 5;  9; 14; 20; 5;  9; 14; 20; 5;  9; 14; 20;
    4; 11; 16; 23; 4; 11; 16; 23; 4; 11; 16; 23; 4; 11; 16; 23;
    6; 10; 15; 21; 6; 10; 15; 21; 6; 10; 15; 21; 6; 10; 15; 21 ].

Definition state : Type := Z * Z * Z * Z.

Definition init : state := (0x67452301, 0xefcdab89, 0x98badcfe, 0x10325476).

(** Little-endian conversions. *)
Definition word_of_bytes (b : list Z) : Z :=
  fold_right (fun x acc => x + 256 * acc) 0 b.

Fixpoint bytes_of_word (n : nat) (x : Z) : list Z :=
  match n with
  | O => []
  | S n' => x mod 256 :: bytes_of_word n' (x / 256)
  end.

Definition pad (msg : list Z) : list Z :=
  let len := Z.of_nat (length msg) in
  let zeros := (55 - len) mod 64 in
  msg ++ [0x80] ++ repeat 0 (Z.to_nat zeros) ++ bytes_of_word 8 (8 * len).

Definition round (M : list Z) (st : state) (i : nat) : state :=
  let '(a, b, c, d) := st in
  let iz := Z.of_nat i in
  let '(f, g) :=
    if iz <? 16 then (Z.lor (Z.land b c) (Z.land (not32 b) d), iz)
    else if iz <? 32 then (Z.lor (Z.land d b) (Z.land (not32 d) c), (5 * iz + 1) mod 16)
    else if iz <? 48 then (Z.lxor (Z.lxor b c) d, (3 * iz + 5) mod 16)
    else (Z.lxor c (Z.lor b (not32 d)), (7 * iz) mod 16) in
  let f' := add32 (add32 (add32 f a) (nth i K 0)) (nth (Z.to_nat g) M 0) in
  (d, add32 b (rotl32 f' (nth i shifts 0)), b, c).

Definition block (st : state) (blk : list Z) : state :=
  let M := map (fun j => word_of_bytes (take 4 (drop (4 * j) blk))) (seq 0 16) in
  let '(a, b, c, d) := st in
  let '(a', b', c', d') := fold_left (round M) (seq 0 64) st in
  (add32 a a', add32 b b', add32 c c', add32 d d').

Definition digest (msg : list Z) : list Z :=
  let p := pad msg in
  let n := (length p / 64)%nat in
  let '(a, b, c, d) :=
    fold_left (fun st k => block st (take 64 (drop (64 * k) p))) (seq 0 n) init in
  bytes_of_word 4 a ++ bytes_of_word 4 b ++ bytes_of_word 4 c ++ bytes_of_word 4 d.

Definition hex_digit (x : Z) : ascii :=
  nth (Z.to_nat x) (list_ascii_of_string "0123456789abcdef") "0"%char.

Fixpoint hex (b : list Z) : string :=
  match b with
  | [] => ""
  | x :: b' => String (hex_digit (x / 16)) (String (hex_digit (x mod 16)) (hex b'))
  end.

(** [hashlib.md5(data).hexdigest()] *)
Definition hexdigest (data : Py.bytes) : string :=
  hex (digest (map Py.byte_val data)).

End MD5.

(** ** The listing and its content hash *)

(** Modelled from the spec: the [PropertyListing] class ([models/property.py]
    is not among the sources).  The spec's data model gives a listing
    optional, typed fields; the scrapers assign [str] values to the text
    fields and [int(float(...))] values to [living_area] and
    [price_numeric].  The fields after [price_numeric] do not enter the
    hash. *)
Record PropertyListing := {
  url : option string;
  source_id : option string;
  title : option string;
  address : option string;
  postal_code : option string;
  city : option string;
  living_area : option Z;
  price_numeric : option Z;
  source : string;
  price : option string;
  description : option string;
  features : list (string * string);
  property_hash : option string
}.

Module Hasher.

(** [if listing.f: identifiers.append(listing.f)] for a text field:
    [None] and the empty string are false. *)
Definition append_str (identifiers : list string) (f : option string) : list string :=
  match f with
  | Some s => if Py.truthy s then identifiers ++ [s] else identifiers
  | None => identifiers
  end.

(** [if listing.f: identifiers.append(f"label:{listing.f}")] for an [int]
    field: [None] and [0] are false. *)
Definition append_int (identifiers : list string) (label : string) (f : option Z)
  : list string :=
  match f with
  | Some n => if n =? 0 then identifiers else identifiers ++ [label +:+ Py.str_int n]
  | None => identifiers
  end.

(** The identifiers collected before the uniqueness fallback. *)
Definition collect (listing : PropertyListing) : list string :=
  let identifiers := [] in
  let identifiers := append_str identifiers (url listing) in
  let identifiers := append_str identifiers (source_id listing) in
  let identifiers := append_str identifiers (title listing) in
  let identifiers := append_str identifiers (address listing) in
  let identifiers := append_str identifiers (postal_code listing) in
  let identifiers := append_str identifiers (city listing) in
  let identifiers := append_int identifiers "area:" (living_area listing) in
  let identifiers := append_int identifiers "price:" (price_numeric listing) in
  identifiers.

(** The string that is hashed; [uuid4] is the value [str(uuid.uuid4())]
    takes when it is called. *)
Definition hash_input (uuid4 : string) (listing : PropertyListing) : string :=
  let identifiers := collect listing in
  let identifiers :=
    match identifiers with [] => identifiers ++ [uuid4] | _ => identifiers end in
  Py.join "|" (filter (fun x => Py.truthy x = true) identifiers).

End Hasher.

Module VBTVerhuurmakelaarsScraper.

Definition _generate_property_hash (uuid4 : string) (listing : PropertyListing)
  : option string :=
  let identifiers := [] in
  let identifiers := Hasher.append_str identifiers (url listing) in
  let identifiers := Hasher.append_str identifiers (source_id listing) in
  let identifiers := Hasher.append_str identifiers (title listing) in
  let identifiers := Hasher.append_str identifiers (address listing) in
  let identifiers := Hasher.append_str identifiers (postal_code listing) in
  let identifiers := Hasher.append_str identifiers (city listing) in
  let identifiers := Hasher.append_int identifiers "area:" (living_area listing) in
  let identifiers := Hasher.append_int identifiers "price:" (price_numeric listing) in
  let identifiers :=
    match identifiers with [] => identifiers ++ [uuid4] | _ => identifiers end in
  let hash_input := Py.join "|" (filter (fun x => Py.truthy x = true) identifiers) in
  MD5.hexdigest <$> Py.encode hash_input.

End VBTVerhuurmakelaarsScraper.

Module HurenInHollandRijnland.

Definition _generate_property_hash (uuid4 : string) (listing : PropertyListing)
  : option string :=
  let identifiers := [] in
  let identifiers := Hasher.append_str identifiers (url listing) in
  let identifiers := Hasher.append_str identifiers (source_id listing) in
  let identifiers := Hasher.append_str identifiers (title listing) in
  let identifiers := Hasher.append_str identifiers (address listing) in
  let identifiers := Hasher.append_str identifiers (postal_code listing) in
  let identifiers := Hasher.append_str identifiers (city listing) in
  let identifiers := Hasher.append_int identifiers "area:" (living_area listing) in
  let identifiers := Hasher.append_int identifiers "price:" (price_numeric listing) in
  let identifiers :=
    match identifiers with [] => identifiers ++ [uuid4] | _ => identifiers end in
  let hash_input := Py.join "|" (filter (fun x => Py.truthy x = true) identifiers) in
  MD5.hexdigest <$> Py.encode hash_input.

End HurenInHollandRijnland.

(** ** The HTTP client: exceptions, environment and effects *)

Abbreviation dict := (gmap string string).

(** [d.update(e)]: the entries of [e] win. *)
Definition dict_update (d e : dict) : dict := e ∪ d.

Inductive Exception :=
| RequestError (msg : string)    (* httpx.RequestError and its subclasses *)
| TimeoutException               (* httpx.TimeoutException, a RequestError *)
| UnicodeDecodeError
| LookupError (what : string)
| ValueError
| IndexError
| TypeError
| UnboundLocalError (name : string)
| OtherError (what : string).     (* any other exception *)

(** [isinstance(e, httpx.RequestError)] *)
Definition is_RequestError (e : Exception) : bool :=
  match e with
  | RequestError _ | TimeoutException => true
  | _ => false
  end.

(** What a call produces: a value or an exception. *)
Inductive Result (A : Type) :=
| Ok (a : A)
| Raise (e : Exception).
Arguments Ok {A} a.
Arguments Raise {A} e.

(** The part of the Python runtime and of the third-party libraries that the
    client calls and that is not defined here: Unicode case mapping and
    whitespace, [int()] on a string, the decompressors, and the codecs other
    than utf-8, latin1 and cp1252.  [None] stands for the exception the call
    raises ([ValueError] for [int], any [Exception] for a decompressor); an
    unknown codec name is [None] in [other_codec]. *)
Class Runtime := {
  str_lower : string -> string;
  str_strip : string -> string;
  int_of_str : string -> option Z;
  gzip_importable : bool;
  brotli_importable : bool;
  zlib_importable : bool;
  gzip_decompress : Py.bytes -> option Py.bytes;
  brotli_decompress : Py.bytes -> option Py.bytes;
  zlib_decompress : Py.bytes -> option Py.bytes;
  zlib_decompress_raw : Py.bytes -> option Py.bytes;
  other_codec : string -> option (Py.bytes -> Result string)
}.

(** [self] *)
Record EnhancedHttpClient := {
  timeout : Z;
  max_retries : Z;
  retry_min_wait : Z;
  retry_max_wait : Z;
  use_proxies : bool;
  proxy_list : list string;
  gzip_available : bool;
  brotli_available : bool;
  zlib_available : bool
}.

Definition set_use_proxies (b : bool) (c : EnhancedHttpClient) : EnhancedHttpClient :=
  {| timeout := timeout c; max_retries := max_retries c;
     retry_min_wait := retry_min_wait c; retry_max_wait := retry_max_wait c;
     use_proxies := b; proxy_list := proxy_list c;
     gzip_available := gzip_available c; brotli_available := brotli_available c;
     zlib_available := zlib_available c |}.

(** [**kwargs] of [get]: the two keys the client pops, and the rest. *)
Record Kwargs := {
  kw_headers : option dict;
  kw_cookies : option dict;
  kw_other : dict
}.

(** What [client.get] is called with on one attempt. *)
Record Request := {
  req_url : string;
  req_headers : dict;
  req_cookies : dict;
  req_kwargs : dict;
  req_proxies : option string
}.

(** [httpx.Response]: the attributes the client reads.  The three header
    fields are [response.headers.get(...)] before its default is applied. *)
Record Response := {
  status_code : Z;
  history : nat;                     (* len(response.history) *)
  retry_after : option string;       (* Retry-After *)
  content_encoding : option string;  (* content-encoding *)
  content_type : option string;      (* content-type *)
  content : Py.bytes;
  text : string
}.

(** [response._text = t] *)
Definition set_text (t : string) (r : Response) : Response :=
  {| status_code := status_code r; history := history r;
     retry_after := retry_after r; content_encoding := content_encoding r;
     content_type := content_type r; content := content r; text := t |}.

(** The durations passed to [asyncio.sleep].  The two random ones are kept
    symbolic, with the raw draw [u] behind [random.uniform]:
    [RetryDelay lo hi u] is [random.uniform(lo, hi)] and [HumanDelay k u] is
    [random.uniform(0.5, 2.0) * k]. *)
Inductive Delay :=
| Seconds (n : Z)
| RetryDelay (lo hi : Z) (u : nat)
| HumanDelay (k : Z) (u : nat).

Inductive Event :=
| Sleep (d : Delay)
| Send (r : Request).

(** What the call cannot control: the random generator, the clock and the
    network.  [transport n r] is what the request [r] receives when [n]
    requests were sent before it. *)
Record World := {
  random_stream : nat -> nat;
  time_stream : nat -> Z;
  transport : nat -> Request -> Result Response
}.

Record State := {
  self : EnhancedHttpClient;
  rand_pos : nat;
  time_pos : nat;
  trace : list Event
}.

Definition requests (tr : list Event) : list Request :=
  omap (fun e => match e with Send r => Some r | Sleep _ => None end) tr.

Definition initial (c : EnhancedHttpClient) : State :=
  {| self := c; rand_pos := 0; time_pos := 0; trace := [] |}.

(** A computation reads the world, changes the state and returns or
    raises; [None] is a loop of the model that ran out of fuel, which [get]
    never does ([get_never_out_of_fuel] below). *)
Definition M (A : Type) : Type := World -> State -> option (Result A) * State.

Definition ret {A} (a : A) : M A := fun _ st => (Some (Ok a), st).

Definition raise {A} (e : Exception) : M A := fun _ st => (Some (Raise e), st).

Definition out_of_fuel {A} : M A := fun _ st => (None, st).

Definition bind {A B} (m : M A) (k : A -> M B) : M B :=
  fun w st =>
    match m w st with
    | (Some (Ok a), st') => k a w st'
    | (Some (Raise e), st') => (Some (Raise e), st')
    | (None, st') => (None, st')
    end.

#[global] Instance M_ret : MRet M := @ret.
#[global] Instance M_bind : MBind M := fun A B k m => bind m k.

Definition lift {A} (r : Result A) : M A := fun _ st => (Some r, st).

Definition get_self : M EnhancedHttpClient := fun _ st => (Some (Ok (self st)), st).

Definition put_self (c : EnhancedHttpClient) : M unit :=
  fun _ st =>
    (Some (Ok tt), {| self := c; rand_pos := rand_pos st; time_pos := time_pos st;
               trace := trace st |}).

(** The state with one more event at the end of the trace. *)
Definition log (e : Event) (st : State) : State :=
  {| self := self st; rand_pos := rand_pos st; time_pos := time_pos st;
     trace := trace st ++ [e] |}.

Definition emit (e : Event) : M unit := fun _ st => (Some (Ok tt), log e st).

(** One raw draw of the generator. *)
Definition draw : M nat :=
  fun w st =>
    (Some (Ok (random_stream w (rand_pos st))),
     {| self := self st; rand_pos := S (rand_pos st); time_pos := time_pos st;
        trace := trace st |}).

(** [random.choice(l)] *)
Definition random_choice {A} (l : list A) : M A :=
  u ← draw;
  match l !! (u mod length l)%nat with
  | Some x => ret x
  | None => raise IndexError
  end.

(** [random.randint(a, b)] *)
Definition random_randint (a b : Z) : M Z :=
  u ← draw;
  if b <? a then raise ValueError else ret (a + Z.of_nat u mod (b - a + 1)).

(** [int(time.time())] *)
Definition time_time : M Z :=
  fun w st =>
    (Some (Ok (time_stream w (time_pos st))),
     {| self := self st; rand_pos := rand_pos st; time_pos := S (time_pos st);
        trace := trace st |}).

(** [await asyncio.sleep(...)] *)
Definition sleep_seconds (n : Z) : M unit := emit (Sleep (Seconds n)).

Definition sleep_retry_delay (lo hi : Z) : M unit :=
  u ← draw; emit (Sleep (RetryDelay lo hi u)).

Definition sleep_human_delay (k : Z) : M unit :=
  u ← draw; emit (Sleep (HumanDelay k u)).

(** [await client.get(...)]: the request goes out and the network answers. *)
Definition client_get (r : Request) : M Response :=
  fun w st =>
    (Some (transport w (length (requests (trace st))) r), log (Send r) st).

(** ** Codec layer *)

Module Codec.

Definition byte_of_Z (z : Z) : byte :=
  match Byte.of_N (Z.to_N z) with Some b => b | None => "000"%byte end.

(** The UTF-8 encoding of one code point. *)
Definition utf8_encode (cp : Z) : Py.bytes :=
  if cp <? 0x80 then [byte_of_Z cp]
  else if cp <? 0x800 then
    [byte_of_Z (0xC0 + cp / 64); byte_of_Z (0x80 + cp mod 64)]
  else if cp <? 0x10000 then
    [byte_of_Z (0xE0 + cp / 4096); byte_of_Z (0x80 + (cp / 64) mod 64);
     byte_of_Z (0x80 + cp mod 64)]
  else
    [byte_of_Z (0xF0 + cp / 262144); byte_of_Z (0x80 + (cp / 4096) mod 64);
     byte_of_Z (0x80 + (cp / 64) mod 64); byte_of_Z (0x80 + cp mod 64)].

Definition str_of_code_points (cps : list Z) : string :=
  string_of_list_byte (concat (map utf8_encode cps)).

(** Well-formed UTF-8 (Unicode, table 3-7): [pending] continuation bytes
    are still expected, the next one within [lo, hi]. *)
Fixpoint utf8_scan (pending : nat) (lo hi : Z) (l : list Z) : bool :=
  match l with
  | [] => match pending with O => true | S _ => false end
  | b :: l' =>
      match pending with
      | S k => (lo <=? b) && (b <=? hi) && utf8_scan k 0x80 0xBF l'
      | O =>
          if b <=? 0x7F then utf8_scan 0 0x80 0xBF l'
          else if (0xC2 <=? b) && (b <=? 0xDF) then utf8_scan 1 0x80 0xBF l'
          else if b =? 0xE0 then utf8_scan 2 0xA0 0xBF l'
          else if b =? 0xED then utf8_scan 2 0x80 0x9F l'
          else if (0xE1 <=? b) && (b <=? 0xEF) then utf8_scan 2 0x80 0xBF l'
          else if b =? 0xF0 then utf8_scan 3 0x90 0xBF l'
          else if (0xF1 <=? b) && (b <=? 0xF3) then utf8_scan 3 0x80 0xBF l'
          else if b =? 0xF4 then utf8_scan 3 0x80 0x8F l'
          else false
      end
  end.

(** [content.decode('utf-8')] *)
Definition utf8_decode (content : Py.bytes) : Result string :=
  if utf8_scan 0 0x80 0xBF (map Py.byte_val content)
  then Ok (string_of_list_byte content)
  else Raise UnicodeDecodeError.

(** [content.decode('latin1')]: byte [b] is code point [b]. *)
Definition latin1_decode (content : Py.bytes) : string :=
  str_of_code_points (map Py.byte_val content).

(** cp1252: as latin1 except on 0x80..0x9F, where five bytes are undefined. *)
Definition cp1252_high : list (option Z) :=
  [ Some 0x20AC; None;        Some 0x201A; Some 0x0192; Some 0x201E; Some 0x2026;
    Some 0x2020; Some 0x2021; Some 0x02C6; Some 0x2030; Some 0x0160; Some 0x2039;
    Some 0x0152; None;        Some 0x017D; None;        None;        Some 0x2018;
    Some 0x2019; Some 0x201C; Some 0x201D; Some 0x2022; Some 0x2013; Some 0x2014;
    Some 0x02DC; Some 0x2122; Some 0x0161; Some 0x203A; Some 0x0153; None;
    Some 0x017E; Some 0x0178 ].

Definition cp1252_code_point (b : Z) : option Z :=
  if (0x80 <=? b) && (b <=? 0x9F)
  then match cp1252_high !! Z.to_nat (b - 0x80) with Some o => o | None => None end
  else Some b.

Definition cp1252_decode (content : Py.bytes) : Result string :=
  match mapM cp1252_code_point (map Py.byte_val content) with
  | Some cps => Ok (str_of_code_points cps)
  | None => Raise UnicodeDecodeError
  end.

(** [content.decode(encoding)].  Empty bytes decode to the empty string
    before the codec is looked up, so not even an unknown name raises. *)
Definition bytes_decode `{Runtime} (encoding : string) (content : Py.bytes)
  : Result string :=
  match content with
  | [] => Ok ""
  | _ :: _ =>
      if String.eqb encoding "utf-8" then utf8_decode content
      else if String.eqb encoding "latin1" || String.eqb encoding "iso-8859-1"
      then Ok (latin1_decode content)
      else if String.eqb encoding "cp1252" then cp1252_decode content
      else match other_codec encoding with
           | Some codec => codec content
           | None => Raise (LookupError ("unknown encoding: " +:+ encoding))
           end
  end.

End Codec.

(** [for encoding in encodings: try: return content.decode(encoding)
     except UnicodeDecodeError: continue]; [None] when the loop ends. *)
Fixpoint try_encodings `{Runtime} (encodings : list string) (content : Py.bytes)
  : option (Result string) :=
  match encodings with
  | [] => None
  | encoding :: rest =>
      match Codec.bytes_decode encoding content with
      | Raise UnicodeDecodeError => try_encodings rest content
      | r => Some r
      end
  end.

Definition _decode_content `{Runtime} (content : Py.bytes) (charset : option string)
  : Result string :=
  let ladder :=
    let encodings := ["utf-8"; "latin1"; "cp1252"; "iso-8859-1"] in
    match try_encodings encodings content with
    | Some r => r
    | None => Codec.bytes_decode "latin1" content
    end in
  match charset with
  | Some cs =>
      if Py.truthy cs then
        match Codec.bytes_decode cs content with
        | Raise UnicodeDecodeError => ladder
        | r => r
        end
      else ladder
  | None => ladder
  end.

Definition _try_decompress_content `{Runtime} (c : EnhancedHttpClient)
    (content : Py.bytes) (encoding : option string) : Py.bytes :=
  match encoding with
  | None => content
  | Some encoding =>
      if negb (Py.truthy encoding) then content else
      let encoding := str_lower encoding in
      let deflate :=
        if Py.contains "deflate" encoding && zlib_available c then
          match zlib_decompress content with
          | Some d => d
          | None =>
              match zlib_decompress_raw content with
              | Some d => d
              | None => content
              end
          end
        else content in
      let brotli :=
        if Py.contains "br" encoding && brotli_available c then
          match brotli_decompress content with
          | Some d => d
          | None => deflate
          end
        else deflate in
      if Py.contains "gzip" encoding && gzip_available c then
        match gzip_decompress content with
        | Some d => d
        | None => brotli
        end
      else brotli
  end.

Definition _extract_charset `{Runtime} (content_type : option string) : option string :=
  match content_type with
  | None => None
  | Some content_type =>
      if negb (Py.truthy content_type) then None
      else if Py.contains "charset=" (str_lower content_type) then
        let parts := Py.split ";" content_type in
        match filter (fun part => Py.contains "charset=" (str_lower part) = true) parts with
        | part :: _ => Some (str_lower (str_strip (List.last (Py.split "=" part) "")))
        | [] => None
        end
      else None
  end.

(** [_import_compression_libs]: the flags follow what can be imported. *)
Definition _import_compression_libs `{Runtime} (c : EnhancedHttpClient)
  : EnhancedHttpClient :=
  {| timeout := timeout c; max_retries := max_retries c;
     retry_min_wait := retry_min_wait c; retry_max_wait := retry_max_wait c;
     use_proxies := use_proxies c; proxy_list := proxy_list c;
     gzip_available := gzip_importable; brotli_available := brotli_importable;
     zlib_available := zlib_importable |}.

(** [__init__]; [config_proxy_list] is [config.PROXY_LIST], and the
    semaphore, which only bounds concurrency, is left out. *)
Definition __init__ `{Runtime} (config_proxy_list : list string)
    (timeout' max_retries' retry_min_wait' retry_max_wait' : Z)
    (use_proxies' : bool) (proxy_list' : option (list string)) : EnhancedHttpClient :=
  let c :=
    {| timeout := timeout'; max_retries := max_retries';
       retry_min_wait := retry_min_wait'; retry_max_wait := retry_max_wait';
       use_proxies := use_proxies';
       proxy_list := match proxy_list' with Some l => l | None => config_proxy_list end;
       gzip_available := false; brotli_available := false; zlib_available := false |} in
  let c := _import_compression_libs c in
  match use_proxies c, proxy_list c with
  | true, [] => set_use_proxies false c
  | _, _ => c
  end.

(** ** Fingerprints *)

(** The double-quote character and a quoted string. *)
Definition dquote : string := String (Ascii false true false false false true false false) "".
Definition quoted (s : string) : string := dquote +:+ s +:+ dquote.

Record BrowserProfile := {
  name : string;
  user_agent : string;
  platform : string;
  sec_ch_ua : option string;
  sec_ch_ua_mobile : option string;
  sec_ch_ua_platform : option string
}.

Definition chrome_sec_ch_ua : string :=
  quoted "Chromium" +:+ ";v=" +:+ quoted "112" +:+ ", " +:+
  quoted "Google Chrome" +:+ ";v=" +:+ quoted "112" +:+ ", " +:+
  quoted "Not:A-Brand" +:+ ";v=" +:+ quoted "99".

Definition edge_sec_ch_ua : string :=
  quoted "Chromium" +:+ ";v=" +:+ quoted "112" +:+ ", " +:+
  quoted "Microsoft Edge" +:+ ";v=" +:+ quoted "112" +:+ ", " +:+
  quoted "Not:A-Brand" +:+ ";v=" +:+ quoted "99".

(** The list [_get_browser_headers] chooses from. *)
Definition default_browser_profiles : list BrowserProfile :=
  [ {| name := "Chrome Windows";
       user_agent := "Mozilla/5.0 (Windows NT 10.0; Win64; x64) AppleWebKit/537.36 (KHTML, like Gecko) Chrome/112.0.0.0 Safari/537.36";
       platform := "Windows";
       sec_ch_ua := Some chrome_sec_ch_ua;
       sec_ch_ua_mobile := Some "?0";
       sec_ch_ua_platform := Some (quoted "Windows") |};
    {| name := "Chrome macOS";
       user_agent := "Mozilla/5.0 (Macintosh; Intel Mac OS X 10_15_7) AppleWebKit/537.36 (KHTML, like Gecko) Chrome/112.0.0.0 Safari/537.36";
       platform := "macOS";
       sec_ch_ua := Some chrome_sec_ch_ua;
       sec_ch_ua_mobile := Some "?0";
       sec_ch_ua_platform := Some (quoted "macOS") |};
    {| name := "Chrome Linux";
       user_agent := "Mozilla/5.0 (X11; Linux x86_64) AppleWebKit/537.36 (KHTML, like Gecko) Chrome/112.0.0.0 Safari/537.36";
       platform := "Linux";
       sec_ch_ua := Some chrome_sec_ch_ua;
       sec_ch_ua_mobile := Some "?0";
       sec_ch_ua_platform := Some (quoted "Linux") |};
    {| name := "Firefox Windows";
       user_agent := "Mozilla/5.0 (Windows NT 10.0; Win64; x64; rv:109.0) Gecko/20100101 Firefox/109.0";
       platform := "Windows";
       sec_ch_ua := None; sec_ch_ua_mobile := None; sec_ch_ua_platform := None |};
    {| name := "Safari macOS";
       user_agent := "Mozilla/5.0 (Macintosh; Intel Mac OS X 10_15_7) AppleWebKit/605.1.15 (KHTML, like Gecko) Version/16.4 Safari/605.1.15";
       platform := "macOS";
       sec_ch_ua := None; sec_ch_ua_mobile := None; sec_ch_ua_platform := None |};
    {| name := "Edge Windows";
       user_agent := "Mozilla/5.0 (Windows NT 10.0; Win64; x64) AppleWebKit/537.36 (KHTML, like Gecko) Chrome/112.0.0.0 Safari/537.36 Edg/112.0.1722.48";
       platform := "Windows";
       sec_ch_ua := Some edge_sec_ch_ua;
       sec_ch_ua_mobile := Some "?0";
       sec_ch_ua_platform := Some (quoted "Windows") |} ].

Definition referers : list string :=
  [ "https://www.google.com/"; "https://www.google.nl/"; "https://www.bing.com/";
    "https://duckduckgo.com/"; "https://www.startpage.com/" ].

(** [headers[k] = v] where [v] is an optional field of the chosen profile;
    inside the guard on [sec_ch_ua] the three fields are all set. *)
Definition set_header (k : string) (v : option string) (headers : dict) : dict :=
  match v with Some x => <[k := x]> headers | None => headers end.

Definition opt_truthy (o : option string) : bool :=
  match o with Some s => Py.truthy s | None => false end.

Definition _get_browser_headers : M dict :=
  browser_profile ← random_choice default_browser_profiles;
  let headers : dict := list_to_map
    [ ("User-Agent", user_agent browser_profile);
      ("Accept", "text/html,application/xhtml+xml,application/xml;q=0.9,image/avif,image/webp,image/apng,*/*;q=0.8,application/signed-exchange;v=b3;q=0.7");
      ("Accept-Language", "en-US,en;q=0.9,nl;q=0.8");
      ("Accept-Encoding", "gzip, deflate, br");
      ("Connection", "keep-alive");
      ("Upgrade-Insecure-Requests", "1");
      ("Cache-Control", "max-age=0");
      ("DNT", "1") ] in
  let headers :=
    if Py.contains "Chrome" (name browser_profile) || Py.contains "Edge" (name browser_profile)
    then dict_update headers (list_to_map
      [ ("Sec-Fetch-Dest", "document");
        ("Sec-Fetch-Mode", "navigate");
        ("Sec-Fetch-Site", "none");
        ("Sec-Fetch-User", "?1");
        ("Priority", "u=0, i") ])
    else headers in
  let headers :=
    if opt_truthy (sec_ch_ua browser_profile) then
      set_header "sec-ch-ua-platform" (sec_ch_ua_platform browser_profile)
        (set_header "sec-ch-ua-mobile" (sec_ch_ua_mobile browser_profile)
          (set_header "sec-ch-ua" (sec_ch_ua browser_profile) headers))
    else headers in
  referer ← random_choice referers;
  mret (<["Referer" := referer]> headers).

Definition _get_random_proxy : M (option string) :=
  c ← get_self;
  if negb (use_proxies c) || match proxy_list c with [] => true | _ => false end
  then mret None
  else proxy ← random_choice (proxy_list c); mret (Some proxy).

(** An entry of the catalog [browser_profiles] built by [get]:
    [{"name": n, "custom": False}] or
    [{"name": n, "custom": True, "headers": h, "cookies": c}]. *)
Inductive Profile :=
| Standard (profile_name : string)
| Custom (profile_name : string) (headers cookies : dict).

Definition custom (p : Profile) : bool :=
  match p with Standard _ => false | Custom _ _ _ => true end.

Definition resolution_widths : list Z := [1920; 1440; 1366; 1280].
Definition resolution_heights : list Z := [1080; 900; 768; 720].

(** [l[i]] on a list, negative indices counting from the end. *)
Definition py_index {A} (l : list A) (i : Z) : M A :=
  let j := if i <? 0 then Z.of_nat (length l) + i else i in
  if j <? 0 then raise IndexError
  else match l !! Z.to_nat j with Some x => mret x | None => raise IndexError end.

(** ** [get]: the catalog and the retry loop *)

(** [url.split('/')[0] + '//' + url.split('/')[2] + '/'] *)
Definition origin_of (url : string) : option string :=
  match Py.split "/" url with
  | scheme :: _ :: host :: _ => Some (scheme +:+ "//" +:+ host +:+ "/")
  | _ => None
  end.

(** The list [browser_profiles] at the top of [get]; its literals are
    evaluated in order, so the URL is split before anything is drawn. *)
Definition browser_profiles (url : string) : M (list Profile) :=
  referer ← match origin_of url with
            | Some r => mret r
            | None => raise IndexError
            end;
  session_depth ← random_randint 1 5;
  width ← random_choice resolution_widths;
  height ← random_choice resolution_heights;
  now ← time_time;
  mret
    [ Standard "Default Browser";
      Custom "Desktop Chrome"
        (list_to_map
          [ ("User-Agent", "Mozilla/5.0 (Windows NT 10.0; Win64; x64) AppleWebKit/537.36 (KHTML, like Gecko) Chrome/114.0.0.0 Safari/537.36");
            ("Accept", "text/html,application/xhtml+xml,application/xml;q=0.9,image/avif,image/webp,image/apng,*/*;q=0.8");
            ("Accept-Language", "en-US,en;q=0.9,nl;q=0.8");
            ("Accept-Encoding", "gzip, deflate, br");
            ("Connection", "keep-alive");
            ("Referer", referer);
            ("Sec-Fetch-Dest", "document");
            ("Sec-Fetch-Mode", "navigate");
            ("Sec-Fetch-Site", "same-origin");
            ("Sec-Fetch-User", "?1");
            ("Upgrade-Insecure-Requests", "1");
            ("Cache-Control", "max-age=0") ])
        (list_to_map
          [ ("session_depth", Py.str_int session_depth);
            ("has_js", "1");
            ("resolution", Py.str_int width +:+ "x" +:+ Py.str_int height);
            ("accept_cookies", "true") ]);
      Custom "Mobile Safari"
        (list_to_map
          [ ("User-Agent", "Mozilla/5.0 (iPhone; CPU iPhone OS 16_5 like Mac OS X) AppleWebKit/605.1.15 (KHTML, like Gecko) Version/16.5 Mobile/15E148 Safari/604.1");
            ("Accept", "text/html,application/xhtml+xml,application/xml;q=0.9,*/*;q=0.8");
            ("Accept-Language", "nl-NL,nl;q=0.9");
            ("Accept-Encoding", "gzip, deflate, br");
            ("Connection", "keep-alive");
            ("Referer", "https://www.google.com/");
            ("Cache-Control", "no-cache");
            ("Pragma", "no-cache") ])
        (list_to_map
          [ ("session_depth", "3");
            ("has_js", "1");
            ("resolution", "375x812");
            ("accept_cookies", "true");
            ("cookieConsent", "true");
            ("device", "mobile") ]);
      Custom "Desktop Safari"
        (list_to_map
          [ ("User-Agent", "Mozilla/5.0 (Macintosh; Intel Mac OS X 10_15_7) AppleWebKit/605.1.15 (KHTML, like Gecko) Version/16.5 Safari/605.1.15");
            ("Accept", "text/html,application/xhtml+xml,application/xml;q=0.9,*/*;q=0.8");
            ("Accept-Language", "nl-NL,nl;q=0.8,en-US;q=0.5,en;q=0.3");
            ("Accept-Encoding", "gzip, deflate, br");
            ("Connection", "keep-alive");
            ("DNT", "1");
            ("Upgrade-Insecure-Requests", "1") ])
        (list_to_map
          [ ("session_depth", "5");
            ("has_js", "1");
            ("resolution", "1440x900");
            ("accept_cookies", "true");
            ("visited_before", "true");
            ("lastVisit", Py.str_int now);
            ("consent_level", "ALL") ]);
      Custom "Firefox Linux"
        (list_to_map
          [ ("User-Agent", "Mozilla/5.0 (X11; Ubuntu; Linux x86_64; rv:109.0) Gecko/20100101 Firefox/113.0");
            ("Accept", "text/html,application/xhtml+xml,application/xml;q=0.9,image/avif,image/webp,*/*;q=0.8");
            ("Accept-Language", "en-US,en;q=0.5");
            ("Accept-Encoding", "gzip, deflate, br");
            ("Connection", "keep-alive");
            ("DNT", "1");
            ("Upgrade-Insecure-Requests", "1") ])
        (list_to_map
          [ ("session_depth", "2");
            ("has_js", "1");
            ("resolution", "1920x1080");
            ("accept_cookies", "true") ]);
      Custom "Edge Windows"
        (list_to_map
          [ ("User-Agent", "Mozilla/5.0 (Windows NT 10.0; Win64; x64) AppleWebKit/537.36 (KHTML, like Gecko) Chrome/113.0.0.0 Safari/537.36 Edg/113.0.1774.57");
            ("Accept", "text/html,application/xhtml+xml,application/xml;q=0.9,image/webp,image/apng,*/*;q=0.8,application/signed-exchange;v=b3;q=0.7");
            ("Accept-Language", "en-US,en;q=0.9");
            ("Accept-Encoding", "gzip, deflate, br");
            ("Connection", "keep-alive");
            ("Referer", "https://www.bing.com/");
            ("Sec-Fetch-Dest", "document");
            ("Sec-Fetch-Mode", "navigate");
            ("Sec-Fetch-Site", "cross-site");
            ("Sec-Fetch-User", "?1");
            ("Upgrade-Insecure-Requests", "1");
            ("sec-ch-ua", quoted "Microsoft Edge" +:+ ";v=" +:+ quoted "113" +:+ ", " +:+
                          quoted "Chromium" +:+ ";v=" +:+ quoted "113" +:+ ", " +:+
                          quoted "Not-A.Brand" +:+ ";v=" +:+ quoted "24");
            ("sec-ch-ua-mobile", "?0");
            ("sec-ch-ua-platform", quoted "Windows") ])
        (list_to_map
          [ ("session_depth", "4");
            ("has_js", "1");
            ("resolution", "1366x768");
            ("accept_cookies", "true");
            ("visited_before", "true") ]) ].

Definition anti_bot_patterns : list string :=
  [ "Je bent bijna op de pagina die je zoekt";
    "We houden ons platform graag veilig en spamvrij";
    "robot";
    "captcha";
    "CloudFare";
    "DDoS protection";
    "Ik ben geen robot";
    "Just a moment" ].

(** The [for pattern in anti_bot_patterns] loop: some pattern, lower-cased,
    occurs in the lower-cased text. *)
Definition anti_bot_detected `{Runtime} (response_text : string) : bool :=
  existsb (fun pattern => Py.contains (str_lower pattern) (str_lower response_text))
          anti_bot_patterns.

(** [kwargs.pop("cookies", {})] *)
Definition pop_cookies (kwargs : Kwargs) : dict * Kwargs :=
  (default ∅ (kw_cookies kwargs),
   {| kw_headers := kw_headers kwargs; kw_cookies := None; kw_other := kw_other kwargs |}).

(** [if "headers" in kwargs: headers.update(kwargs.pop("headers"))] *)
Definition apply_custom_headers (headers : dict) (kwargs : Kwargs) : dict * Kwargs :=
  match kw_headers kwargs with
  | Some custom_headers =>
      (dict_update headers custom_headers,
       {| kw_headers := None; kw_cookies := kw_cookies kwargs; kw_other := kw_other kwargs |})
  | None => (headers, kwargs)
  end.

(** The [if antibot_retry_count == 0: ... else: ...] at the top of the loop
    body: the profile, the headers and the cookies of this attempt. *)
Definition select_profile (browser_profiles : list Profile) (antibot_retry_count : Z)
    (kwargs : Kwargs) : M (Profile * dict * dict * Kwargs) :=
  if antibot_retry_count =? 0 then
    current_profile ← py_index browser_profiles 0;
    headers ← _get_browser_headers;
    let '(cookies, kwargs) := pop_cookies kwargs in
    mret (current_profile, headers, cookies, kwargs)
  else
    let profile_index :=
      Z.min antibot_retry_count (Z.of_nat (length browser_profiles) - 1) in
    current_profile ← py_index browser_profiles profile_index;
    match current_profile with
    | Custom _ headers cookies =>
        mret (current_profile, headers, cookies, kwargs)
    | Standard _ =>
        headers ← _get_browser_headers;
        let '(cookies, kwargs) := pop_cookies kwargs in
        session_depth ← random_randint 5 10;
        width ← random_choice resolution_widths;
        height ← random_choice resolution_heights;
        now ← time_time;
        ago ← random_randint 3600 86400;
        let cookies := dict_update cookies (list_to_map
          [ ("session_depth", Py.str_int session_depth);
            ("has_js", "1");
            ("resolution", Py.str_int width +:+ "x" +:+ Py.str_int height);
            ("accept_cookies", "true");
            ("visited_before", "true");
            ("lastVisit", Py.str_int (now - ago)) ]) in
        mret (current_profile, headers, cookies, kwargs)
    end.

(** How one pass through the loop body ends when it does not raise. *)
Inductive Outcome :=
| Returned (response : Response)    (* return response *)
| Continue (response : Response).   (* antibot_retry_count += 1; continue *)

Definition NUL : byte := "000"%byte.

(** The manual pass over a suspicious payload: [response._text] is replaced
    when the status is 200 and the text is empty, shorter than 100
    characters, or the raw bytes hold a NUL. *)
Definition manual_decode `{Runtime} (c : EnhancedHttpClient) (response : Response)
  : Result Response :=
  let content_encoding := default "" (content_encoding response) in
  let content_type := default "" (content_type response) in
  let charset := _extract_charset (Some content_type) in
  if (status_code response =? 200)
     && (negb (Py.truthy (text response))
         || (Py.len (text response) <? 100)
         || existsb (Byte.eqb NUL) (content response))
  then
    let decompressed_content :=
      _try_decompress_content c (content response) (Some content_encoding) in
    match _decode_content decompressed_content charset with
    | Ok text => Ok (set_text text response)
    | Raise e => Raise e
    end
  else Ok response.

(** The body of the [try] after the request: what is done with a response. *)
Definition classify `{Runtime} (retry_anti_bot : bool) (max_antibot_retries : Z)
    (antibot_retry_count : Z) (response : Response) : M Outcome :=
  if (10 <? history response)%nat
  then raise (RequestError "Too many redirects")
  else if status_code response =? 429 then
    match int_of_str (default "5" (retry_after response)) with
    | None => raise ValueError
    | Some retry_after =>
        sleep_seconds retry_after;;
        raise (RequestError ("Rate limited: " +:+ Py.str_int (status_code response)))
    end
  else if 400 <=? status_code response then
    if status_code response =? 404 then mret (Returned response)
    else raise (RequestError ("HTTP error: " +:+ Py.str_int (status_code response)))
  else
    c ← get_self;
    response ← lift (manual_decode c response);
    if retry_anti_bot && (antibot_retry_count <? max_antibot_retries) then
      if anti_bot_detected (text response)
      then mret (Continue response)
      else mret (Returned response)
    else mret (Returned response).

(** The loop body up to the request: fingerprint, caller's headers, proxy
    and the two sleeps. *)
Definition prepare_request (url : string) (browser_profiles : list Profile)
    (antibot_retry_count : Z) (kwargs : Kwargs) : M (Request * Kwargs) :=
  '(current_profile, headers, cookies, kwargs) ←
     select_profile browser_profiles antibot_retry_count kwargs;
  let '(headers, kwargs) := apply_custom_headers headers kwargs in
  c ← get_self;
  proxy ← (if use_proxies c then _get_random_proxy else mret None);
  proxy ← (if opt_truthy proxy && (0 <? antibot_retry_count)
           then _get_random_proxy else mret proxy);
  (if 0 <? antibot_retry_count
   then sleep_retry_delay (2 * antibot_retry_count) (5 * antibot_retry_count)
   else mret tt);;
  sleep_human_delay (1 + antibot_retry_count);;
  (* headers= and cookies= are passed next to **kwargs *)
  (if bool_decide (kw_headers kwargs = None ∧ kw_cookies kwargs = None)
   then mret tt else raise TypeError);;
  mret ({| req_url := url; req_headers := headers; req_cookies := cookies;
           req_kwargs := kw_other kwargs;
           req_proxies := if opt_truthy proxy then proxy else None |},
        kwargs).

(** One pass through the body of [while antibot_retry_count <= max_antibot_retries].
    [async with self.semaphore] only bounds how many passes run at once and
    the [logger] calls only write messages; both are left out.  The
    [except] clause logs and re-raises, so an exception leaves the pass as
    it is. *)
Definition attempt `{Runtime} (url : string) (retry_anti_bot : bool)
    (max_antibot_retries : Z) (browser_profiles : list Profile)
    (antibot_retry_count : Z) (kwargs : Kwargs) : M (Outcome * Kwargs) :=
  '(request, kwargs) ← prepare_request url browser_profiles antibot_retry_count kwargs;
  response ← client_get request;
  outcome ← classify retry_anti_bot max_antibot_retries antibot_retry_count response;
  mret (outcome, kwargs).

(** The [while] loop and the [return response] after it.  Each pass that
    continues adds one to the counter, so [max_antibot_retries + 1] passes
    are enough; the [break] after the [try] is never reached, since the
    [try] body returns, raises or continues on every path. *)
Fixpoint get_loop `{Runtime} (fuel : nat) (url : string) (retry_anti_bot : bool)
    (max_antibot_retries : Z) (browser_profiles : list Profile)
    (antibot_retry_count : Z) (kwargs : Kwargs) (response : option Response)
  : M Response :=
  if antibot_retry_count <=? max_antibot_retries then
    match fuel with
    | O => out_of_fuel
    | S fuel' =>
        '(outcome, kwargs) ← attempt url retry_anti_bot max_antibot_retries
                               browser_profiles antibot_retry_count kwargs;
        match outcome with
        | Returned response => mret response
        | Continue response =>
            get_loop fuel' url retry_anti_bot max_antibot_retries browser_profiles
                     (antibot_retry_count + 1) kwargs (Some response)
        end
    end
  else
    match response with
    | Some response => mret response
    | None => raise (UnboundLocalError "response")
    end.

Definition get `{Runtime} (url : string) (retry_anti_bot : bool)
    (max_antibot_retries : Z) (kwargs : Kwargs) : M Response :=
  let antibot_retry_count := 0 in
  browser_profiles ← browser_profiles url;
  get_loop (Z.to_nat (max_antibot_retries + 1)) url retry_anti_bot
           max_antibot_retries browser_profiles antibot_retry_count kwargs None.

(** [try: m  finally: self.use_proxies = b] *)
Definition finally_set_use_proxies {A} (m : M A) (b : bool) : M A :=
  fun w st =>
    let '(r, st') := m w st in
    (r, {| self := set_use_proxies b (self st'); rand_pos := rand_pos st';
           time_pos := time_pos st'; trace := trace st' |}).

(** [try: m  except httpx.RequestError: handler] *)
Definition except_RequestError {A} (m handler : M A) : M A :=
  fun w st =>
    match m w st with
    | (Some (Raise e), st') =>
        if is_RequestError e then handler w st' else (Some (Raise e), st')
    | other => other
    end.

(** [retry_anti_bot] and [max_antibot_retries] travel in [**kwargs]; each
    call of [get] unpacks the caller's [kwargs] afresh. *)
Definition get_with_fallback `{Runtime} (url : string) (retry_anti_bot : bool)
    (max_antibot_retries : Z) (kwargs : Kwargs) : M Response :=
  c ← get_self;
  if negb (use_proxies c) then get url retry_anti_bot max_antibot_retries kwargs
  else
    except_RequestError
      (get url retry_anti_bot max_antibot_retries kwargs)
      (c ← get_self;
       put_self (set_use_proxies false c);;
       finally_set_use_proxies
         (get url retry_anti_bot max_antibot_retries kwargs) true).

(** ** A runtime and worlds to evaluate the client on *)

(** A runtime for ASCII data: case mapping and stripping act on ASCII
    letters and ASCII whitespace, [int] reads an optionally signed plain
    decimal numeral between whitespace, gzip and zlib are importable and
    brotli is not, no input is a compressed stream, and of the codecs that
    [Codec.bytes_decode] leaves to the runtime only ascii is registered. *)
Module AsciiRuntime.

Definition lower_char (c : ascii) : ascii :=
  let n := N_of_ascii c in
  if (65 <=? n)%N && (n <=? 90)%N then ascii_of_N (n + 32) else c.

Fixpoint lower (s : string) : string :=
  match s with
  | EmptyString => EmptyString
  | String c s' => String (lower_char c) (lower s')
  end.

Definition is_space (c : ascii) : bool :=
  let n := N_of_ascii c in (n =? 32)%N || ((9 <=? n)%N && (n <=? 13)%N).

Fixpoint lstrip (s : string) : string :=
  match s with
  | String c s' => if is_space c then lstrip s' else s
  | EmptyString => EmptyString
  end.

Definition strip (s : string) : string :=
  String.rev (lstrip (String.rev (lstrip s))).

Fixpoint digits (acc : Z) (s : string) : option Z :=
  match s with
  | EmptyString => Some acc
  | String c s' =>
      let n := N_of_ascii c in
      if (48 <=? n)%N && (n <=? 57)%N
      then digits (10 * acc + Z.of_N (n - 48)) s'
      else None
  end.

Definition parse_int (s : string) : option Z :=
  match strip s with
  | EmptyString => None
  | String "-" (String c r) => Z.opp <$> digits 0 (String c r)
  | String "+" (String c r) => digits 0 (String c r)
  | String "-" EmptyString | String "+" EmptyString => None
  | t => digits 0 t
  end.

Definition ascii_decode (content : Py.bytes) : Result string :=
  if forallb (fun b => Py.byte_val b <? 128) content
  then Ok (string_of_list_byte content)
  else Raise UnicodeDecodeError.

#[global] Instance runtime : Runtime := {|
  str_lower := lower;
  str_strip := strip;
  int_of_str := parse_int;
  gzip_importable := true;
  brotli_importable := false;
  zlib_importable := true;
  gzip_decompress := fun _ => None;
  brotli_decompress := fun _ => None;
  zlib_decompress := fun _ => None;
  zlib_decompress_raw := fun _ => None;
  other_codec := fun encoding =>
    if String.eqb encoding "ascii" then Some ascii_decode else None
|}.

End AsciiRuntime.

Definition page (status : Z) (redirects : nat) (body : string) : Response :=
  {| status_code := status; history := redirects; retry_after := None;
     content_encoding := None; content_type := Some "text/html; charset=utf-8";
     content := list_byte_of_string body; text := body |}.

(** A network that answers every request with the same response. *)
Definition always (r : Response) : World :=
  {| random_stream := fun n => n; time_stream := fun _ => 1700000000;
     transport := fun _ _ => Ok r |}.

Definition no_kwargs : Kwargs :=
  {| kw_headers := None; kw_cookies := None; kw_other := ∅ |}.

Definition direct_client : EnhancedHttpClient :=
  __init__ [] 30 3 1 10 false None.

Definition proxied_client : EnhancedHttpClient :=
  __init__ [] 30 3 1 10 true (Some ["http://10.0.0.1:8080"; "http://10.0.0.2:8080"]).

Definition example_url : string := "https://www.example.nl/huur/leiden".

(** ** Predicates on listings *)

Module Listing.

(** A text field is present when it is set and not empty, a numeric field
    when it is set and not zero. *)
Definition present_str (f : option string) : bool :=
  match f with Some s => Py.truthy s | None => false end.

Definition present_int (f : option Z) : bool :=
  match f with Some n => negb (n =? 0) | None => false end.

(** The eight identifying fields, an absent one as [None], a present one
    as the string it contributes to the hash input. *)
Definition slot_str (f : option string) : option string :=
  if present_str f then f else None.

Definition slot_int (label : string) (f : option Z) : option string :=
  match f with
  | Some n => if n =? 0 then None else Some (label +:+ Py.str_int n)
  | None => None
  end.

Definition slots (l : PropertyListing) : list (option string) :=
  [ slot_str (url l); slot_str (source_id l); slot_str (title l);
    slot_str (address l); slot_str (postal_code l); slot_str (city l);
    slot_int "area:" (living_area l); slot_int "price:" (price_numeric l) ].

Definition has_identifier (l : PropertyListing) : bool :=
  existsb (fun o : option string => match o with Some _ => true | None => false end)
          (slots l).

(** Equality of the identifying fields as the listings hold them. *)
Definition same_identifying_fields (l1 l2 : PropertyListing) : Prop :=
  url l1 = url l2 /\ source_id l1 = source_id l2 /\ title l1 = title l2 /\
  address l1 = address l2 /\ postal_code l1 = postal_code l2 /\
  city l1 = city l2 /\ living_area l1 = living_area l2 /\
  price_numeric l1 = price_numeric l2.

(** [c] occurs in [s]. *)
Fixpoint mentions (c : ascii) (s : string) : bool :=
  match s with
  | EmptyString => false
  | String a s' => Ascii.eqb a c || mentions c s'
  end.

Definition pipe_free (s : string) : Prop := mentions "|" s = false.

(** Which of the eight identifying fields are present. *)
Definition presence (l : PropertyListing) : list bool :=
  map (fun o : option string => match o with Some _ => true | None => false end)
      (slots l).

(** The values of the identifying fields, an absent one as [None]. *)
Definition value_int (f : option Z) : option Z :=
  if present_int f then f else None.

Definition identifying_values (l : PropertyListing)
  : list (option string) * option Z * option Z :=
  ([ slot_str (url l); slot_str (source_id l); slot_str (title l);
     slot_str (address l); slot_str (postal_code l); slot_str (city l) ],
   value_int (living_area l), value_int (price_numeric l)).

(** No present text field holds the separator. *)
Definition text_fields_pipe_free (l : PropertyListing) : bool :=
  forallb (fun o : option string =>
             match o with Some s => negb (mentions "|" s) | None => true end)
          [ slot_str (url l); slot_str (source_id l); slot_str (title l);
            slot_str (address l); slot_str (postal_code l); slot_str (city l) ].

End Listing.

(** ** Sample listings *)

Definition sample_listing : PropertyListing :=
  {| url := Some "https://x.nl/a"; source_id := Some "42"; title := None;
     address := Some ""; postal_code := None; city := None;
     living_area := Some 55; price_numeric := Some 1200;
     source := "vbt"; price := None; description := None; features := [];
     property_hash := None |}.

Definition sample_listing_recrawled : PropertyListing :=
  {| url := Some "https://x.nl/a"; source_id := Some "42"; title := None;
     address := Some ""; postal_code := None; city := None;
     living_area := Some 55; price_numeric := Some 1200;
     source := "huren_in_holland_rijnland"; price := Some "1.200 per maand";
     description := Some "Licht appartement"; features := [("Balkon", "Ja")];
     property_hash := Some "d027336118a122cac26c66b0eb2a6d8c" |}.



Definition sample_listing_repriced : PropertyListing :=
  {| url := Some "https://x.nl/a"; source_id := Some "42"; title := None;
     address := Some ""; postal_code := None; city := None;
     living_area := Some 55; price_numeric := Some 1250;
     source := "vbt"; price := None; description := None; features := [];
     property_hash := None |}.


(** ** Vocabulary for statements about runs *)

(** The client object and the trace are as before. *)
Definition frame (st st' : State) : Prop :=
  self st' = self st /\ trace st' = trace st.

(** The client object is as before, and only sleeps were added. *)
Definition slept (st st' : State) : Prop :=
  self st' = self st /\ requests (trace st') = requests (trace st).

(** The requests sent since [st]. *)
Definition new_requests (st st' : State) : list Request :=
  drop (length (requests (trace st))) (requests (trace st')).

(** Neither [headers] nor [cookies] is left in [kwargs]. *)
Definition popped (kwargs : Kwargs) : Prop :=
  kw_headers kwargs = None /\ kw_cookies kwargs = None.

(** The shape of the catalog: at least two entries, custom from the second. *)
Definition catalog_ok (profiles : list Profile) : Prop :=
  (2 <= length profiles)%nat /\
  forall i p, (1 <= i)%nat -> profiles !! i = Some p -> custom p = true.

(** The request carries the headers and cookies of the catalog entry that
    retry number [n] selects, as they are in the catalog. *)
Definition retry_fingerprint (profiles : list Profile) (n : Z) (r : Request) : Prop :=
  exists profile_name headers cookies,
    profiles !! Z.to_nat (Z.min n (Z.of_nat (length profiles) - 1))
      = Some (Custom profile_name headers cookies)
    /\ req_headers r = headers /\ req_cookies r = cookies.

(** The request carries the default browser headers drawn at [st], updated
    with the caller's headers, and the caller's cookies. *)
Definition first_fingerprint (w : World) (st : State) (kwargs : Kwargs) (r : Request)
  : Prop :=
  exists headers st',
    _get_browser_headers w st = (Some (Ok headers), st')
    /\ req_headers r = dict_update headers (default ∅ (kw_headers kwargs))
    /\ req_cookies r = default ∅ (kw_cookies kwargs).

(** A 200 response, reached through at most ten redirects, whose text as
    the anti-bot check sees it (after the manual pass) matches a signature. *)
Definition antibot_page `{Runtime} (c : EnhancedHttpClient) (r : Response) : bool :=
  (status_code r =? 200) && (history r <=? 10)%nat &&
  match manual_decode c r with
  | Ok r' => anti_bot_detected (text r')
  | Raise _ => false
  end.

(** Run from [st] in [w], [m] returns a value that satisfies [P], in a
    state related to [st] by [R]. *)
Definition returns {A} (R : State -> State -> Prop) (P : A -> Prop) (m : M A)
    (w : World) (st : State) : Prop :=
  exists a st', m w st = (Some (Ok a), st') /\ R st st' /\ P a.

(** A computation that always returns and leaves client and trace alone. *)
Definition silent {A} (P : A -> Prop) (m : M A) : Prop :=
  forall w st, returns frame P m w st.

(** The pass from the request on: the request goes out, the answer is
    classified. *)
Definition rest_of_attempt `{Runtime} (flag : bool) (max count : Z)
    (request : Request) (kwargs : Kwargs) : M (Outcome * Kwargs) :=
  response ← client_get request;
  outcome ← classify flag max count response;
  mret (outcome, kwargs).

(** ** More worlds *)

Definition captcha_world : World := always (page 200 0 "captcha").

(** Every request meets a transport error. *)
Definition offline_world : World :=
  {| random_stream := fun n => n; time_stream := fun _ => 1700000000;
     transport := fun _ _ => Raise (RequestError "connection failed") |}.

(** Requests through a proxy fail, direct ones are answered. *)
Definition proxy_down_world : World :=
  {| random_stream := fun n => n; time_stream := fun _ => 1700000000;
     transport := fun _ r =>
       match req_proxies r with
       | Some _ => Raise (RequestError "proxy error")
       | None => Ok (page 200 0 "<html>te huur</html>")
       end |}.

Definition kwargs_with_overrides : Kwargs :=
  {| kw_headers := Some {[ "X-Requested-With" := "XMLHttpRequest" ]};
     kw_cookies := Some {[ "sid" := "abc" ]};
     kw_other := ∅ |}.

(** The requests of a call whose every answer is an anti-bot page. *)
Definition captcha_requests : list Request :=
  new_requests (initial proxied_client)
    (snd (get example_url true 8 kwargs_with_overrides captcha_world
              (initial proxied_client))).

(** What the loop relies on about [kwargs] at pass [count]: from the second
    pass on, [headers] and [cookies] have been popped. *)
Definition ready (count : Z) (kwargs : Kwargs) : Prop :=
  count = 0 \/ (1 <= count /\ popped kwargs).

(** ** Further vocabulary *)

(** Only the characters [0-9a-f]. *)
Definition is_lower_hex (s : string) : bool :=
  forallb (fun c => existsb (Ascii.eqb c) (list_ascii_of_string "0123456789abcdef"))
          (list_ascii_of_string s).

(** A listing in which nothing identifies the property. *)
Definition anonymous_listing : PropertyListing :=
  {| url := None; source_id := Some ""; title := None; address := Some "";
     postal_code := None; city := None; living_area := Some 0; price_numeric := None;
     source := "vbt"; price := Some "op aanvraag"; description := None; features := [];
     property_hash := None |}.

(** Some string that is hashed holds a surrogate: one of the six text
    fields, or the uuid when nothing identifies the listing. *)
Definition holds_surrogate (uuid4 : string) (l : PropertyListing) : bool :=
  if Listing.has_identifier l then
    existsb (fun f : option string =>
               match f with Some s => Py.has_surrogate s | None => false end)
            [url l; source_id l; title l; address l; postal_code l; city l]
  else Py.has_surrogate uuid4.

(** Every character is below 128. *)
Definition is_ascii (s : string) : bool :=
  forallb (fun c => (N_of_ascii c <? 128)%N) (list_ascii_of_string s).

(** The title json.loads makes of the escape \ud83d, an emoji cut in half:
    the one code point U+D83D. *)
Definition half_emoji : string := string_of_list_byte ["237"; "160"; "189"]%byte.

Definition listing_with_half_emoji : PropertyListing :=
  {| url := Some "https://x.nl/a"; source_id := Some "42";
     title := Some ("Appartement " +:+ half_emoji);
     address := None; postal_code := None; city := None;
     living_area := Some 55; price_numeric := Some 1200;
     source := "vbt"; price := None; description := None; features := [];
     property_hash := None |}.

(** [sample_listing] with its absent fields written the other way. *)
Definition sample_listing_blank : PropertyListing :=
  {| url := Some "https://x.nl/a"; source_id := Some "42"; title := Some "";
     address := None; postal_code := Some ""; city := None;
     living_area := Some 55; price_numeric := Some 1200;
     source := "vbt"; price := None; description := None; features := [];
     property_hash := None |}.

(** A runtime like [AsciiRuntime.runtime] whose zlib inflates one stream,
    the bytes [deflated_hello], to [hello utf-8]; gzip rejects it as gzip
    rejects what lacks its magic number. *)
Definition deflated_hello : Py.bytes :=
  ["120"; "156"; "203"; "072"; "205"; "201"; "201"; "007"; "000"; "006"; "044";
   "002"; "021"]%byte.

Definition inflating_runtime : Runtime := {|
  str_lower := AsciiRuntime.lower;
  str_strip := AsciiRuntime.strip;
  int_of_str := AsciiRuntime.parse_int;
  gzip_importable := true;
  brotli_importable := false;
  zlib_importable := true;
  gzip_decompress := fun _ => None;
  brotli_decompress := fun _ => None;
  zlib_decompress := fun content =>
    if bool_decide (map Py.byte_val content = map Py.byte_val deflated_hello)
    then Some (list_byte_of_string "hello") else None;
  zlib_decompress_raw := fun _ => None;
  other_codec := fun encoding =>
    if String.eqb encoding "ascii" then Some AsciiRuntime.ascii_decode else None
|}.

(** The text is well-formed UTF-8. *)
Definition utf8_valid (content : Py.bytes) : bool :=
  Codec.utf8_scan 0 0x80 0xBF (map Py.byte_val content).

(** The bytes the manual pass decodes, and the charset it decodes them with. *)
Definition manual_input `{Runtime} (c : EnhancedHttpClient) (r : Response) : Py.bytes :=
  _try_decompress_content c (content r) (Some (default "" (content_encoding r))).

Definition manual_charset `{Runtime} (r : Response) : option string :=
  _extract_charset (Some (default "" (content_type r))).

(** A long page without NUL bytes. *)
Definition long_page : Response :=
  page 200 0 ("<html><body>" +:+
              "Te huur: licht appartement aan de Kerkstraat in Leiden, 55 m2, " +:+
              "per direct beschikbaar, huurprijs 1200 euro per maand." +:+
              "</body></html>").

(** What a request may name as its proxy on a client [c]: nothing, or a
    non-empty member of the proxy list of a client that uses proxies. *)
Definition proxy_ok (c : EnhancedHttpClient) (o : option string) : Prop :=
  match o with
  | None => True
  | Some p => use_proxies c = true /\ In p (proxy_list c) /\ Py.truthy p = true
  end.

(** The caller does not set the header [k]. *)
Definition not_overridden (k : string) (kwargs : Kwargs) : Prop :=
  forall custom_headers, kw_headers kwargs = Some custom_headers -> custom_headers !! k = None.

(** What every request of a call [get(url, **kwargs)] on client [c] has,
    the one at position [count] in particular. *)
Definition well_formed_request (c : EnhancedHttpClient) (url : string) (kwargs : Kwargs)
    (count : Z) (r : Request) : Prop :=
  req_url r = url
  /\ req_kwargs r = kw_other kwargs
  /\ proxy_ok c (req_proxies r)
  /\ (count = 0 /\ not_overridden "Accept-Encoding" kwargs \/ 1 <= count ->
      req_headers r !! "Accept-Encoding" = Some "gzip, deflate, br").

(** What the loop knows about [kwargs] at pass [count] of a call that was
    given [kwargs0]. *)
Definition kwargs_at (kwargs0 : Kwargs) (count : Z) (kwargs : Kwargs) : Prop :=
  (count = 0 /\ kwargs = kwargs0)
  \/ (1 <= count /\ popped kwargs /\ kw_other kwargs = kw_other kwargs0).

(** Every entry of the catalog announces the three encodings. *)
Definition catalog_accepts_encodings (profiles : list Profile) : Prop :=
  forall i profile_name headers cookies,
    profiles !! i = Some (Custom profile_name headers cookies) ->
    headers !! "Accept-Encoding" = Some "gzip, deflate, br".

(** [s.count(c)] for a one-character [c]. *)
Fixpoint count_char (c : ascii) (s : string) : nat :=
  match s with
  | EmptyString => 0
  | String a s' => (if Ascii.eqb a c then 1 else 0) + count_char c s'
  end.

(** A server that answers 429 and names a date in [Retry-After]. *)
Definition rate_limited_until_date : Response :=
  {| status_code := 429; history := 0;
     retry_after := Some "Wed, 21 Oct 2015 07:28:00 GMT";
     content_encoding := None; content_type := Some "text/html; charset=utf-8";
     content := list_byte_of_string "slow down"; text := "slow down" |}.

(** The first answer is an anti-bot page, the ones after it are the site. *)
Definition captcha_once_world : World :=
  {| random_stream := fun n => n; time_stream := fun _ => 1700000000;
     transport := fun n _ =>
       Ok (match n with
           | O => page 200 0 "captcha"
           | S _ => page 200 0 "<html>te huur</html>"
           end) |}.

(** The state after [self.use_proxies = b]. *)
Definition assign_use_proxies (b : bool) (st : State) : State :=
  {| self := set_use_proxies b (self st); rand_pos := rand_pos st;
     time_pos := time_pos st; trace := trace st |}.

(** [s.replace(old, new)] for one-character arguments. *)
Fixpoint replace_char (old new : ascii) (s : string) : string :=
  match s with
  | EmptyString => EmptyString
  | String a s' => String (if Ascii.eqb a old then new else a) (replace_char old new s')
  end.

(** ** The search URLs of the two scrapers *)

Module VBTSearch.

(** [VBTVerhuurmakelaarsScraper.build_search_url] *)
Definition build_search_url `{Runtime} (city : option string) (page : Z) : string :=
  let base_url := "https://api.vbtverhuurmakelaars.nl/properties" in
  let params := [] in
  let params :=
    if opt_truthy city then
      let city_slug := replace_char " " "-" (str_lower (default "" city)) in
      params ++ ["city=" +:+ city_slug]
    else params in
  let params := params ++ ["page=" +:+ Py.str_int page] in
  let params := params ++ ["limit=20"] in
  let params := params ++ ["sort=newest"] in
  base_url +:+ "?" +:+ Py.join "&" params.

End VBTSearch.

Module HurenInHollandRijnlandSearch.

(** [HurenInHollandRijnland.build_search_url] *)
Definition build_search_url `{Runtime} (city : option string) (page : Z) : string :=
  let base_url := "https://api.housing-portal.nl/properties" in
  let params := [] in
  let params :=
    if opt_truthy city then
      let city_param := replace_char " " "-" (str_lower (default "" city)) in
      params ++ ["city=" +:+ city_param]
    else params in
  let params := params ++ ["page=" +:+ Py.str_int page] in
  let params := params ++ ["limit=20"] in
  base_url +:+ "?" +:+ Py.join "&" params.

End HurenInHollandRijnlandSearch.

(* ================================================================== *)
(** * Verification *)

(** ** MD5 and the hash on samples, against [hashlib] *)

Example md5_empty : MD5.hexdigest [] = "d41d8cd98f00b204e9800998ecf8427e".
Proof. vm_compute. reflexivity. Qed.

Example md5_abc :
  MD5.hexdigest (list_byte_of_string "abc") = "900150983cd24fb0d6963f7d28e17f72".
Proof. vm_compute. reflexivity. Qed.

Example md5_two_blocks :
  MD5.hexdigest (repeat "y"%byte 130) = "f2971b770e679c3dbe9d50a24266a452".
Proof. vm_compute. reflexivity. Qed.

Example sample_hash_input :
  Hasher.hash_input "u" sample_listing = "https://x.nl/a|42|area:55|price:1200".
Proof. vm_compute. reflexivity. Qed.

Example sample_hash :
  VBTVerhuurmakelaarsScraper._generate_property_hash "u" sample_listing
  = Some "d027336118a122cac26c66b0eb2a6d8c".
Proof. vm_compute. reflexivity. Qed.

(** ** The content hash *)

Module HasherFacts.
Import Listing.

Lemma append_str_slot ids f :
  Hasher.append_str ids f = ids ++ option_list (slot_str f).
Proof.
  destruct f as [s|]; simpl; [|by rewrite app_nil_r].
  unfold slot_str; simpl. destruct (Py.truthy s); simpl; [done|by rewrite app_nil_r].
Qed.

Lemma append_int_slot ids label f :
  Hasher.append_int ids label f = ids ++ option_list (slot_int label f).
Proof.
  destruct f as [n|]; simpl; [|by rewrite app_nil_r].
  destruct (n =? 0); simpl; [by rewrite app_nil_r|done].
Qed.

Lemma collect_slots l : Hasher.collect l = omap id (slots l).
Proof.
  unfold Hasher.collect, slots.
  rewrite !append_int_slot, !append_str_slot. simpl.
  repeat match goal with
         | |- context [slot_str ?f] => destruct (slot_str f); simpl
         | |- context [slot_int ?a ?f] => destruct (slot_int a f); simpl
         end; reflexivity.
Qed.

Lemma vbt_hash_input u l :
  VBTVerhuurmakelaarsScraper._generate_property_hash u l
  = MD5.hexdigest <$> Py.encode (Hasher.hash_input u l).
Proof. reflexivity. Qed.

Lemma hihr_hash_input u l :
  HurenInHollandRijnland._generate_property_hash u l
  = MD5.hexdigest <$> Py.encode (Hasher.hash_input u l).
Proof. reflexivity. Qed.

Lemma collect_same l1 l2 :
  same_identifying_fields l1 l2 -> Hasher.collect l1 = Hasher.collect l2.
Proof.
  intros (Hu & Hs & Ht & Ha & Hp & Hc & Hl & Hn).
  unfold Hasher.collect. by rewrite Hu, Hs, Ht, Ha, Hp, Hc, Hl, Hn.
Qed.

Lemma collect_nonempty l : has_identifier l = true -> Hasher.collect l <> [].
Proof.
  rewrite collect_slots. unfold has_identifier.
  induction (slots l) as [|[s|] sl IH]; simpl; [done|done|auto].
Qed.

Lemma hash_input_no_uuid u1 u2 l :
  Hasher.collect l <> [] -> Hasher.hash_input u1 l = Hasher.hash_input u2 l.
Proof. unfold Hasher.hash_input. by destruct (Hasher.collect l). Qed.

Lemma hash_input_same u1 u2 l1 l2 :
  same_identifying_fields l1 l2 -> has_identifier l1 = true ->
  Hasher.hash_input u1 l1 = Hasher.hash_input u2 l2.
Proof.
  intros Hsame Hid. rewrite (hash_input_no_uuid u1 u2 l1) by by apply collect_nonempty.
  unfold Hasher.hash_input. by rewrite (collect_same _ _ Hsame).
Qed.

End HasherFacts.

(** C1.  Two listings whose identifying fields (url, source_id, title,
    address, postal_code, city, living_area, price_numeric) are equal, at
    least one of them present, get the same hash: from either scraper, with
    whatever values [uuid.uuid4()] would take, and whatever the other
    fields hold. *)
Theorem generate_property_hash_deterministic
    (uuid1 uuid2 : string) (l1 l2 : PropertyListing) :
  Listing.same_identifying_fields l1 l2 ->
  Listing.has_identifier l1 = true ->
  VBTVerhuurmakelaarsScraper._generate_property_hash uuid1 l1
  = VBTVerhuurmakelaarsScraper._generate_property_hash uuid2 l2
  /\ HurenInHollandRijnland._generate_property_hash uuid1 l1
     = HurenInHollandRijnland._generate_property_hash uuid2 l2
  /\ VBTVerhuurmakelaarsScraper._generate_property_hash uuid1 l1
     = HurenInHollandRijnland._generate_property_hash uuid2 l2.
Proof.
  intros Hsame Hid.
  rewrite ?HasherFacts.vbt_hash_input, ?HasherFacts.hihr_hash_input.
  by rewrite (HasherFacts.hash_input_same uuid1 uuid2 l1 l2 Hsame Hid).
Qed.

Lemma generate_property_hash_deterministic_witness :
  VBTVerhuurmakelaarsScraper._generate_property_hash
    "1b9d6bcd-bbfd-4b2d-9b5d-ab8dfbbd4bed" sample_listing
  = VBTVerhuurmakelaarsScraper._generate_property_hash
      "6ec0bd7f-11c0-43da-975e-2a8ad9ebae0b" sample_listing_recrawled
  /\ HurenInHollandRijnland._generate_property_hash
       "1b9d6bcd-bbfd-4b2d-9b5d-ab8dfbbd4bed" sample_listing
     = HurenInHollandRijnland._generate_property_hash
         "6ec0bd7f-11c0-43da-975e-2a8ad9ebae0b" sample_listing_recrawled
  /\ VBTVerhuurmakelaarsScraper._generate_property_hash
       "1b9d6bcd-bbfd-4b2d-9b5d-ab8dfbbd4bed" sample_listing
     = HurenInHollandRijnland._generate_property_hash
         "6ec0bd7f-11c0-43da-975e-2a8ad9ebae0b" sample_listing_recrawled.
Proof.
  apply generate_property_hash_deterministic.
  - repeat split; reflexivity.
  - vm_compute; reflexivity.
Defined.

(** ** Sensitivity of the hash input *)

Module JoinFacts.
Import Listing.

Lemma mentions_app c s t : mentions c (s +:+ t) = mentions c s || mentions c t.
Proof. induction s as [|a s IH]; simpl; [done|]. by rewrite IH, orb_assoc. Qed.

Lemma pipe_cut s1 s2 r1 r2 :
  pipe_free s1 -> pipe_free s2 ->
  s1 +:+ String "|" r1 = s2 +:+ String "|" r2 -> s1 = s2 /\ r1 = r2.
Proof.
  unfold pipe_free. revert s2.
  induction s1 as [|a s1 IH]; intros [|b s2]; simpl; intros H1 H2 E.
  - by inversion E.
  - inversion E; subst. by rewrite Ascii.eqb_refl in H2.
  - inversion E; subst. by rewrite Ascii.eqb_refl in H1.
  - inversion E; subst.
    apply orb_false_iff in H1 as [_ H1]. apply orb_false_iff in H2 as [_ H2].
    destruct (IH s2 H1 H2) as [-> ->]; done.
Qed.

Lemma pipe_free_whole s1 s2 r : pipe_free s1 -> s1 <> s2 +:+ String "|" r.
Proof.
  unfold pipe_free. intros H ->. rewrite mentions_app in H. simpl in H.
  by rewrite orb_true_r in H.
Qed.

Lemma join_cons x y l : Py.join "|" (x :: y :: l) = x +:+ String "|" (Py.join "|" (y :: l)).
Proof. reflexivity. Qed.

(** On non-empty lists whose items hold no separator, joining is
    injective: the separators of the joined string tell where the items
    end, and so how many there are. *)
Lemma join_pipe_inj l1 l2 :
  Forall pipe_free l1 -> Forall pipe_free l2 -> l1 <> [] -> l2 <> [] ->
  Py.join "|" l1 = Py.join "|" l2 -> l1 = l2.
Proof.
  revert l2. induction l1 as [|x [|y l1] IH]; intros [|x' [|y' l2]] F1 F2 N1 N2 E;
    try done.
  - simpl in E. by subst.
  - rewrite join_cons in E. simpl in E.
    by destruct (pipe_free_whole _ _ _ (List.Forall_inv F1) E).
  - rewrite join_cons in E. simpl in E. symmetry in E.
    by destruct (pipe_free_whole _ _ _ (List.Forall_inv F2) E).
  - rewrite !join_cons in E.
    inversion F1 as [|? ? Hx F1']; inversion F2 as [|? ? Hx' F2']; subst.
    destruct (pipe_cut _ _ _ _ Hx Hx' E) as [-> E'].
    f_equal. apply IH; auto.
Qed.

Lemma pretty_N_char_no_pipe x : Ascii.eqb (pretty_N_char x) "|" = false.
Proof. unfold pretty_N_char. by repeat case_match. Qed.

Lemma pretty_N_go_pipe_free x s : pipe_free s -> pipe_free (pretty_N_go x s).
Proof.
  revert s. induction (N.lt_wf_0 x) as [x _ IH]; intros s Hs.
  destruct (decide (x = 0)%N) as [->|Hx]; [by rewrite pretty_N_go_0|].
  rewrite pretty_N_go_step by lia. apply IH.
  - apply N.div_lt; lia.
  - unfold pipe_free in *; simpl. by rewrite pretty_N_char_no_pipe, Hs.
Qed.

Lemma str_int_pipe_free n : pipe_free (Py.str_int n).
Proof.
  unfold Py.str_int, pretty, pretty_Z.
  destruct n as [|p|p]; [done| |].
  - unfold pretty, pretty_positive, pretty, pretty_N.
    case_decide; [done|]. by apply pretty_N_go_pipe_free.
  - unfold pipe_free. rewrite mentions_app. simpl.
    unfold pretty, pretty_positive, pretty, pretty_N.
    case_decide; [done|]. by apply pretty_N_go_pipe_free.
Qed.

End JoinFacts.

Module SensitivityFacts.
Import Listing HasherFacts JoinFacts.

Lemma slot_int_inj label f g :
  slot_int label f = slot_int label g -> value_int f = value_int g.
Proof.
  unfold slot_int, value_int, present_int.
  destruct f as [n|], g as [m|]; simpl; try done.
  - destruct (n =? 0), (m =? 0); simpl; try done.
    intros [= E]. apply String.app_inj in E. by apply pretty_Z_inj in E as ->.
  - by destruct (n =? 0).
  - by destruct (m =? 0).
Qed.

Lemma slots_values l1 l2 :
  slots l1 = slots l2 -> identifying_values l1 = identifying_values l2.
Proof.
  unfold slots, identifying_values. intros [= -> -> -> -> -> -> Ha Hp].
  by rewrite (slot_int_inj _ _ _ Ha), (slot_int_inj _ _ _ Hp).
Qed.

Lemma slot_int_pipe_free label f s :
  pipe_free label -> slot_int label f = Some s -> pipe_free s.
Proof.
  unfold slot_int. destruct f as [n|]; [|done]. destruct (n =? 0); [done|].
  intros Hl [= <-]. unfold pipe_free in *. rewrite mentions_app, Hl. simpl.
  apply str_int_pipe_free.
Qed.

Lemma Forall_omap_id (P : string -> Prop) (sl : list (option string)) :
  (forall s, In (Some s) sl -> P s) -> Forall P (omap id sl).
Proof.
  induction sl as [|[a|] sl IH]; simpl; intros H.
  - constructor.
  - constructor; [apply H; by left|apply IH; intros s Hs; apply H; by right].
  - apply IH; intros s Hs; apply H; by right.
Qed.

Lemma slots_pipe_free l :
  text_fields_pipe_free l = true -> Forall pipe_free (omap id (slots l)).
Proof.
  intros H. apply Forall_omap_id. revert H.
  unfold text_fields_pipe_free, slots. cbn [forallb In]. rewrite !andb_true_iff.
  intros (H1 & H2 & H3 & H4 & H5 & H6 & _).
  intros s [E|[E|[E|[E|[E|[E|[E|[E|[]]]]]]]]];
    try (rewrite E in *; by apply negb_true_iff);
    by apply slot_int_pipe_free in E.
Qed.

Lemma omap_same_presence (s1 s2 : list (option string)) :
  map (fun o : option string => match o with Some _ => true | None => false end) s1
  = map (fun o : option string => match o with Some _ => true | None => false end) s2 ->
  omap id s1 = omap id s2 -> s1 = s2.
Proof.
  revert s2. induction s1 as [|[a|] s1 IH]; intros [|[b|] s2]; simpl; try done.
  - intros [= Hp] [= -> Ho]. f_equal. by apply IH.
  - intros [= Hp] Ho. f_equal. by apply IH.
Qed.

Lemma slot_str_truthy f s : slot_str f = Some s -> Py.truthy s = true.
Proof.
  unfold slot_str, present_str. destruct f as [t|]; [|done].
  destruct (Py.truthy t) eqn:E; [|done]. by intros [= <-].
Qed.

Lemma slot_int_truthy label f s :
  Py.truthy label = true -> slot_int label f = Some s -> Py.truthy s = true.
Proof.
  unfold slot_int. destruct f as [n|]; [|done]. destruct (n =? 0); [done|].
  intros Hl [= <-]. by destruct label.
Qed.

Lemma slots_truthy l : Forall (fun x => Py.truthy x = true) (omap id (slots l)).
Proof.
  apply Forall_omap_id. unfold slots. cbn [In].
  intros s [E|[E|[E|[E|[E|[E|[E|[E|[]]]]]]]]];
    try (by apply slot_str_truthy in E);
    by apply slot_int_truthy in E.
Qed.

Lemma filter_truthy l :
  filter (fun x => Py.truthy x = true) (omap id (slots l)) = omap id (slots l).
Proof.
  pose proof (slots_truthy l) as H.
  induction H as [|x xs Hx _ IH]; [done|].
  rewrite filter_cons_True by done. by rewrite IH.
Qed.

(** With an identifier present, the hash input is the joined identifiers. *)
Lemma hash_input_join u l :
  omap id (slots l) <> [] ->
  Hasher.hash_input u l = Py.join "|" (omap id (slots l)).
Proof.
  intros Hne. unfold Hasher.hash_input. rewrite collect_slots.
  destruct (omap id (slots l)) eqn:E; [done|]. by rewrite <- E, filter_truthy.
Qed.

(** The hash input determines the identifiers it was joined from. *)
Lemma hash_input_inj u1 u2 l1 l2 :
  has_identifier l1 = true -> has_identifier l2 = true ->
  text_fields_pipe_free l1 = true -> text_fields_pipe_free l2 = true ->
  Hasher.hash_input u1 l1 = Hasher.hash_input u2 l2 ->
  Hasher.collect l1 = Hasher.collect l2.
Proof.
  intros I1 I2 F1 F2 E.
  pose proof (collect_nonempty l1 I1) as N1. pose proof (collect_nonempty l2 I2) as N2.
  rewrite collect_slots in N1, N2. rewrite !collect_slots.
  rewrite (hash_input_join u1 l1 N1), (hash_input_join u2 l2 N2) in E.
  apply join_pipe_inj; [by apply slots_pipe_free|by apply slots_pipe_free|done|done|done].
Qed.

(** A different value in a field that is present in both listings, the
    other fields present alike, is a different list of identifiers. *)
Lemma collect_values l1 l2 :
  presence l1 = presence l2 ->
  identifying_values l1 <> identifying_values l2 ->
  Hasher.collect l1 <> Hasher.collect l2.
Proof.
  intros Hpres Hdiff E. apply Hdiff, slots_values.
  apply omap_same_presence; [exact Hpres|]. by rewrite <- !collect_slots.
Qed.

End SensitivityFacts.



(** In particular, with the same fields present, a different value in one
    of them is a different hash input. *)
Example repriced_listing_hashes_differently :
  Listing.presence sample_listing = Listing.presence sample_listing_repriced
  /\ Hasher.hash_input "u1" sample_listing
     <> Hasher.hash_input "u2" sample_listing_repriced.
Proof.
  split; [reflexivity|]. intros E.
  apply (SensitivityFacts.collect_values sample_listing sample_listing_repriced);
    [reflexivity|by intros E'; vm_compute in E'|].
  by apply (SensitivityFacts.hash_input_inj "u1" "u2").
Qed.


(** ** Decoding *)

(** The codecs on a few bytes: 0xC3 0xA9 is U+00E9 in UTF-8, 0xE9 alone is
    not UTF-8 and is U+00E9 in latin1, 0xC0 0x80 is an overlong form, and
    0x80 is the euro sign in cp1252. *)
Example utf8_decodes :
  Codec.bytes_decode "utf-8" ["195"; "169"]%byte
  = Ok (string_of_list_byte ["195"; "169"]%byte).
Proof. reflexivity. Qed.

Example utf8_rejects_overlong :
  Codec.bytes_decode "utf-8" ["192"; "128"]%byte = Raise UnicodeDecodeError.
Proof. reflexivity. Qed.

Example cp1252_euro :
  Codec.bytes_decode "cp1252" ["128"]%byte
  = Ok (string_of_list_byte ["226"; "130"; "172"]%byte).
Proof. reflexivity. Qed.

Example cp1252_undefined :
  Codec.bytes_decode "cp1252" ["129"]%byte = Raise UnicodeDecodeError.
Proof. reflexivity. Qed.

Example ladder_falls_to_latin1 :
  _decode_content ["233"]%byte None = Ok (string_of_list_byte ["195"; "169"]%byte)
  /\ _decode_content ["233"]%byte (Some "utf-8")
     = Ok (string_of_list_byte ["195"; "169"]%byte).
Proof. split; reflexivity. Qed.

Example extract_charset_sample :
  _extract_charset (Some "text/html; Charset= ISO-8859-1 ") = Some "iso-8859-1"
  /\ _extract_charset (Some "application/json") = None.
Proof. split; reflexivity. Qed.

Module DecodeFacts.

Lemma bytes_decode_empty `{Runtime} encoding : Codec.bytes_decode encoding [] = Ok "".
Proof. reflexivity. Qed.

Lemma utf8_total `{Runtime} content :
  Codec.bytes_decode "utf-8" content = Codec.utf8_decode content.
Proof. by destruct content. Qed.

Lemma latin1_total `{Runtime} content :
  Codec.bytes_decode "latin1" content = Ok (Codec.latin1_decode content).
Proof. by destruct content. Qed.

Lemma cp1252_total `{Runtime} content :
  Codec.bytes_decode "cp1252" content = Codec.cp1252_decode content.
Proof. by destruct content. Qed.

(** The ladder ends at latin1 at the latest: it always produces a string. *)
Lemma ladder_total `{Runtime} content :
  exists s, try_encodings ["utf-8"; "latin1"; "cp1252"; "iso-8859-1"] content = Some (Ok s).
Proof.
  cbn [try_encodings]. rewrite utf8_total, latin1_total.
  unfold Codec.utf8_decode.
  destruct (Codec.utf8_scan _ _ _ _); simpl; eauto.
Qed.

Lemma decode_content_no_charset `{Runtime} content :
  exists s, _decode_content content None = Ok s.
Proof.
  unfold _decode_content. destruct (ladder_total content) as [s ->]. eauto.
Qed.

(** With a charset, the only way to fail is for [content.decode(charset)]
    to raise something else than [UnicodeDecodeError]. *)
Lemma decode_content_cases `{Runtime} content cs :
  (exists s, _decode_content content (Some cs) = Ok s)
  \/ (Py.truthy cs = true /\
      _decode_content content (Some cs) = Codec.bytes_decode cs content /\
      forall s, Codec.bytes_decode cs content <> Ok s).
Proof.
  unfold _decode_content. destruct (ladder_total content) as [s ->].
  destruct (Py.truthy cs); [|eauto].
  destruct (Codec.bytes_decode cs content) as [t|e] eqn:E; [eauto|].
  destruct e; eauto; right; repeat split; congruence.
Qed.

Lemma bytes_decode_unknown `{Runtime} content cs :
  content <> [] ->
  cs <> "utf-8" -> cs <> "latin1" -> cs <> "iso-8859-1" -> cs <> "cp1252" ->
  other_codec cs = None ->
  Codec.bytes_decode cs content = Raise (LookupError ("unknown encoding: " +:+ cs)).
Proof.
  intros Hc H1 H2 H3 H4 Ho. unfold Codec.bytes_decode.
  destruct content as [|b content]; [done|].
  apply String.eqb_neq in H1, H2, H3, H4. by rewrite H1, H2, H3, H4, Ho.
Qed.

(** Of empty bytes [_decode_content] makes the empty string, whatever the
    charset. *)
Lemma decode_content_empty `{Runtime} charset : _decode_content [] charset = Ok "".
Proof. destruct charset as [cs|]; [|done]. unfold _decode_content. by destruct (Py.truthy cs). Qed.

End DecodeFacts.

(** C6 does not hold of the code.  [_decode_content] only catches
    [UnicodeDecodeError]: when the supplied charset names no codec,
    [content.decode(charset)] raises [LookupError], and so does
    [_decode_content], for every byte sequence that is not empty.  (Empty
    bytes decode to the empty string before the codec is looked up:
    [DecodeFacts.decode_content_empty].) *)
Theorem decode_content_unknown_charset `{Runtime} (content : Py.bytes) (charset : string) :
  content <> [] ->
  Py.truthy charset = true ->
  charset <> "utf-8" -> charset <> "latin1" ->
  charset <> "iso-8859-1" -> charset <> "cp1252" ->
  other_codec charset = None ->
  _decode_content content (Some charset)
  = Raise (LookupError ("unknown encoding: " +:+ charset)).
Proof.
  intros Hc Ht H1 H2 H3 H4 Ho. unfold _decode_content. rewrite Ht.
  by rewrite (DecodeFacts.bytes_decode_unknown content charset Hc H1 H2 H3 H4 Ho).
Qed.

Lemma decode_content_unknown_charset_witness :
  _decode_content (list_byte_of_string "<html>captcha</html>") (Some "foo")
  = Raise (LookupError "unknown encoding: foo").
Proof.
  apply (decode_content_unknown_charset
           (list_byte_of_string "<html>captcha</html>") "foo");
    solve [reflexivity | discriminate].
Defined.

(** The one byte sequence that an unknown charset does not stop. *)
Example empty_body_unknown_charset :
  _decode_content [] (Some "foo") = Ok ""
  /\ _decode_content ["120"]%byte (Some "foo") = Raise (LookupError "unknown encoding: foo").
Proof. split; reflexivity. Qed.

(** Without a charset, or with one whose codec decodes or raises
    [UnicodeDecodeError], a string is returned. *)
Lemma decode_content_total_on_known `{Runtime} (content : Py.bytes) (charset : option string) :
  (forall cs, charset = Some cs ->
     (exists s, Codec.bytes_decode cs content = Ok s)
     \/ Codec.bytes_decode cs content = Raise UnicodeDecodeError) ->
  exists s, _decode_content content charset = Ok s.
Proof.
  intros Hcs. destruct charset as [cs|]; [|apply DecodeFacts.decode_content_no_charset].
  destruct (DecodeFacts.decode_content_cases content cs) as [?|(_ & E & Hne)]; [done|].
  destruct (Hcs cs eq_refl) as [[s Hs]|Hu]; [by destruct (Hne s)|].
  unfold _decode_content in *. destruct (DecodeFacts.ladder_total content) as [s Hl].
  rewrite Hl in *. destruct (Py.truthy cs); [|eauto]. rewrite Hu. eauto.
Qed.

(** ** Running computations *)

Module RunFacts.

Lemma frame_refl st : frame st st.
Proof. done. Qed.

Lemma frame_trans st1 st2 st3 : frame st1 st2 -> frame st2 st3 -> frame st1 st3.
Proof. unfold frame. intros [-> ->] [-> ->]. done. Qed.

Lemma frame_slept st st' : frame st st' -> slept st st'.
Proof. unfold frame, slept. by intros [-> ->]. Qed.

Lemma slept_trans st1 st2 st3 : slept st1 st2 -> slept st2 st3 -> slept st1 st3.
Proof. unfold slept. intros [-> ->] [-> ->]. done. Qed.

Lemma requests_app tr1 tr2 : requests (tr1 ++ tr2) = requests tr1 ++ requests tr2.
Proof. unfold requests. apply omap_app. Qed.

Lemma returns_bind_frame {A B} (P : A -> Prop) (Q : B -> Prop)
    (m : M A) (k : A -> M B) w st :
  returns frame P m w st ->
  (forall a st', m w st = (Some (Ok a), st') -> frame st st' -> P a ->
                 returns frame Q (k a) w st') ->
  returns frame Q (m ≫= k) w st.
Proof.
  intros (a & st1 & E1 & R1 & Pa) Hk.
  destruct (Hk a st1 E1 R1 Pa) as (b & st2 & E2 & R2 & Qb).
  exists b, st2. split; [|split; [by eapply frame_trans|done]].
  unfold mbind, M_bind, bind. by rewrite E1.
Qed.

Lemma returns_ret_frame {A} (P : A -> Prop) a w st :
  P a -> returns frame P (mret a) w st.
Proof. intros HP. by exists a, st. Qed.

Lemma silent_ret {A} (P : A -> Prop) a : P a -> silent P (mret a).
Proof. intros HP w st. exists a, st. done. Qed.

Lemma silent_bind {A B} (P : A -> Prop) (Q : B -> Prop) (m : M A) (k : A -> M B) :
  silent P m -> (forall a, P a -> silent Q (k a)) -> silent Q (m ≫= k).
Proof.
  intros Hm Hk w st. destruct (Hm w st) as (a & st1 & E1 & F1 & Pa).
  destruct (Hk a Pa w st1) as (b & st2 & E2 & F2 & Qb).
  exists b, st2. split; [|split; [by eapply frame_trans|done]].
  unfold mbind, M_bind, bind. by rewrite E1.
Qed.

Lemma silent_weaken {A} (P P' : A -> Prop) (m : M A) :
  silent P m -> (forall a, P a -> P' a) -> silent P' m.
Proof.
  intros Hm HP w st. destruct (Hm w st) as (a & st1 & E1 & F1 & Pa).
  exists a, st1. auto.
Qed.

Lemma silent_draw : silent (fun _ => True) draw.
Proof. intros w st. eexists _, _. split; [reflexivity|]. done. Qed.

Lemma silent_time : silent (fun _ => True) time_time.
Proof. intros w st. eexists _, _. split; [reflexivity|]. done. Qed.

Lemma silent_get_self : silent (fun _ => True) get_self.
Proof. intros w st. eexists _, _. split; [reflexivity|]. done. Qed.

Lemma silent_random_choice {A} (l : list A) :
  l <> [] -> silent (fun x => In x l) (random_choice l).
Proof.
  intros Hl. unfold random_choice.
  eapply silent_bind; [apply silent_draw|]. intros u _.
  destruct (l !! (u mod length l)%nat) as [x|] eqn:E.
  - apply silent_ret. apply list_elem_of_In. by eapply list_elem_of_lookup_2.
  - apply lookup_ge_None in E.
    assert (0 < length l)%nat by (destruct l; [done|simpl; lia]).
    pose proof (Nat.mod_upper_bound u (length l)). lia.
Qed.

Lemma silent_random_randint a b :
  a <= b -> silent (fun x => a <= x <= b) (random_randint a b).
Proof.
  intros Hab. unfold random_randint.
  eapply silent_bind; [apply silent_draw|]. intros u _.
  destruct (b <? a) eqn:E; [lia|]. apply silent_ret.
  pose proof (Z.mod_pos_bound (Z.of_nat u) (b - a + 1)). lia.
Qed.

Lemma silent_get_browser_headers : silent (fun _ => True) _get_browser_headers.
Proof.
  unfold _get_browser_headers.
  eapply silent_bind; [by apply silent_random_choice|]. intros p _.
  eapply silent_bind; [by apply silent_random_choice|]. intros r _.
  by apply silent_ret.
Qed.

Lemma silent_get_random_proxy : silent (fun _ => True) _get_random_proxy.
Proof.
  unfold _get_random_proxy. intros w st.
  eapply (returns_bind_frame (fun c => c = self st)).
  { eexists _, _. split; [reflexivity|]. done. }
  intros c st' _ _ ->.
  destruct (use_proxies (self st)); simpl; [|by apply returns_ret_frame].
  destruct (proxy_list (self st)) as [|p ps] eqn:El; [by apply returns_ret_frame|].
  eapply returns_bind_frame; [by apply silent_random_choice|].
  intros x st2 _ _ _. by apply returns_ret_frame.
Qed.

End RunFacts.

Module AttemptFacts.
Import RunFacts.

Lemma returns_bind {A B} (R : State -> State -> Prop) (P : A -> Prop) (Q : B -> Prop)
    (m : M A) (k : A -> M B) w st :
  (forall s1 s2 s3, R s1 s2 -> R s2 s3 -> R s1 s3) ->
  returns R P m w st ->
  (forall a st', m w st = (Some (Ok a), st') -> R st st' -> P a ->
                 returns R Q (k a) w st') ->
  returns R Q (m ≫= k) w st.
Proof.
  intros HR (a & st1 & E1 & R1 & Pa) Hk.
  destruct (Hk a st1 E1 R1 Pa) as (b & st2 & E2 & R2 & Qb).
  exists b, st2. split; [|split; [by eapply HR|done]].
  unfold mbind, M_bind, bind. by rewrite E1.
Qed.

Lemma returns_ret {A} (R : State -> State -> Prop) (P : A -> Prop) a w st :
  R st st -> P a -> returns R P (mret a) w st.
Proof. intros HR HP. by exists a, st. Qed.

Lemma returns_weaken {A} (R R' : State -> State -> Prop) (P P' : A -> Prop) m w st :
  returns R P m w st ->
  (forall st', R st st' -> R' st st') -> (forall a, P a -> P' a) ->
  returns R' P' m w st.
Proof. intros (a & st1 & E & HR & HP) H1 H2. exists a, st1. auto. Qed.

Lemma slept_refl st : slept st st.
Proof. done. Qed.

Lemma returns_sleep_retry_delay lo hi w st :
  returns slept (fun _ => True) (sleep_retry_delay lo hi) w st.
Proof.
  eexists _, _. split; [reflexivity|]. split; [|done].
  split; [done|]. simpl. rewrite requests_app. simpl. by rewrite app_nil_r.
Qed.

Lemma returns_sleep_human_delay k w st :
  returns slept (fun _ => True) (sleep_human_delay k) w st.
Proof.
  eexists _, _. split; [reflexivity|]. split; [|done].
  split; [done|]. simpl. rewrite requests_app. simpl. by rewrite app_nil_r.
Qed.

Lemma catalog_nonempty profiles : catalog_ok profiles -> profiles <> [].
Proof. intros [Hlen _] ->. simpl in Hlen. lia. Qed.

Lemma py_index_0 {A} (l : list A) x xs w st :
  l = x :: xs -> py_index l 0 w st = (Some (Ok x), st).
Proof. by intros ->. Qed.

Lemma py_index_nat {A} (l : list A) (i : Z) x w st :
  0 <= i -> l !! Z.to_nat i = Some x -> py_index l i w st = (Some (Ok x), st).
Proof.
  intros Hi Hx. unfold py_index.
  destruct (i <? 0) eqn:E; [lia|]. rewrite E. by rewrite Hx.
Qed.

(** The first pass: default browser headers, the caller's cookies. *)
Lemma select_profile_first profiles kwargs w st :
  profiles <> [] ->
  exists p headers st',
    select_profile profiles 0 kwargs w st
    = (Some (Ok (p, headers, default ∅ (kw_cookies kwargs), snd (pop_cookies kwargs))), st')
    /\ frame st st'
    /\ _get_browser_headers w st = (Some (Ok headers), st').
Proof.
  intros Hne. destruct profiles as [|p ps]; [done|].
  destruct (silent_get_browser_headers w st) as (h & st' & E & F & _).
  exists p, h, st'. split; [|done].
  unfold select_profile. simpl (0 =? 0).  cbv iota.
  unfold mbind, M_bind, bind.
  rewrite (py_index_0 _ p ps) by done. by rewrite E.
Qed.

(** A retry: the catalog entry at [min(count, len - 1)], which is custom. *)
Lemma select_profile_retry profiles count kwargs w st :
  catalog_ok profiles -> 1 <= count ->
  exists profile_name headers cookies,
    profiles !! Z.to_nat (Z.min count (Z.of_nat (length profiles) - 1))
      = Some (Custom profile_name headers cookies)
    /\ select_profile profiles count kwargs w st
       = (Some (Ok (Custom profile_name headers cookies, headers, cookies, kwargs)), st).
Proof.
  intros [Hlen Hcustom] Hc.
  set (i := Z.min count (Z.of_nat (length profiles) - 1)).
  assert (1 <= i <= Z.of_nat (length profiles) - 1) as Hi by lia.
  destruct (profiles !! Z.to_nat i) as [p|] eqn:Ep;
    [|apply lookup_ge_None in Ep; lia].
  pose proof (Hcustom (Z.to_nat i) p ltac:(lia) Ep) as Hp.
  destruct p as [n|n h ck]; [done|]. exists n, h, ck. split; [done|].
  unfold select_profile. destruct (count =? 0) eqn:E0; [lia|].
  fold i. unfold mbind, M_bind, bind.
  by rewrite (py_index_nat profiles i (Custom n h ck)) by (done || lia).
Qed.

End AttemptFacts.

Module PrepareFacts.
Import RunFacts AttemptFacts.

Lemma returns_of_silent {A} (P : A -> Prop) (m : M A) w st :
  silent P m -> returns slept P m w st.
Proof.
  intros Hm. eapply returns_weaken; [apply Hm| |done]. apply frame_slept.
Qed.

Lemma returns_after {A B} (R : State -> State -> Prop) (Q : B -> Prop)
    (m : M A) (k : A -> M B) w st a st1 :
  (forall s1 s2 s3, R s1 s2 -> R s2 s3 -> R s1 s3) ->
  m w st = (Some (Ok a), st1) -> R st st1 ->
  returns R Q (k a) w st1 ->
  returns R Q (m ≫= k) w st.
Proof.
  intros HR E R1 (b & st2 & E2 & R2 & Qb). exists b, st2.
  split; [|split; [by eapply HR|done]].
  unfold mbind, M_bind, bind. by rewrite E.
Qed.

(** Proxy choice, the two sleeps and the keyword check, once the
    fingerprint is fixed and nothing is left to pop. *)
Lemma finish_request url headers cookies kwargs count w st :
  popped kwargs ->
  returns slept
    (fun rk : Request * Kwargs =>
       snd rk = kwargs /\ req_url (fst rk) = url /\ req_headers (fst rk) = headers
       /\ req_cookies (fst rk) = cookies /\ req_kwargs (fst rk) = kw_other kwargs)
    (c ← get_self;
     proxy ← (if use_proxies c then _get_random_proxy else mret None);
     proxy ← (if opt_truthy proxy && (0 <? count)
              then _get_random_proxy else mret proxy);
     (if 0 <? count
      then sleep_retry_delay (2 * count) (5 * count)
      else mret tt);;
     sleep_human_delay (1 + count);;
     (if bool_decide (kw_headers kwargs = None ∧ kw_cookies kwargs = None)
      then mret tt else raise TypeError);;
     mret ({| req_url := url; req_headers := headers; req_cookies := cookies;
              req_kwargs := kw_other kwargs;
              req_proxies := if opt_truthy proxy then proxy else None |},
           kwargs)) w st.
Proof.
  intros Hpop.
  eapply (returns_bind slept (fun _ => True)); [exact slept_trans| |].
  { apply returns_of_silent, silent_get_self. }
  intros c st1 _ _ _.
  eapply (returns_bind slept (fun _ => True)); [exact slept_trans| |].
  { destruct (use_proxies c).
    - apply returns_of_silent, silent_get_random_proxy.
    - by apply returns_ret. }
  intros proxy st2 _ _ _.
  eapply (returns_bind slept (fun _ => True)); [exact slept_trans| |].
  { destruct (opt_truthy proxy && (0 <? count)).
    - apply returns_of_silent, silent_get_random_proxy.
    - by apply returns_ret. }
  intros proxy' st3 _ _ _.
  eapply (returns_bind slept (fun _ => True)); [exact slept_trans| |].
  { destruct (0 <? count).
    - apply returns_sleep_retry_delay.
    - by apply returns_ret. }
  intros [] st4 _ _ _.
  eapply (returns_bind slept (fun _ => True)); [exact slept_trans| |].
  { apply returns_sleep_human_delay. }
  intros [] st5 _ _ _.
  rewrite bool_decide_eq_true_2 by exact Hpop.
  eapply (returns_bind slept (fun _ => True)); [exact slept_trans| |].
  { by apply returns_ret. }
  intros [] st6 _ _ _.
  apply returns_ret; [done|]. simpl. done.
Qed.

Lemma prepare_request_first url profiles kwargs w st :
  profiles <> [] ->
  returns slept
    (fun rk : Request * Kwargs =>
       popped (snd rk) /\ kw_other (snd rk) = kw_other kwargs
       /\ req_url (fst rk) = url /\ req_kwargs (fst rk) = kw_other kwargs
       /\ first_fingerprint w st kwargs (fst rk))
    (prepare_request url profiles 0 kwargs) w st.
Proof.
  intros Hne.
  destruct (select_profile_first profiles kwargs w st Hne) as (p & h & st1 & E & F & Eh).
  unfold prepare_request.
  eapply returns_after; [exact slept_trans|exact E|by apply frame_slept|].
  cbv beta iota zeta.
  destruct (apply_custom_headers h (snd (pop_cookies kwargs))) as [h' kw'] eqn:Ea.
  assert (popped kw' /\ kw_other kw' = kw_other kwargs
          /\ h' = dict_update h (default ∅ (kw_headers kwargs))) as (Hpop & Hother & Hh').
  { unfold apply_custom_headers, pop_cookies in Ea. simpl in Ea.
    destruct (kw_headers kwargs) as [custom_headers|] eqn:Ek;
      inversion Ea; subst; simpl; repeat split; try done.
    unfold dict_update. by rewrite (left_id_L ∅ (∪)). }
  eapply returns_weaken; [by apply finish_request|done|].
  intros [req kw2] (Hk & Hu & Hhd & Hck & Hkw); simpl in *. subst kw2.
  split; [exact Hpop|]. split; [exact Hother|]. split; [exact Hu|].
  split; [by rewrite Hkw|].
  exists h, st1. by rewrite Hhd, Hck, Hh'.
Qed.

Lemma prepare_request_retry url profiles count kwargs w st :
  catalog_ok profiles -> 1 <= count -> popped kwargs ->
  returns slept
    (fun rk : Request * Kwargs =>
       snd rk = kwargs /\ req_url (fst rk) = url
       /\ req_kwargs (fst rk) = kw_other kwargs
       /\ retry_fingerprint profiles count (fst rk))
    (prepare_request url profiles count kwargs) w st.
Proof.
  intros Hcat Hc Hpop.
  destruct (select_profile_retry profiles count kwargs w st Hcat Hc)
    as (n & h & ck & Hlook & E).
  unfold prepare_request.
  eapply returns_after; [exact slept_trans|exact E|done|].
  cbv beta iota zeta.
  assert (apply_custom_headers h kwargs = (h, kwargs)) as ->.
  { unfold apply_custom_headers. destruct Hpop as [-> _]. done. }
  eapply returns_weaken; [by apply finish_request|done|].
  intros [req kw2] (Hk & Hu & Hhd & Hck & Hkw); simpl in *. subst kw2.
  split; [done|]. split; [exact Hu|]. split; [exact Hkw|]. by exists n, h, ck.
Qed.

End PrepareFacts.

Module ClassifyFacts.
Import RunFacts AttemptFacts.

Lemma requests_log_sleep d st :
  requests (trace (log (Sleep d) st)) = requests (trace st).
Proof. simpl. rewrite requests_app. simpl. by rewrite app_nil_r. Qed.

Lemma requests_log_send r st :
  requests (trace (log (Send r) st)) = requests (trace st) ++ [r].
Proof. simpl. by rewrite requests_app. Qed.

Lemma classify_too_many_redirects `{Runtime} flag max count r w st :
  (10 < history r)%nat ->
  classify flag max count r w st = (Some (Raise (RequestError "Too many redirects")), st).
Proof.
  intros Hh. unfold classify.
  destruct (10 <? history r)%nat eqn:E; [done|]. apply Nat.ltb_ge in E. lia.
Qed.

Lemma classify_404 `{Runtime} flag max count r w st :
  (history r <= 10)%nat -> status_code r = 404 ->
  classify flag max count r w st = (Some (Ok (Returned r)), st).
Proof.
  intros Hh Hs. unfold classify.
  destruct (10 <? history r)%nat eqn:E; [apply Nat.ltb_lt in E; lia|].
  by rewrite Hs.
Qed.


Lemma classify_http_error `{Runtime} flag max count r w st :
  (history r <= 10)%nat -> 400 <= status_code r ->
  status_code r <> 404 -> status_code r <> 429 ->
  classify flag max count r w st
  = (Some (Raise (RequestError ("HTTP error: " +:+ Py.str_int (status_code r)))), st).
Proof.
  intros Hh Hs H404 H429. unfold classify.
  destruct (10 <? history r)%nat eqn:E; [apply Nat.ltb_lt in E; lia|].
  destruct (status_code r =? 429) eqn:E1; [lia|].
  destruct (400 <=? status_code r) eqn:E2; [|lia].
  destruct (status_code r =? 404) eqn:E3; [lia|]. done.
Qed.

Lemma classify_page `{Runtime} flag max count r r' w st :
  (history r <= 10)%nat -> status_code r < 400 ->
  manual_decode (self st) r = Ok r' ->
  classify flag max count r w st
  = (Some (Ok (if flag && (count <? max) && anti_bot_detected (text r')
               then Continue r' else Returned r')), st).
Proof.
  intros Hh Hs Hd. unfold classify.
  destruct (10 <? history r)%nat eqn:E; [apply Nat.ltb_lt in E; lia|].
  destruct (status_code r =? 429) eqn:E1; [lia|].
  destruct (400 <=? status_code r) eqn:E2; [lia|].
  unfold mbind, M_bind, bind, get_self, lift. rewrite Hd.
  destruct (flag && (count <? max)); simpl; [|done].
  by destruct (anti_bot_detected (text r')).
Qed.

(** A response is classified without sending anything and without
    touching the client; the model does not run out of fuel there. *)
Lemma classify_slept `{Runtime} flag max count r w st :
  slept st (snd (classify flag max count r w st))
  /\ fst (classify flag max count r w st) <> None.
Proof.
  destruct (Nat.lt_ge_cases 10 (history r)) as [Hh|Hh].
  { by rewrite classify_too_many_redirects. }
  destruct (decide (status_code r = 429)) as [E429|N429].
  { unfold classify.
    destruct (10 <? history r)%nat eqn:E; [apply Nat.ltb_lt in E; lia|].
    rewrite E429. simpl (429 =? 429). cbv iota.
    destruct (int_of_str _); [|done]. simpl. split; [|done].
    split; [done|]. apply requests_log_sleep. }
  destruct (decide (status_code r = 404)) as [E404|N404].
  { by rewrite classify_404. }
  destruct (Z.le_gt_cases 400 (status_code r)) as [Hs|Hs].
  { by rewrite classify_http_error. }
  destruct (manual_decode (self st) r) as [r'|e] eqn:Ed.
  { rewrite (classify_page flag max count r r') by (done || lia). done. }
  unfold classify.
  destruct (10 <? history r)%nat eqn:E; [apply Nat.ltb_lt in E; lia|].
  destruct (status_code r =? 429) eqn:E1; [lia|].
  destruct (400 <=? status_code r) eqn:E2; [lia|].
  unfold mbind, M_bind, bind, get_self, lift. rewrite Ed. done.
Qed.

End ClassifyFacts.

Module LoopFacts.
Import RunFacts AttemptFacts PrepareFacts ClassifyFacts.

(** The loop ends without sending anything. *)
Ltac nothing_sent :=
  split; [done|exists []; rewrite app_nil_r; split; [done|by intros []]].

Lemma attempt_unfold `{Runtime} url flag max profiles count kwargs w st
    (P : Request * Kwargs -> Prop) :
  returns slept P (prepare_request url profiles count kwargs) w st ->
  exists req kwargs' st1,
    slept st st1 /\ P (req, kwargs')
    /\ attempt url flag max profiles count kwargs w st
       = rest_of_attempt flag max count req kwargs' w st1.
Proof.
  intros ([req kw'] & st1 & E & Hs & HP). exists req, kw', st1.
  split; [done|]. split; [done|].
  unfold attempt, mbind, M_bind, bind. by rewrite E.
Qed.

Lemma rest_of_attempt_raise `{Runtime} flag max count req kwargs e w st :
  transport w (length (requests (trace st))) req = Raise e ->
  rest_of_attempt flag max count req kwargs w st
  = (Some (Raise e), log (Send req) st).
Proof.
  intros E. unfold rest_of_attempt, mbind, M_bind, bind, client_get. by rewrite E.
Qed.

Lemma rest_of_attempt_ok `{Runtime} flag max count req kwargs r w st :
  transport w (length (requests (trace st))) req = Ok r ->
  rest_of_attempt flag max count req kwargs w st
  = match classify flag max count r w (log (Send req) st) with
    | (Some (Ok o), st') => (Some (Ok (o, kwargs)), st')
    | (Some (Raise e), st') => (Some (Raise e), st')
    | (None, st') => (None, st')
    end.
Proof.
  intros E. unfold rest_of_attempt, mbind, M_bind, bind, client_get. rewrite E.
  by destruct (classify flag max count r w (log (Send req) st)) as [[[o|e]|] st'].
Qed.

(** Whatever the network answers, a pass sends exactly one request, leaves
    the client alone, ends, and hands the keyword arguments on. *)
Lemma rest_of_attempt_safe `{Runtime} flag max count req kwargs w st :
  self (snd (rest_of_attempt flag max count req kwargs w st)) = self st
  /\ requests (trace (snd (rest_of_attempt flag max count req kwargs w st)))
     = requests (trace st) ++ [req]
  /\ fst (rest_of_attempt flag max count req kwargs w st) <> None
  /\ forall o kwargs',
       fst (rest_of_attempt flag max count req kwargs w st) = Some (Ok (o, kwargs')) ->
       kwargs' = kwargs.
Proof.
  destruct (transport w (length (requests (trace st))) req) as [r|e] eqn:E.
  - rewrite (rest_of_attempt_ok _ _ _ _ _ r) by done.
    destruct (classify_slept flag max count r w (log (Send req) st)) as [[Hself Hreq] Hfuel].
    destruct (classify flag max count r w (log (Send req) st)) as [[[o|e]|] st'];
      simpl in *; rewrite Hself, Hreq, requests_app; repeat split; try done.
    by intros o' kw' [= _ ->].
  - rewrite (rest_of_attempt_raise _ _ _ _ _ e) by done. simpl.
    rewrite requests_app. done.
Qed.

(** The retries: every request sent from retry [count] on carries, in
    order, the fingerprints of the catalog entries the retries select. *)
Lemma get_loop_retries `{Runtime} url flag max profiles :
  catalog_ok profiles ->
  forall fuel count kwargs response w st,
    1 <= count -> popped kwargs ->
    self (snd (get_loop fuel url flag max profiles count kwargs response w st)) = self st
    /\ exists rs,
         requests (trace (snd (get_loop fuel url flag max profiles count kwargs response w st)))
         = requests (trace st) ++ rs
         /\ forall (j : nat) r, rs !! j = Some r ->
              retry_fingerprint profiles (count + Z.of_nat j) r.
Proof.
  intros Hcat. induction fuel as [|fuel IH]; intros count kwargs response w st Hc Hpop.
  - simpl. destruct (count <=? max); [|destruct response]; simpl;
      nothing_sent.
  - simpl. destruct (count <=? max);
      [|destruct response; simpl;
        nothing_sent].
    destruct (attempt_unfold url flag max profiles count kwargs w st _
                (prepare_request_retry url profiles count kwargs w st Hcat Hc Hpop))
      as (req & kw' & st1 & [Hself1 Hreq1] & (Hkw & _ & _ & Hfp) & Eatt).
    simpl in Hkw, Hfp. subst kw'.
    destruct (rest_of_attempt_safe flag max count req kwargs w st1)
      as (Hself2 & Hreq2 & _ & Hkw2).
    unfold mbind, M_bind, bind. rewrite Eatt.
    destruct (rest_of_attempt flag max count req kwargs w st1) as [[[[o kw2]|e]|] st2];
      simpl in *.
    + specialize (Hkw2 o kw2 eq_refl). subst kw2.
      destruct o as [r'|r'].
      * simpl. split; [congruence|]. exists [req]. split; [congruence|].
        intros [|j] r; [|done]. intros [= <-]. by rewrite Z.add_0_r.
      * destruct (IH (count + 1) kwargs (Some r') w st2 ltac:(lia) Hpop)
          as (Hself3 & rs & Hreq3 & Hrs).
        split; [congruence|]. exists (req :: rs). split.
        { rewrite Hreq3, Hreq2, Hreq1. by rewrite <- app_assoc. }
        intros [|j] r; simpl.
        -- intros [= <-]. by rewrite Z.add_0_r.
        -- intros Hj. specialize (Hrs j r Hj).
           by replace (count + Z.of_nat (S j)) with (count + 1 + Z.of_nat j) by lia.
    + split; [congruence|]. exists [req]. split; [congruence|].
      intros [|j] r; [|done]. intros [= <-]. by rewrite Z.add_0_r.
    + split; [congruence|]. exists [req]. split; [congruence|].
      intros [|j] r; [|done]. intros [= <-]. by rewrite Z.add_0_r.
Qed.

End LoopFacts.

Module GetFacts.
Import RunFacts AttemptFacts PrepareFacts ClassifyFacts LoopFacts.

Lemma browser_profiles_raises url w st :
  origin_of url = None -> browser_profiles url w st = (Some (Raise IndexError), st).
Proof. intros E. unfold browser_profiles. by rewrite E. Qed.

Lemma browser_profiles_returns url referer :
  origin_of url = Some referer ->
  silent (fun profiles => catalog_ok profiles /\ length profiles = 6%nat)
         (browser_profiles url).
Proof.
  intros E. unfold browser_profiles. rewrite E.
  eapply silent_bind; [by apply (silent_ret (fun _ => True))|]. intros r _.
  eapply silent_bind; [by apply silent_random_randint|]. intros depth _.
  eapply silent_bind; [by apply silent_random_choice|]. intros width _.
  eapply silent_bind; [by apply silent_random_choice|]. intros height _.
  eapply silent_bind; [by apply silent_time|]. intros now _.
  apply silent_ret. split; [|reflexivity]. split; [cbn [length]; lia|].
  intros [|[|[|[|[|[|i]]]]]] p Hi Hp; try lia;
    cbn [lookup list_lookup] in Hp; try done; by inversion Hp.
Qed.

(** The first pass and the retries after it. *)
Lemma get_loop_first `{Runtime} url flag max profiles :
  catalog_ok profiles ->
  forall fuel kwargs response w st,
    self (snd (get_loop fuel url flag max profiles 0 kwargs response w st)) = self st
    /\ exists rs,
         requests (trace (snd (get_loop fuel url flag max profiles 0 kwargs response w st)))
         = requests (trace st) ++ rs
         /\ forall (j : nat) r, rs !! j = Some r ->
              (j = 0%nat -> first_fingerprint w st kwargs r)
              /\ ((1 <= j)%nat -> retry_fingerprint profiles (Z.of_nat j) r).
Proof.
  intros Hcat fuel kwargs response w st.
  destruct fuel as [|fuel].
  { simpl. destruct (0 <=? max); [|destruct response]; simpl;
      nothing_sent. }
  simpl. destruct (0 <=? max);
    [|destruct response; simpl;
      nothing_sent].
  destruct (attempt_unfold url flag max profiles 0 kwargs w st _
              (prepare_request_first url profiles kwargs w st (catalog_nonempty _ Hcat)))
    as (req & kw' & st1 & [Hself1 Hreq1] & (Hpop & _ & _ & _ & Hfp) & Eatt).
  simpl in Hpop, Hfp.
  destruct (rest_of_attempt_safe flag max 0 req kw' w st1)
    as (Hself2 & Hreq2 & _ & Hkw2).
  unfold mbind, M_bind, bind. rewrite Eatt.
  assert (Hone : forall (j : nat) r, [req] !! j = Some r ->
            (j = 0%nat -> first_fingerprint w st kwargs r)
            /\ ((1 <= j)%nat -> retry_fingerprint profiles (Z.of_nat j) r)).
  { intros [|j] r; [|done]. intros [= <-]. split; [done|lia]. }
  destruct (rest_of_attempt flag max 0 req kw' w st1) as [[[[o kw2]|e]|] st2];
    simpl in *.
  - specialize (Hkw2 o kw2 eq_refl). subst kw2.
    destruct o as [r'|r'].
    + simpl. split; [congruence|]. exists [req]. split; [congruence|done].
    + destruct (get_loop_retries url flag max profiles Hcat fuel (0 + 1) kw' (Some r') w st2
                  ltac:(lia) Hpop) as (Hself3 & rs & Hreq3 & Hrs).
      split; [congruence|]. exists (req :: rs). split.
      { rewrite Hreq3, Hreq2, Hreq1. by rewrite <- app_assoc. }
      intros [|j] r; simpl.
      * intros [= <-]. split; [done|lia].
      * intros Hj. split; [done|]. intros _. specialize (Hrs j r Hj).
        by replace (Z.of_nat (S j)) with (0 + 1 + Z.of_nat j) by lia.
  - split; [congruence|]. exists [req]. split; [congruence|done].
  - split; [congruence|]. exists [req]. split; [congruence|done].
Qed.

(** [get] as a whole: the client object is left as it was, and the
    requests it sends carry, in order, the first fingerprint and then the
    fingerprints of the catalog. *)
Lemma get_requests `{Runtime} url flag max kwargs w st :
  self (snd (get url flag max kwargs w st)) = self st
  /\ ((origin_of url = None
       /\ get url flag max kwargs w st = (Some (Raise IndexError), st))
      \/ exists profiles st0 rs,
           browser_profiles url w st = (Some (Ok profiles), st0)
           /\ frame st st0 /\ catalog_ok profiles /\ length profiles = 6%nat
           /\ requests (trace (snd (get url flag max kwargs w st)))
              = requests (trace st) ++ rs
           /\ forall (j : nat) r, rs !! j = Some r ->
                (j = 0%nat -> first_fingerprint w st0 kwargs r)
                /\ ((1 <= j)%nat -> retry_fingerprint profiles (Z.of_nat j) r)).
Proof.
  destruct (origin_of url) as [referer|] eqn:Eo.
  - destruct (browser_profiles_returns url referer Eo w st)
      as (profiles & st0 & Ebp & [Hself0 Htr0] & Hcat & Hlen).
    destruct (get_loop_first url flag max profiles Hcat
                (Z.to_nat (max + 1)) kwargs None w st0) as (Hself & rs & Hreq & Hrs).
    assert (Eget : get url flag max kwargs w st
              = get_loop (Z.to_nat (max + 1)) url flag max profiles 0 kwargs None w st0).
    { unfold get, mbind, M_bind, bind. by rewrite Ebp. }
    rewrite Eget. split; [congruence|]. right.
    exists profiles, st0, rs.
    split; [done|]. split; [done|]. split; [done|]. split; [done|].
    split; [|exact Hrs].
    by rewrite Hreq, Htr0.
  - assert (Eget : get url flag max kwargs w st = (Some (Raise IndexError), st)).
    { unfold get, mbind, M_bind, bind. by rewrite browser_profiles_raises. }
    rewrite Eget. split; [done|]. by left.
Qed.

End GetFacts.

Module FuelFacts.
Import RunFacts AttemptFacts PrepareFacts ClassifyFacts LoopFacts GetFacts.

Lemma get_loop_fuel `{Runtime} url flag max profiles :
  catalog_ok profiles ->
  forall fuel count kwargs response w st,
    (Z.to_nat (max + 1 - count) <= fuel)%nat ->
    count = 0 \/ (1 <= count /\ popped kwargs) ->
    fst (get_loop fuel url flag max profiles count kwargs response w st) <> None.
Proof.
  intros Hcat. induction fuel as [|fuel IH];
    intros count kwargs response w st Hfuel Hinv; simpl.
  - destruct (count <=? max) eqn:E; [lia|]. by destruct response.
  - destruct (count <=? max) eqn:E; [|by destruct response].
    assert (exists req kw' st1,
               popped kw'
               /\ attempt url flag max profiles count kwargs w st
                  = rest_of_attempt flag max count req kw' w st1)
      as (req & kw' & st1 & Hpop & Eatt).
    { destruct Hinv as [->|[Hc Hpop]].
      - destruct (attempt_unfold url flag max profiles 0 kwargs w st _
                    (prepare_request_first url profiles kwargs w st
                       (catalog_nonempty _ Hcat)))
          as (req & kw' & st1 & _ & (Hpop & _) & Eatt). by exists req, kw', st1.
      - destruct (attempt_unfold url flag max profiles count kwargs w st _
                    (prepare_request_retry url profiles count kwargs w st Hcat Hc Hpop))
          as (req & kw' & st1 & _ & (Hkw & _) & Eatt).
        simpl in Hkw. subst kw'. by exists req, kwargs, st1. }
    destruct (rest_of_attempt_safe flag max count req kw' w st1)
      as (_ & _ & Hsome & Hkw2).
    unfold mbind, M_bind, bind. rewrite Eatt.
    destruct (rest_of_attempt flag max count req kw' w st1) as [[[[o kw2]|e]|] st2];
      simpl in *; try done.
    specialize (Hkw2 o kw2 eq_refl). subst kw2.
    destruct o as [r'|r']; [done|].
    apply IH; [lia|]. right. split; [lia|done].
Qed.

(** The fuel [get] gives its loop is enough, whatever the world does. *)
Lemma get_never_out_of_fuel `{Runtime} url flag max kwargs w st :
  fst (get url flag max kwargs w st) <> None.
Proof.
  destruct (origin_of url) as [referer|] eqn:Eo.
  - destruct (browser_profiles_returns url referer Eo w st)
      as (profiles & st0 & Ebp & _ & Hcat & _).
    unfold get, mbind, M_bind, bind. rewrite Ebp.
    apply get_loop_fuel; [done|lia|by left].
  - unfold get, mbind, M_bind, bind. by rewrite browser_profiles_raises.
Qed.

End FuelFacts.

(** ** [get_with_fallback] and the proxy flag *)

Module FallbackFacts.
Import GetFacts.

Lemma set_use_proxies_restore c :
  use_proxies c = true -> set_use_proxies true (set_use_proxies false c) = c.
Proof. destruct c; simpl; intros ->; reflexivity. Qed.

(** After [get_with_fallback] the client object is what it was. *)
Lemma get_with_fallback_self `{Runtime} url flag max kwargs w st :
  self (snd (get_with_fallback url flag max kwargs w st)) = self st.
Proof.
  unfold get_with_fallback, mbind, M_bind, bind, get_self.
  destruct (use_proxies (self st)) eqn:Eu; simpl.
  { unfold except_RequestError.
    pose proof (get_requests url flag max kwargs w st) as [Hself1 _].
    destruct (get url flag max kwargs w st) as [[[r|e]|] st1]; simpl in *; try done.
    destruct (is_RequestError e); [|done].
    unfold put_self, finally_set_use_proxies. simpl.
    set (st2 := {| self := set_use_proxies false (self st1); rand_pos := rand_pos st1;
                   time_pos := time_pos st1; trace := trace st1 |}).
    pose proof (get_requests url flag max kwargs w st2) as [Hself2 _].
    destruct (get url flag max kwargs w st2) as [r2 st3]; simpl in *.
    rewrite Hself2, Hself1. by apply set_use_proxies_restore. }
  apply get_requests.
Qed.

End FallbackFacts.

(** C8.  After a call of [get_with_fallback] the client's [use_proxies]
    flag has the value it had before the call, whatever the network does:
    when the proxied attempt returns, when it fails with a request error and
    the direct attempt returns, and when both fail; the same holds when the
    call raises another exception.  This is about one call run on its own,
    not about calls interleaved at the suspension points. *)
Theorem get_with_fallback_restores_use_proxies `{Runtime}
    (url : string) (retry_anti_bot : bool) (max_antibot_retries : Z)
    (kwargs : Kwargs) (w : World) (st : State) :
  use_proxies (self st) = true ->
  use_proxies
    (self (snd (get_with_fallback url retry_anti_bot max_antibot_retries kwargs w st)))
  = use_proxies (self st).
Proof. intros _. by rewrite FallbackFacts.get_with_fallback_self. Qed.

Lemma get_with_fallback_restores_use_proxies_witness :
  use_proxies (self (initial proxied_client)) = true
  /\ (exists r st',
        get_with_fallback example_url true 2 no_kwargs proxy_down_world
                          (initial proxied_client) = (Some (Ok r), st')
        /\ length (requests (trace st')) = 2%nat)
  /\ use_proxies
       (self (snd (get_with_fallback example_url true 2 no_kwargs proxy_down_world
                                     (initial proxied_client))))
     = use_proxies (self (initial proxied_client)).
Proof.
  split; [reflexivity|]. split.
  - eexists _, _. split; vm_compute; reflexivity.
  - apply (get_with_fallback_restores_use_proxies example_url true 2 no_kwargs
             proxy_down_world (initial proxied_client)).
    reflexivity.
Defined.

(** The three ways a call with proxies enabled can go. *)
Example fallback_not_needed :
  fst (get_with_fallback example_url true 2 no_kwargs
         (always (page 404 0 "not found")) (initial proxied_client))
  = Some (Ok (page 404 0 "not found")).
Proof. vm_compute. reflexivity. Qed.

Example fallback_succeeds :
  fst (get_with_fallback example_url true 2 no_kwargs proxy_down_world
         (initial proxied_client))
  = Some (Ok (page 200 0 "<html>te huur</html>")).
Proof. vm_compute. reflexivity. Qed.

Example fallback_fails_too :
  fst (get_with_fallback example_url true 2 no_kwargs offline_world
         (initial proxied_client))
  = Some (Raise (RequestError "connection failed"))
  /\ use_proxies
       (self (snd (get_with_fallback example_url true 2 no_kwargs offline_world
                     (initial proxied_client)))) = true.
Proof. vm_compute. split; reflexivity. Qed.

(** ** The fingerprints [get] sends *)

Module FingerprintFacts.
Import GetFacts.

Lemma new_requests_app st st' rs :
  requests (trace st') = requests (trace st) ++ rs -> new_requests st st' = rs.
Proof. intros E. unfold new_requests. rewrite E. apply drop_app_length. Qed.

(** The requests of one call of [get], by position. *)
Lemma get_new_requests `{Runtime} url flag max kwargs w st (i : nat) r :
  new_requests st (snd (get url flag max kwargs w st)) !! i = Some r ->
  exists profiles st0,
    browser_profiles url w st = (Some (Ok profiles), st0)
    /\ length profiles = 6%nat
    /\ (i = 0%nat -> first_fingerprint w st0 kwargs r)
    /\ ((1 <= i)%nat -> retry_fingerprint profiles (Z.of_nat i) r).
Proof.
  intros Hi.
  destruct (get_requests url flag max kwargs w st)
    as [_ [[_ Eget]|(profiles & st0 & rs & Ebp & _ & _ & Hlen & Hreq & Hrs)]].
  - rewrite Eget in Hi. unfold new_requests in Hi. simpl in Hi.
    rewrite drop_all in Hi. done.
  - rewrite (new_requests_app _ _ rs Hreq) in Hi.
    exists profiles, st0. split; [done|]. split; [done|]. by apply Hrs.
Qed.

End FingerprintFacts.

(** C10.  Of the requests one call of [get] sends, the first carries the
    default browser headers updated with the caller's [headers] and the
    caller's [cookies]; every later one, the anti-bot retry number [i],
    carries exactly the headers and the cookies of the catalog entry at
    [min(i, len - 1)], and the catalog is built from the URL alone: the
    caller's overrides, popped on the first pass, are not applied again. *)
Theorem caller_overrides_first_attempt_only `{Runtime}
    (url : string) (retry_anti_bot : bool) (max_antibot_retries : Z)
    (kwargs : Kwargs) (w : World) (st : State) (i : nat) (r : Request) :
  new_requests st (snd (get url retry_anti_bot max_antibot_retries kwargs w st)) !! i
  = Some r ->
  exists browser_profiles' st0,
    browser_profiles url w st = (Some (Ok browser_profiles'), st0)
    /\ (i = 0%nat ->
        exists headers st1,
          _get_browser_headers w st0 = (Some (Ok headers), st1)
          /\ req_headers r = dict_update headers (default ∅ (kw_headers kwargs))
          /\ req_cookies r = default ∅ (kw_cookies kwargs))
    /\ ((1 <= i)%nat ->
        exists profile_name headers cookies,
          browser_profiles' !! Z.to_nat (Z.min (Z.of_nat i)
                                               (Z.of_nat (length browser_profiles') - 1))
          = Some (Custom profile_name headers cookies)
          /\ req_headers r = headers /\ req_cookies r = cookies).
Proof.
  intros Hi.
  destruct (FingerprintFacts.get_new_requests url retry_anti_bot max_antibot_retries
              kwargs w st i r Hi) as (profiles & st0 & Ebp & _ & Hfirst & Hretry).
  exists profiles, st0. split; [done|]. split; [exact Hfirst|exact Hretry].
Qed.

(** C7 does not hold of the code.  From retry 5 on, [min(n, len - 1)]
    stays at the last catalog entry, which is a custom one, so the branch
    that draws a fresh fingerprint is never taken: all those retries send
    the same headers and the same cookies. *)
Theorem exhausted_catalog_repeats_fingerprint `{Runtime}
    (url : string) (retry_anti_bot : bool) (max_antibot_retries : Z)
    (kwargs : Kwargs) (w : World) (st : State) (i j : nat) (ri rj : Request) :
  new_requests st (snd (get url retry_anti_bot max_antibot_retries kwargs w st)) !! i
  = Some ri ->
  new_requests st (snd (get url retry_anti_bot max_antibot_retries kwargs w st)) !! j
  = Some rj ->
  (5 <= i)%nat -> (5 <= j)%nat ->
  req_headers ri = req_headers rj /\ req_cookies ri = req_cookies rj.
Proof.
  intros Hi Hj H5i H5j.
  destruct (FingerprintFacts.get_new_requests url retry_anti_bot max_antibot_retries
              kwargs w st i ri Hi) as (profiles & st0 & Ebp & Hlen & _ & Hri).
  destruct (FingerprintFacts.get_new_requests url retry_anti_bot max_antibot_retries
              kwargs w st j rj Hj) as (profiles' & st0' & Ebp' & _ & _ & Hrj).
  rewrite Ebp in Ebp'. injection Ebp' as <- <-.
  destruct (Hri ltac:(lia)) as (ni & hi & ci & Eli & -> & ->).
  destruct (Hrj ltac:(lia)) as (nj & hj & cj & Elj & -> & ->).
  rewrite Hlen in Eli, Elj.
  replace (Z.min (Z.of_nat i) (Z.of_nat 6 - 1)) with 5 in Eli by lia.
  replace (Z.min (Z.of_nat j) (Z.of_nat 6 - 1)) with 5 in Elj by lia.
  rewrite Eli in Elj. by injection Elj as _ <- <-.
Qed.

Lemma exhausted_catalog_repeats_fingerprint_witness :
  exists r5 r6,
    captcha_requests !! 5%nat = Some r5 /\ captcha_requests !! 6%nat = Some r6
    /\ req_headers r5 = req_headers r6 /\ req_cookies r5 = req_cookies r6.
Proof.
  assert (Hlen : length captcha_requests = 9%nat) by (vm_compute; reflexivity).
  destruct (lookup_lt_is_Some_2 captcha_requests 5) as [r5 E5]; [rewrite Hlen; lia|].
  destruct (lookup_lt_is_Some_2 captcha_requests 6) as [r6 E6]; [rewrite Hlen; lia|].
  exists r5, r6. split; [exact E5|]. split; [exact E6|].
  apply (exhausted_catalog_repeats_fingerprint example_url true 8 kwargs_with_overrides
           captcha_world (initial proxied_client) 5 6 r5 r6 E5 E6); lia.
Defined.

Lemma caller_overrides_first_attempt_only_witness :
  exists r,
    captcha_requests !! 1%nat = Some r
    /\ exists browser_profiles' st0,
         browser_profiles example_url captcha_world (initial proxied_client)
         = (Some (Ok browser_profiles'), st0)
         /\ (1%nat = 0%nat ->
             exists headers st1,
               _get_browser_headers captcha_world st0 = (Some (Ok headers), st1)
               /\ req_headers r
                  = dict_update headers (default ∅ (kw_headers kwargs_with_overrides))
               /\ req_cookies r = default ∅ (kw_cookies kwargs_with_overrides))
         /\ ((1 <= 1)%nat ->
             exists profile_name headers cookies,
               browser_profiles' !! Z.to_nat (Z.min (Z.of_nat 1)
                                               (Z.of_nat (length browser_profiles') - 1))
               = Some (Custom profile_name headers cookies)
               /\ req_headers r = headers /\ req_cookies r = cookies).
Proof.
  assert (Hlen : length captcha_requests = 9%nat) by (vm_compute; reflexivity).
  destruct (lookup_lt_is_Some_2 captcha_requests 1) as [r E1]; [rewrite Hlen; lia|].
  exists r. split; [exact E1|].
  exact (caller_overrides_first_attempt_only example_url true 8 kwargs_with_overrides
           captcha_world (initial proxied_client) 1 r E1).
Defined.

(** On the sample run: the caller's header and cookie reach the first
    request and no other, and retries 5 to 8 are the same request. *)
Example overrides_on_sample_run :
  map (fun r => (req_headers r !! "X-Requested-With", req_cookies r !! "sid"))
      captcha_requests
  = (Some "XMLHttpRequest", Some "abc") :: repeat (None, None) 8.
Proof. vm_compute. reflexivity. Qed.

Example repeats_on_sample_run :
  exists r, drop 5 captcha_requests = repeat r 4.
Proof.
  exists (default {| req_url := ""; req_headers := ∅; req_cookies := ∅;
                     req_kwargs := ∅; req_proxies := None |}
                  (captcha_requests !! 5%nat)).
  vm_compute. reflexivity.
Qed.

(** ** Answers and how the loop ends *)

Module AnswerFacts.
Import RunFacts AttemptFacts PrepareFacts ClassifyFacts LoopFacts GetFacts.

(** Every pass prepares a request and goes on from there. *)
Lemma attempt_cases `{Runtime} url flag max profiles count kwargs w st :
  catalog_ok profiles -> ready count kwargs ->
  exists req kwargs' st1,
    slept st st1 /\ popped kwargs'
    /\ attempt url flag max profiles count kwargs w st
       = rest_of_attempt flag max count req kwargs' w st1.
Proof.
  intros Hcat [->|[Hc Hpop]].
  - destruct (attempt_unfold url flag max profiles 0 kwargs w st _
                (prepare_request_first url profiles kwargs w st
                   (catalog_nonempty _ Hcat)))
      as (req & kw' & st1 & Hs & (Hpop & _) & Eatt). by exists req, kw', st1.
  - destruct (attempt_unfold url flag max profiles count kwargs w st _
                (prepare_request_retry url profiles count kwargs w st Hcat Hc Hpop))
      as (req & kw' & st1 & Hs & (Hkw & _) & Eatt).
    simpl in Hkw. subst kw'. by exists req, kwargs, st1.
Qed.

(** The loop sends requests one after the other. *)
Lemma get_loop_sends `{Runtime} url flag max profiles :
  catalog_ok profiles ->
  forall fuel count kwargs response w st,
    ready count kwargs ->
    exists rs,
      requests (trace (snd (get_loop fuel url flag max profiles count kwargs response w st)))
      = requests (trace st) ++ rs.
Proof.
  intros Hcat fuel count kwargs response w st [->|[Hc Hpop]].
  - destruct (get_loop_first url flag max profiles Hcat fuel kwargs response w st)
      as (_ & rs & E & _). by exists rs.
  - destruct (get_loop_retries url flag max profiles Hcat fuel count kwargs response w st
                Hc Hpop) as (_ & rs & E & _). by exists rs.
Qed.

(** What the answer to the request at position [k] leads to: when it is
    classified as final, the loop ends there with that result. *)
Lemma get_loop_answered `{Runtime} url flag max profiles :
  catalog_ok profiles ->
  forall fuel count kwargs response w st (k : nat) req r,
    ready count kwargs ->
    drop (length (requests (trace st)))
         (requests (trace (snd (get_loop fuel url flag max profiles count kwargs
                                         response w st)))) !! k = Some req ->
    transport w (length (requests (trace st)) + k) req = Ok r ->
    exists st2,
      self st2 = self st
      /\ length (requests (trace st2)) = (length (requests (trace st)) + k)%nat
      /\ match classify flag max (count + Z.of_nat k) r w (log (Send req) st2) with
         | (Some (Ok (Returned r')), st3) =>
             get_loop fuel url flag max profiles count kwargs response w st
             = (Some (Ok r'), st3)
         | (Some (Raise e), st3) =>
             get_loop fuel url flag max profiles count kwargs response w st
             = (Some (Raise e), st3)
         | _ => True
         end.
Proof.
  intros Hcat. induction fuel as [|fuel IH];
    intros count kwargs response w st k req r Hready Hk Htr.
  { simpl in Hk. destruct (count <=? max); [|destruct response]; simpl in Hk;
      rewrite drop_all in Hk; done. }
  simpl in Hk |- *.
  destruct (count <=? max) eqn:Ec;
    [|destruct response; simpl in Hk; rewrite drop_all in Hk; done].
  assert (0 <= count) as Hc0 by (destruct Hready as [->|[? _]]; lia).
  destruct (attempt_cases url flag max profiles count kwargs w st Hcat Hready)
    as (req0 & kw' & st1 & [Hself1 Hreq1] & Hpop & Eatt).
  unfold mbind, M_bind, bind in Hk |- *. rewrite Eatt in Hk |- *.
  destruct (transport w (length (requests (trace st1))) req0) as [r0|e0] eqn:Et.
  2:{ rewrite (rest_of_attempt_raise _ _ _ _ _ e0 _ _ Et) in Hk. simpl in Hk.
      rewrite requests_app, Hreq1, drop_app_length in Hk. simpl in Hk.
      destruct k as [|k]; [|done]. injection Hk as <-.
      rewrite Hreq1 in Et. rewrite Nat.add_0_r in Htr. congruence. }
  rewrite (rest_of_attempt_ok _ _ _ _ _ r0 _ _ Et) in Hk |- *.
  destruct (classify_slept flag max count r0 w (log (Send req0) st1))
    as [[Hself2 Hreq2] Hsome].
  rewrite requests_log_send, Hreq1 in Hreq2.
  destruct k as [|k].
  - assert (req = req0) as ->.
    { destruct (classify flag max count r0 w (log (Send req0) st1))
        as [[[[r'|r']|e]|] st3]; simpl in *.
      - rewrite Hreq2, drop_app_length in Hk. by injection Hk.
      - destruct (get_loop_sends url flag max profiles Hcat fuel (count + 1) kw'
                    (Some r') w st3 ltac:(right; split; [lia|done])) as [rs Ers].
        rewrite Ers, Hreq2, <- app_assoc, drop_app_length in Hk. by injection Hk.
      - rewrite Hreq2, drop_app_length in Hk. by injection Hk.
      - done. }
    rewrite Hreq1 in Et. rewrite Nat.add_0_r, Et in Htr. injection Htr as ->.
    exists st1. split; [done|]. split; [by rewrite Hreq1, Nat.add_0_r|].
    rewrite Z.add_0_r.
    by destruct (classify flag max count r w (log (Send req0) st1))
      as [[[[r'|r']|e]|] st3].
  - destruct (classify flag max count r0 w (log (Send req0) st1))
      as [[[[r'|r']|e]|] st3]; simpl in *; try done;
      try (rewrite Hreq2, drop_app_length in Hk; done).
    assert (length (requests (trace st3)) = S (length (requests (trace st)))) as Hlen3.
    { rewrite Hreq2, length_app. simpl. lia. }
    destruct (get_loop_sends url flag max profiles Hcat fuel (count + 1) kw'
                (Some r') w st3 ltac:(right; split; [lia|done])) as [rs Ers].
    destruct (IH (count + 1) kw' (Some r') w st3 k req r
                ltac:(right; split; [lia|done])) as (st2 & Hs2 & Hl2 & Hcls).
    { rewrite Ers, drop_app_length.
      rewrite Ers, Hreq2, <- app_assoc, drop_app_length in Hk. exact Hk. }
    { rewrite Hlen3. by replace (S (length (requests (trace st))) + k)%nat
        with (length (requests (trace st)) + S k)%nat by lia. }
    exists st2. split; [congruence|]. split; [lia|].
    by replace (count + Z.of_nat (S k)) with (count + 1 + Z.of_nat k) by lia.
Qed.

Lemma get_answered `{Runtime} url flag max kwargs w st (k : nat) req r :
  new_requests st (snd (get url flag max kwargs w st)) !! k = Some req ->
  transport w (length (requests (trace st)) + k) req = Ok r ->
  exists st2,
    self st2 = self st
    /\ length (requests (trace st2)) = (length (requests (trace st)) + k)%nat
    /\ match classify flag max (Z.of_nat k) r w (log (Send req) st2) with
       | (Some (Ok (Returned r')), st3) =>
           get url flag max kwargs w st = (Some (Ok r'), st3)
       | (Some (Raise e), st3) =>
           get url flag max kwargs w st = (Some (Raise e), st3)
       | _ => True
       end.
Proof.
  intros Hk Htr. unfold new_requests in Hk.
  destruct (origin_of url) as [referer|] eqn:Eo.
  - destruct (browser_profiles_returns url referer Eo w st)
      as (profiles & st0 & Ebp & [Hself0 Htr0] & Hcat & _).
    assert (Eget : get url flag max kwargs w st
              = get_loop (Z.to_nat (max + 1)) url flag max profiles 0 kwargs None w st0).
    { unfold get, mbind, M_bind, bind. by rewrite Ebp. }
    rewrite Eget in Hk |- *.
    destruct (get_loop_answered url flag max profiles Hcat (Z.to_nat (max + 1)) 0
                kwargs None w st0 k req r ltac:(by left)) as (st2 & Hs2 & Hl2 & Hcls).
    { by rewrite Htr0. }
    { by rewrite Htr0. }
    exists st2. rewrite Htr0 in Hl2. split; [congruence|]. split; [done|].
    by rewrite Z.add_0_l in Hcls.
  - unfold get, mbind, M_bind, bind in Hk. rewrite browser_profiles_raises in Hk by done.
    simpl in Hk. rewrite drop_all in Hk. done.
Qed.

End AnswerFacts.

Module StatusFacts.
Import RunFacts ClassifyFacts AnswerFacts.

Lemma new_requests_length st st2 req :
  forall k : nat,
  length (requests (trace st2)) = (length (requests (trace st)) + k)%nat ->
  length (new_requests st (log (Send req) st2)) = S k.
Proof.
  intros k Hl. unfold new_requests.
  rewrite length_drop, requests_log_send, length_app. simpl. lia.
Qed.



End StatusFacts.

(** C2, as the code has it.  When a request of [get], the one at position
    [k], is answered with status 404 through at most ten redirects, [get]
    returns that response and sends nothing after it, whatever
    [max_antibot_retries] and [retry_anti_bot] are; for the first request
    ([k = 0]) that is exactly one attempt. *)
Theorem not_found_returned_at_once `{Runtime}
    (url : string) (retry_anti_bot : bool) (max_antibot_retries : Z)
    (kwargs : Kwargs) (w : World) (st : State) (k : nat) (req : Request) (r : Response) :
  new_requests st (snd (get url retry_anti_bot max_antibot_retries kwargs w st)) !! k
  = Some req ->
  transport w (length (requests (trace st)) + k) req = Ok r ->
  status_code r = 404 ->
  (history r <= 10)%nat ->
  fst (get url retry_anti_bot max_antibot_retries kwargs w st) = Some (Ok r)
  /\ length (new_requests st (snd (get url retry_anti_bot max_antibot_retries kwargs w st)))
     = S k.
Proof.
  intros Hk Htr Hs Hh.
  destruct (AnswerFacts.get_answered url retry_anti_bot max_antibot_retries kwargs w st
              k req r Hk Htr) as (st2 & _ & Hl & Hcls).
  rewrite ClassifyFacts.classify_404 in Hcls by done.
  rewrite Hcls. simpl. split; [done|]. by apply StatusFacts.new_requests_length.
Qed.

Lemma not_found_returned_at_once_witness :
  fst (get example_url true 8 no_kwargs (always (page 404 3 "not found"))
           (initial direct_client))
  = Some (Ok (page 404 3 "not found"))
  /\ length (new_requests (initial direct_client)
               (snd (get example_url true 8 no_kwargs (always (page 404 3 "not found"))
                         (initial direct_client))))
     = 1%nat.
Proof.
  assert (Hlen : length (new_requests (initial direct_client)
                   (snd (get example_url true 8 no_kwargs
                             (always (page 404 3 "not found")) (initial direct_client))))
                 = 1%nat) by (vm_compute; reflexivity).
  destruct (lookup_lt_is_Some_2 _ 0 ltac:(rewrite Hlen; lia)) as [req E0].
  apply (not_found_returned_at_once example_url true 8 no_kwargs
           (always (page 404 3 "not found")) (initial direct_client) 0 req
           (page 404 3 "not found") E0).
  - reflexivity.
  - reflexivity.
  - simpl. lia.
Defined.

(** C2 fails as stated: the redirect check comes before the status check,
    so a 404 response that was reached through eleven redirects is raised
    as a request error. *)
Lemma not_found_after_redirects_raises :
  status_code (page 404 11 "not found") = 404
  /\ fst (get example_url true 8 no_kwargs (always (page 404 11 "not found"))
              (initial direct_client))
     = Some (Raise (RequestError "Too many redirects")).
Proof. split; [reflexivity|]. vm_compute. reflexivity. Qed.



(** C4 does not hold of the code.  When a request of [get] is answered
    with a status of 400 or more other than 404 and 429 (through at most
    ten redirects), [get] raises the request error to its caller at once:
    no further request is sent, whatever budget remains. *)
Theorem http_error_raises_at_once `{Runtime}
    (url : string) (retry_anti_bot : bool) (max_antibot_retries : Z)
    (kwargs : Kwargs) (w : World) (st : State) (k : nat) (req : Request) (r : Response) :
  new_requests st (snd (get url retry_anti_bot max_antibot_retries kwargs w st)) !! k
  = Some req ->
  transport w (length (requests (trace st)) + k) req = Ok r ->
  400 <= status_code r -> status_code r <> 404 -> status_code r <> 429 ->
  (history r <= 10)%nat ->
  fst (get url retry_anti_bot max_antibot_retries kwargs w st)
  = Some (Raise (RequestError ("HTTP error: " +:+ Py.str_int (status_code r))))
  /\ length (new_requests st (snd (get url retry_anti_bot max_antibot_retries kwargs w st)))
     = S k.
Proof.
  intros Hk Htr Hs H404 H429 Hh.
  destruct (AnswerFacts.get_answered url retry_anti_bot max_antibot_retries kwargs w st
              k req r Hk Htr) as (st2 & _ & Hl & Hcls).
  rewrite ClassifyFacts.classify_http_error in Hcls by done.
  rewrite Hcls. simpl. split; [done|]. by apply StatusFacts.new_requests_length.
Qed.

Lemma http_error_raises_at_once_witness :
  fst (get example_url true 8 no_kwargs (always (page 503 0 "unavailable"))
           (initial direct_client))
  = Some (Raise (RequestError ("HTTP error: " +:+ Py.str_int 503)))
  /\ length (new_requests (initial direct_client)
               (snd (get example_url true 8 no_kwargs (always (page 503 0 "unavailable"))
                         (initial direct_client))))
     = 1%nat.
Proof.
  assert (Hlen : length (new_requests (initial direct_client)
                   (snd (get example_url true 8 no_kwargs
                             (always (page 503 0 "unavailable")) (initial direct_client))))
                 = 1%nat) by (vm_compute; reflexivity).
  destruct (lookup_lt_is_Some_2 _ 0 ltac:(rewrite Hlen; lia)) as [req E0].
  apply (http_error_raises_at_once example_url true 8 no_kwargs
           (always (page 503 0 "unavailable")) (initial direct_client) 0 req
           (page 503 0 "unavailable") E0).
  - reflexivity.
  - simpl. lia.
  - discriminate.
  - discriminate.
  - simpl. lia.
Defined.

(** ** Exhausted retries *)

Module ExhaustFacts.
Import RunFacts ClassifyFacts LoopFacts GetFacts AnswerFacts.

Lemma antibot_page_inv `{Runtime} c r :
  antibot_page c r = true ->
  status_code r = 200 /\ (history r <= 10)%nat
  /\ exists r', manual_decode c r = Ok r' /\ anti_bot_detected (text r') = true.
Proof.
  unfold antibot_page. rewrite !andb_true_iff.
  intros [[Hs Hh] Hd]. apply Z.eqb_eq in Hs. apply Nat.leb_le in Hh.
  destruct (manual_decode c r) as [r'|e]; [|done]. eauto.
Qed.

(** With nothing but anti-bot pages coming back, the loop goes through
    all the passes that are left and returns what the last one fetched. *)
Lemma get_loop_exhausts `{Runtime} url max profiles (responses : nat -> Response)
    (c0 : EnhancedHttpClient) w :
  catalog_ok profiles ->
  (forall n req, transport w n req = Ok (responses n)) ->
  (forall n, antibot_page c0 (responses n) = true) ->
  forall (k : nat) fuel count kwargs response st,
    ready count kwargs -> count + Z.of_nat k = max -> (k < fuel)%nat ->
    self st = c0 ->
    exists r' st',
      get_loop fuel url true max profiles count kwargs response w st
      = (Some (Ok r'), st')
      /\ manual_decode c0 (responses (length (requests (trace st)) + k)%nat) = Ok r'
      /\ length (requests (trace st')) = (length (requests (trace st)) + k + 1)%nat.
Proof.
  intros Hcat Hw Hpages.
  induction k as [|k IH]; intros fuel count kwargs response st Hready Hmax Hfuel Hself;
    (destruct fuel as [|fuel]; [lia|]);
    assert (0 <= count) as Hc0 by (destruct Hready as [->|[? _]]; lia);
    simpl; (destruct (count <=? max) eqn:Ec; [|lia]);
    destruct (attempt_cases url true max profiles count kwargs w st Hcat Hready)
      as (req & kw' & st1 & [Hself1 Hreq1] & Hpop & Eatt);
    unfold mbind, M_bind, bind; rewrite Eatt;
    rewrite (rest_of_attempt_ok _ _ _ _ _ _ _ _ (Hw _ req));
    destruct (antibot_page_inv c0 _ (Hpages (length (requests (trace st1)))))
      as (Hs & Hh & r' & Hd & Hdet);
    rewrite (classify_page true max count _ r')
      by (try done; try lia; simpl; by rewrite Hself1, Hself);
    rewrite Hdet, Hreq1 in *.
  - destruct (count <? max) eqn:El; [lia|]. simpl.
    exists r', (log (Send req) st1). split; [done|].
    split; [by rewrite Nat.add_0_r|].
    rewrite requests_log_send, length_app, Hreq1. simpl. lia.
  - destruct (count <? max) eqn:El; [|lia]. simpl.
    destruct (IH fuel (count + 1) kw' (Some r') (log (Send req) st1))
      as (r2 & st2 & Eloop & Hd2 & Hl2).
    + right. split; [lia|done].
    + lia.
    + lia.
    + simpl. by rewrite Hself1.
    + rewrite requests_log_send, length_app, Hreq1 in Hd2, Hl2. simpl in Hd2, Hl2.
      exists r2, st2. split; [done|]. split.
      * by replace (length (requests (trace st)) + S k)%nat
          with (length (requests (trace st)) + 1 + k)%nat by lia.
      * lia.
Qed.

End ExhaustFacts.

(** C5, as the code has it.  For a URL with a scheme and a host and a
    budget that is not negative: when every request is answered with a 200
    response that was reached through at most ten redirects and whose text,
    as the anti-bot check sees it, matches a signature, [get] with
    [retry_anti_bot] sends [max_antibot_retries + 1] requests, the first
    attempt and [max_antibot_retries] retries, and returns what the last
    one fetched, without raising. *)
Theorem exhausted_retries_return_last_response `{Runtime}
    (url : string) (max_antibot_retries : Z) (kwargs : Kwargs) (w : World) (st : State)
    (responses : nat -> Response) :
  origin_of url <> None ->
  0 <= max_antibot_retries ->
  (forall n req, transport w n req = Ok (responses n)) ->
  (forall n, antibot_page (self st) (responses n) = true) ->
  exists r' st',
    get url true max_antibot_retries kwargs w st = (Some (Ok r'), st')
    /\ manual_decode (self st)
         (responses (length (requests (trace st)) + Z.to_nat max_antibot_retries)%nat)
       = Ok r'
    /\ length (new_requests st st') = S (Z.to_nat max_antibot_retries).
Proof.
  intros Hurl Hmax Hw Hpages.
  destruct (origin_of url) as [referer|] eqn:Eo; [|done].
  destruct (GetFacts.browser_profiles_returns url referer Eo w st)
    as (profiles & st0 & Ebp & [Hself0 Htr0] & Hcat & _).
  destruct (ExhaustFacts.get_loop_exhausts url max_antibot_retries profiles responses
              (self st) w Hcat Hw Hpages (Z.to_nat max_antibot_retries)
              (Z.to_nat (max_antibot_retries + 1)) 0 kwargs None st0)
    as (r' & st' & Eloop & Hd & Hl).
  - by left.
  - lia.
  - lia.
  - done.
  - exists r', st'. rewrite Htr0 in Hd, Hl. split; [|split; [done|]].
    + unfold get, mbind, M_bind, bind. by rewrite Ebp.
    + unfold new_requests. rewrite length_drop. lia.
Qed.

Lemma exhausted_retries_return_last_response_witness :
  exists r' st',
    get example_url true 8 no_kwargs captcha_world (initial direct_client)
    = (Some (Ok r'), st')
    /\ manual_decode (self (initial direct_client)) (page 200 0 "captcha") = Ok r'
    /\ length (new_requests (initial direct_client) st') = 9%nat.
Proof.
  apply (exhausted_retries_return_last_response example_url 8 no_kwargs captcha_world
           (initial direct_client) (fun _ => page 200 0 "captcha")).
  - discriminate.
  - lia.
  - reflexivity.
  - intros n. vm_compute. reflexivity.
Defined.

(** C5 fails as stated in three ways: an anti-bot page that was reached
    through eleven redirects is raised as a request error; with a negative
    budget no attempt is made and the name [response] is unbound at the
    final [return]; and a URL without [scheme://host] fails while the
    catalog is built. *)
Lemma exhausted_retries_can_raise :
  antibot_page direct_client (page 200 10 "captcha") = true
  /\ fst (get example_url true 8 no_kwargs (always (page 200 11 "captcha"))
              (initial direct_client))
     = Some (Raise (RequestError "Too many redirects"))
  /\ fst (get example_url true (-1) no_kwargs captcha_world (initial direct_client))
     = Some (Raise (UnboundLocalError "response"))
  /\ fst (get "www.example.nl" true 8 no_kwargs captcha_world (initial direct_client))
     = Some (Raise IndexError).
Proof. repeat split; vm_compute; reflexivity. Qed.

(* ================================================================== *)
(** * Further properties of the code *)

(** ** The hash as a string *)

Module DigestFacts.
Import Listing HasherFacts.

Lemma bytes_of_word_length n x : length (MD5.bytes_of_word n x) = n.
Proof. revert x. induction n as [|n IH]; intros x; simpl; [done|]. by rewrite IH. Qed.

Lemma bytes_of_word_range n x :
  Forall (fun b => 0 <= b < 256) (MD5.bytes_of_word n x).
Proof.
  revert x. induction n as [|n IH]; intros x; simpl; constructor; [|apply IH].
  apply Z.mod_pos_bound. lia.
Qed.

Lemma hex_digit_lower x :
  0 <= x < 16 ->
  existsb (Ascii.eqb (MD5.hex_digit x)) (list_ascii_of_string "0123456789abcdef") = true.
Proof.
  intros Hx.
  assert (x = 0 \/ x = 1 \/ x = 2 \/ x = 3 \/ x = 4 \/ x = 5 \/ x = 6 \/ x = 7 \/
          x = 8 \/ x = 9 \/ x = 10 \/ x = 11 \/ x = 12 \/ x = 13 \/ x = 14 \/ x = 15)
    as Hcases by lia.
  repeat (destruct Hcases as [->|Hcases]; [reflexivity|]). by subst.
Qed.

Lemma hex_length l : String.length (MD5.hex l) = (2 * length l)%nat.
Proof. induction l as [|x l IH]; simpl; [done|]. rewrite IH. lia. Qed.

Lemma hex_lower l :
  Forall (fun b => 0 <= b < 256) l -> is_lower_hex (MD5.hex l) = true.
Proof.
  induction 1 as [|x l Hx _ IH]; [done|].
  change (is_lower_hex (MD5.hex (x :: l)))
    with (existsb (Ascii.eqb (MD5.hex_digit (x / 16)))
                  (list_ascii_of_string "0123456789abcdef")
          && (existsb (Ascii.eqb (MD5.hex_digit (x mod 16)))
                      (list_ascii_of_string "0123456789abcdef")
              && is_lower_hex (MD5.hex l))).
  rewrite IH, !hex_digit_lower; [done| |].
  - apply Z.mod_pos_bound. lia.
  - split; [apply Z.div_pos; lia|apply Z.div_lt_upper_bound; lia].
Qed.

Lemma digest_shape msg :
  length (MD5.digest msg) = 16%nat /\ Forall (fun b => 0 <= b < 256) (MD5.digest msg).
Proof.
  unfold MD5.digest.
  destruct (fold_left _ _ _) as [[[a b] c] d].
  split.
  - rewrite !length_app, !bytes_of_word_length. done.
  - rewrite !Forall_app. repeat split; apply bytes_of_word_range.
Qed.

Lemma hexdigest_shape data :
  String.length (MD5.hexdigest data) = 32%nat /\ is_lower_hex (MD5.hexdigest data) = true.
Proof.
  unfold MD5.hexdigest. destruct (digest_shape (map Py.byte_val data)) as [Hl Hr].
  split; [by rewrite hex_length, Hl|by apply hex_lower].
Qed.

Lemma slot_int_value label f :
  slot_int label f
  = match value_int f with Some n => Some (label +:+ Py.str_int n) | None => None end.
Proof.
  unfold slot_int, value_int, present_int. destruct f as [n|]; [|done].
  by destruct (n =? 0).
Qed.

Lemma values_slots l1 l2 :
  identifying_values l1 = identifying_values l2 -> slots l1 = slots l2.
Proof.
  unfold identifying_values, slots. rewrite !slot_int_value.
  by intros [= -> -> -> -> -> -> -> ->].
Qed.

Lemma has_identifier_collect l : has_identifier l = false -> Hasher.collect l = [].
Proof.
  rewrite collect_slots. unfold has_identifier.
  induction (slots l) as [|[s|] sl IH]; simpl; [done|done|auto].
Qed.

Lemma hash_input_slots u1 u2 l1 l2 :
  slots l1 = slots l2 -> has_identifier l1 = true ->
  Hasher.hash_input u1 l1 = Hasher.hash_input u2 l2.
Proof.
  intros Hs Hid.
  rewrite (hash_input_no_uuid u1 u2 l1) by by apply collect_nonempty.
  unfold Hasher.hash_input. by rewrite !collect_slots, Hs.
Qed.

End DigestFacts.

(** ** Surrogates in what is hashed *)

Module SurrogateFacts.
Import Listing HasherFacts JoinFacts SensitivityFacts DigestFacts.

Lemma surrogate_lead_pipe a : Py.surrogate_lead a "|" = false.
Proof. unfold Py.surrogate_lead. simpl. by rewrite andb_false_r. Qed.

Lemma surrogate_lead_ascii a b :
  (N_of_ascii a <? 128)%N = true -> Py.surrogate_lead a b = false.
Proof.
  intros Ha. unfold Py.surrogate_lead.
  replace (N_of_ascii a =? 237)%N with false; [done|].
  symmetry. apply N.eqb_neq. apply N.ltb_lt in Ha. lia.
Qed.

(** The separator keeps what is before it and what is after it apart. *)
Lemma has_surrogate_pipe s t :
  Py.has_surrogate (s +:+ String "|" t) = Py.has_surrogate s || Py.has_surrogate t.
Proof.
  induction s as [|a s IH].
  - by destruct t.
  - change (Py.has_surrogate (String a s +:+ String "|" t))
      with (match s +:+ String "|" t with
            | String b _ => Py.surrogate_lead a b
            | EmptyString => false
            end || Py.has_surrogate (s +:+ String "|" t)).
    rewrite IH. destruct s as [|b s]; simpl.
    + by rewrite surrogate_lead_pipe.
    + by rewrite orb_assoc.
Qed.

Lemma has_surrogate_join ids :
  Py.has_surrogate (Py.join "|" ids) = existsb Py.has_surrogate ids.
Proof.
  induction ids as [|x [|y ids] IH]; [done|simpl; by rewrite orb_false_r|].
  rewrite join_cons, has_surrogate_pipe, IH. done.
Qed.

Lemma existsb_filter_truthy ids :
  existsb Py.has_surrogate (filter (fun x => Py.truthy x = true) ids)
  = existsb Py.has_surrogate ids.
Proof.
  induction ids as [|x ids IH]; [done|].
  destruct (decide (Py.truthy x = true)) as [Ht|Hf].
  - rewrite filter_cons_True by done. simpl. by rewrite IH.
  - rewrite filter_cons_False by done. destruct x; [by rewrite IH|done].
Qed.

Lemma is_ascii_app s t : is_ascii (s +:+ t) = is_ascii s && is_ascii t.
Proof.
  unfold is_ascii. induction s as [|a s IH]; [done|].
  simpl. by rewrite IH, andb_assoc.
Qed.

Lemma ascii_no_surrogate s : is_ascii s = true -> Py.has_surrogate s = false.
Proof.
  unfold is_ascii. induction s as [|a s IH]; [done|]. simpl.
  intros [Ha Hs]%andb_true_iff. rewrite (IH Hs), orb_false_r.
  destruct s; [done|]. by apply surrogate_lead_ascii.
Qed.

Lemma pretty_N_char_ascii x : (N_of_ascii (pretty_N_char x) <? 128)%N = true.
Proof. unfold pretty_N_char. by repeat case_match. Qed.

Lemma pretty_N_go_ascii x s : is_ascii s = true -> is_ascii (pretty_N_go x s) = true.
Proof.
  revert s. induction (N.lt_wf_0 x) as [x _ IH]; intros s Hs.
  destruct (decide (x = 0)%N) as [->|Hx]; [by rewrite pretty_N_go_0|].
  rewrite pretty_N_go_step by lia. apply IH.
  - apply N.div_lt; lia.
  - unfold is_ascii in *. simpl. by rewrite pretty_N_char_ascii, Hs.
Qed.

Lemma str_int_ascii n : is_ascii (Py.str_int n) = true.
Proof.
  unfold Py.str_int, pretty, pretty_Z.
  destruct n as [|p|p]; [done| |].
  - unfold pretty, pretty_positive, pretty, pretty_N.
    case_decide; [done|]. by apply pretty_N_go_ascii.
  - rewrite is_ascii_app. simpl.
    unfold pretty, pretty_positive, pretty, pretty_N.
    case_decide; [done|]. by apply pretty_N_go_ascii.
Qed.

(** [area:N] and [price:N] hold no surrogate. *)
Lemma slot_int_surrogate label f :
  is_ascii label = true ->
  match slot_int label f with Some s => Py.has_surrogate s | None => false end = false.
Proof.
  intros Hl. unfold slot_int. destruct f as [n|]; [|done]. destruct (n =? 0); [done|].
  apply ascii_no_surrogate. by rewrite is_ascii_app, Hl, str_int_ascii.
Qed.

Lemma slot_str_surrogate f :
  match slot_str f with Some s => Py.has_surrogate s | None => false end
  = match f with Some s => Py.has_surrogate s | None => false end.
Proof.
  unfold slot_str, present_str. destruct f as [s|]; [|done]. by destruct s.
Qed.

Lemma existsb_omap_id (P : string -> bool) (sl : list (option string)) :
  existsb P (omap id sl)
  = existsb (fun o : option string => match o with Some s => P s | None => false end) sl.
Proof.
  induction sl as [|[a|] sl IH]; [done| |].
  - change (omap id (Some a :: sl)) with (a :: omap id sl).
    cbn [existsb]. by rewrite IH.
  - change (omap id (None :: sl)) with (omap id sl).
    cbn [existsb orb]. by rewrite IH.
Qed.

Lemma collect_surrogate l :
  existsb Py.has_surrogate (Hasher.collect l)
  = existsb (fun f : option string =>
               match f with Some s => Py.has_surrogate s | None => false end)
            [url l; source_id l; title l; address l; postal_code l; city l].
Proof.
  rewrite collect_slots, existsb_omap_id. unfold slots. cbn [existsb].
  rewrite !slot_str_surrogate, !slot_int_surrogate by done.
  by rewrite !orb_false_r.
Qed.

(** [encode] fails on the hash input exactly when a hashed text field, or
    the uuid that stands in for them, holds a surrogate. *)
Lemma hash_input_surrogate u l :
  Py.has_surrogate (Hasher.hash_input u l) = holds_surrogate u l.
Proof.
  unfold Hasher.hash_input, holds_surrogate.
  rewrite has_surrogate_join, existsb_filter_truthy.
  destruct (has_identifier l) eqn:Hid.
  - pose proof (collect_nonempty l Hid) as Hne. rewrite <- collect_surrogate.
    by destruct (Hasher.collect l).
  - rewrite (has_identifier_collect l Hid). simpl. by rewrite orb_false_r.
Qed.

End SurrogateFacts.

(** X1.  The hash is a string of 32 characters, each one of [0-9a-f],
    unless a string that is hashed holds a surrogate code point: one of the
    text fields url, source_id, title, address, postal_code and city, or the
    uuid when nothing identifies the listing.  Then [encode] raises
    [UnicodeEncodeError] and there is no hash.  Both scrapers agree. *)
Theorem property_hash_is_32_hex_digits (uuid4 : string) (l : PropertyListing) :
  if holds_surrogate uuid4 l
  then VBTVerhuurmakelaarsScraper._generate_property_hash uuid4 l = None
       /\ HurenInHollandRijnland._generate_property_hash uuid4 l = None
  else exists h,
         VBTVerhuurmakelaarsScraper._generate_property_hash uuid4 l = Some h
         /\ HurenInHollandRijnland._generate_property_hash uuid4 l = Some h
         /\ String.length h = 32%nat /\ is_lower_hex h = true.
Proof.
  rewrite HasherFacts.vbt_hash_input, HasherFacts.hihr_hash_input.
  unfold Py.encode. rewrite SurrogateFacts.hash_input_surrogate.
  destruct (holds_surrogate uuid4 l); simpl; [done|].
  eexists. split; [done|]. split; [done|]. apply DigestFacts.hexdigest_shape.
Qed.

(** A title cut in the middle of an emoji stops the hash; without it the
    hash is there. *)
Example half_emoji_stops_the_hash :
  holds_surrogate "u" listing_with_half_emoji = true
  /\ VBTVerhuurmakelaarsScraper._generate_property_hash "u" listing_with_half_emoji = None
  /\ holds_surrogate "u" sample_listing = false
  /\ VBTVerhuurmakelaarsScraper._generate_property_hash "u" sample_listing
     = Some "d027336118a122cac26c66b0eb2a6d8c".
Proof. repeat split; vm_compute; reflexivity. Qed.

(** X2.  The hash does not tell a field that is missing from one that is
    empty (or zero, for the area and the price): two listings whose present
    identifying values agree, one at least being present, get the same
    hash. *)
Theorem property_hash_ignores_how_a_field_is_absent
    (uuid1 uuid2 : string) (l1 l2 : PropertyListing) :
  Listing.identifying_values l1 = Listing.identifying_values l2 ->
  Listing.has_identifier l1 = true ->
  VBTVerhuurmakelaarsScraper._generate_property_hash uuid1 l1
  = VBTVerhuurmakelaarsScraper._generate_property_hash uuid2 l2
  /\ HurenInHollandRijnland._generate_property_hash uuid1 l1
     = HurenInHollandRijnland._generate_property_hash uuid2 l2.
Proof.
  intros Hv Hid.
  rewrite ?HasherFacts.vbt_hash_input, ?HasherFacts.hihr_hash_input.
  by rewrite (DigestFacts.hash_input_slots uuid1 uuid2 l1 l2
                (DigestFacts.values_slots l1 l2 Hv) Hid).
Qed.

Lemma property_hash_ignores_how_a_field_is_absent_witness :
  title sample_listing <> title sample_listing_blank
  /\ VBTVerhuurmakelaarsScraper._generate_property_hash "u1" sample_listing
     = VBTVerhuurmakelaarsScraper._generate_property_hash "u2" sample_listing_blank
  /\ HurenInHollandRijnland._generate_property_hash "u1" sample_listing
     = HurenInHollandRijnland._generate_property_hash "u2" sample_listing_blank.
Proof.
  split; [discriminate|].
  apply (property_hash_ignores_how_a_field_is_absent "u1" "u2"
           sample_listing sample_listing_blank); reflexivity.
Defined.

(** X3.  When no identifying field is present (each one missing, empty or
    zero), the hash is the MD5 digest of the fresh uuid alone: nothing else
    of the listing enters it. *)
Theorem property_hash_of_anonymous_listing (uuid4 : string) (l : PropertyListing) :
  Listing.has_identifier l = false ->
  Py.truthy uuid4 = true ->
  VBTVerhuurmakelaarsScraper._generate_property_hash uuid4 l
  = MD5.hexdigest <$> Py.encode uuid4
  /\ HurenInHollandRijnland._generate_property_hash uuid4 l
     = MD5.hexdigest <$> Py.encode uuid4.
Proof.
  intros Hid Hu.
  rewrite ?HasherFacts.vbt_hash_input, ?HasherFacts.hihr_hash_input.
  unfold Hasher.hash_input. rewrite (DigestFacts.has_identifier_collect l Hid).
  simpl. rewrite filter_cons_True by done. done.
Qed.

Lemma property_hash_of_anonymous_listing_witness :
  VBTVerhuurmakelaarsScraper._generate_property_hash
    "1b9d6bcd-bbfd-4b2d-9b5d-ab8dfbbd4bed" anonymous_listing
  = MD5.hexdigest <$> Py.encode "1b9d6bcd-bbfd-4b2d-9b5d-ab8dfbbd4bed"
  /\ HurenInHollandRijnland._generate_property_hash
       "1b9d6bcd-bbfd-4b2d-9b5d-ab8dfbbd4bed" anonymous_listing
     = MD5.hexdigest <$> Py.encode "1b9d6bcd-bbfd-4b2d-9b5d-ab8dfbbd4bed".
Proof.
  apply (property_hash_of_anonymous_listing
           "1b9d6bcd-bbfd-4b2d-9b5d-ab8dfbbd4bed" anonymous_listing); reflexivity.
Defined.

(** ** The client object and its proxies *)

(** X4.  A client that comes out of [__init__] never has proxies enabled
    with an empty proxy list: it uses proxies exactly when it was asked to
    and the list (given, or else the configured one) is not empty, and its
    codec flags say what could be imported. *)
Theorem init_enables_proxies_only_with_a_list `{Runtime}
    (config_proxy_list : list string) (timeout' max_retries' min_wait max_wait : Z)
    (use_proxies' : bool) (proxy_list' : option (list string)) :
  let c := __init__ config_proxy_list timeout' max_retries' min_wait max_wait
                    use_proxies' proxy_list' in
  proxy_list c = default config_proxy_list proxy_list'
  /\ (use_proxies c = true <-> use_proxies' = true /\ proxy_list c <> [])
  /\ gzip_available c = gzip_importable
  /\ brotli_available c = brotli_importable
  /\ zlib_available c = zlib_importable.
Proof.
  unfold __init__, _import_compression_libs. simpl.
  destruct use_proxies', proxy_list' as [[|p ps]|], config_proxy_list as [|q qs];
    simpl; intuition congruence.
Qed.

(** X5.  [_get_random_proxy] draws nothing and returns [None] when proxies
    are disabled or the list is empty; otherwise it returns a member of the
    list.  It leaves the client and the trace as they are. *)
Theorem random_proxy_comes_from_the_list (w : World) (st : State) :
  exists o st',
    _get_random_proxy w st = (Some (Ok o), st')
    /\ frame st st'
    /\ (o = None <-> use_proxies (self st) = false \/ proxy_list (self st) = [])
    /\ forall p, o = Some p -> In p (proxy_list (self st)).
Proof.
  unfold _get_random_proxy, mbind, M_bind, bind, get_self.
  destruct (use_proxies (self st)) eqn:Eu; simpl.
  2:{ exists None, st. split; [done|]. split; [done|]. split; [|done].
      split; [by left|done]. }
  destruct (proxy_list (self st)) as [|p ps] eqn:El.
  { exists None, st. split; [done|]. split; [done|]. split; [|done].
    split; [by right|done]. }
  destruct (RunFacts.silent_random_choice (p :: ps) ltac:(done) w st)
    as (x & st' & E & F & Hin).
  exists (Some x), st'. rewrite E. simpl.
  split; [done|]. split; [done|]. split.
  - split; [done|]. by intros [?|?].
  - by intros q [= <-].
Qed.

(** ** Decompression and decoding *)

(** X6.  [_try_decompress_content] returns the bytes it was given or what
    one available decompressor made of exactly these bytes: gzip, brotli,
    zlib, or raw deflate after zlib failed. *)
Theorem decompress_returns_original_or_one_decompression `{Runtime}
    (c : EnhancedHttpClient) (content : Py.bytes) (encoding : option string) :
  _try_decompress_content c content encoding = content
  \/ (gzip_available c = true
      /\ gzip_decompress content = Some (_try_decompress_content c content encoding))
  \/ (brotli_available c = true
      /\ brotli_decompress content = Some (_try_decompress_content c content encoding))
  \/ (zlib_available c = true
      /\ zlib_decompress content = Some (_try_decompress_content c content encoding))
  \/ (zlib_available c = true /\ zlib_decompress content = None
      /\ zlib_decompress_raw content = Some (_try_decompress_content c content encoding)).
Proof.
  unfold _try_decompress_content.
  destruct encoding as [e|]; [|by left].
  destruct (Py.truthy e); simpl; [|by left].
  destruct (Py.contains "gzip" (str_lower e)), (gzip_available c); simpl;
    try (destruct (gzip_decompress content) eqn:Eg; [right; left; done|]);
    (destruct (Py.contains "br" (str_lower e)), (brotli_available c); simpl;
     try (destruct (brotli_decompress content) eqn:Eb; [right; right; left; done|]);
     (destruct (Py.contains "deflate" (str_lower e)), (zlib_available c); simpl;
      try (destruct (zlib_decompress content) eqn:Ez;
           [right; right; right; left; done|
            destruct (zlib_decompress_raw content) eqn:Er;
            [right; right; right; right; done|]]);
      by left)).
Qed.

(** X7.  The bytes come back unchanged when there is no [Content-Encoding]
    (missing or empty), when no codec could be imported, when the encoding
    names none of gzip, br and deflate, and when every decompressor fails
    on them. *)
Theorem decompress_leaves_content_alone `{Runtime}
    (c : EnhancedHttpClient) (content : Py.bytes) (encoding : option string) :
  encoding = None \/ encoding = Some ""
  \/ (gzip_available c = false /\ brotli_available c = false /\ zlib_available c = false)
  \/ (exists e, encoding = Some e
        /\ Py.contains "gzip" (str_lower e) = false
        /\ Py.contains "br" (str_lower e) = false
        /\ Py.contains "deflate" (str_lower e) = false)
  \/ (gzip_decompress content = None /\ brotli_decompress content = None
      /\ zlib_decompress content = None /\ zlib_decompress_raw content = None) ->
  _try_decompress_content c content encoding = content.
Proof.
  unfold _try_decompress_content.
  intros [->|[->|[(-> & -> & ->)|[(e & -> & -> & -> & ->)|(-> & -> & -> & ->)]]]];
    try done.
  - destruct encoding as [e|]; [|done]. destruct (Py.truthy e); simpl; [|done].
    by rewrite !andb_false_r.
  - by destruct (Py.truthy e).
  - destruct encoding as [e|]; [|done]. destruct (Py.truthy e); simpl; [|done].
    by destruct (Py.contains "gzip" (str_lower e) && gzip_available c),
               (Py.contains "br" (str_lower e) && brotli_available c),
               (Py.contains "deflate" (str_lower e) && zlib_available c).
Qed.

Lemma decompress_leaves_content_alone_witness :
  _try_decompress_content direct_client (list_byte_of_string "<html></html>")
    (Some "gzip, deflate")
  = list_byte_of_string "<html></html>".
Proof.
  apply (decompress_leaves_content_alone direct_client
           (list_byte_of_string "<html></html>")
           (Some "gzip, deflate")).
  right. right. right. right. repeat split; reflexivity.
Defined.

Example deflate_is_undone :
  @_try_decompress_content inflating_runtime
    (@__init__ inflating_runtime [] 30 3 1 10 false None) deflated_hello
    (Some "gzip, deflate")
  = list_byte_of_string "hello".
Proof. vm_compute. reflexivity. Qed.

Module LadderFacts.

Lemma len_app s t : Py.len (s +:+ t) = Py.len s + Py.len t.
Proof. induction s as [|c s IH]; simpl; [done|]. rewrite IH. lia. Qed.

Lemma string_of_list_byte_app l1 l2 :
  string_of_list_byte (l1 ++ l2) = string_of_list_byte l1 +:+ string_of_list_byte l2.
Proof.
  induction l1 as [|b l1 IH]; [reflexivity|].
  change (string_of_list_byte ((b :: l1) ++ l2))
    with (String (ascii_of_byte b) (string_of_list_byte (l1 ++ l2))).
  rewrite IH. reflexivity.
Qed.

(** A code point below 256 is one character. *)
Lemma latin1_char_len b :
  Py.len (string_of_list_byte (Codec.utf8_encode (Py.byte_val b))) = 1.
Proof. destruct b; vm_compute; reflexivity. Qed.

Lemma latin1_decode_len content :
  Py.len (Codec.latin1_decode content) = Z.of_nat (length content).
Proof.
  unfold Codec.latin1_decode, Codec.str_of_code_points.
  induction content as [|b content IH]; [done|].
  cbn [map concat length]. rewrite string_of_list_byte_app, len_app, IH, latin1_char_len.
  lia.
Qed.

Lemma decode_content_ladder `{Runtime} content :
  _decode_content content None
  = if utf8_valid content then Ok (string_of_list_byte content)
    else Ok (Codec.latin1_decode content).
Proof.
  unfold _decode_content, utf8_valid. cbn [try_encodings].
  rewrite DecodeFacts.utf8_total, DecodeFacts.latin1_total.
  unfold Codec.utf8_decode. by destruct (Codec.utf8_scan _ _ _ _).
Qed.

End LadderFacts.

(** X8.  Without a charset [_decode_content] returns the bytes read as
    UTF-8 when they are well-formed UTF-8 and read as latin1 otherwise; the
    ladder's entries after latin1, cp1252 and iso-8859-1, and the final
    fallback are never reached. *)
Theorem decode_without_charset_is_utf8_or_latin1 `{Runtime} (content : Py.bytes) :
  _decode_content content None
  = if utf8_valid content then Ok (string_of_list_byte content)
    else Ok (Codec.latin1_decode content).
Proof. apply LadderFacts.decode_content_ladder. Qed.

(** X9.  A supplied charset comes first: what its codec decodes is the
    result, whatever the ladder would give; when it raises
    [UnicodeDecodeError], or when the charset is the empty string, the
    result is that of the call without a charset. *)
Theorem decode_tries_the_charset_first `{Runtime}
    (content : Py.bytes) (charset : string) :
  (forall s, Py.truthy charset = true -> Codec.bytes_decode charset content = Ok s ->
             _decode_content content (Some charset) = Ok s)
  /\ (Py.truthy charset = false
      \/ Codec.bytes_decode charset content = Raise UnicodeDecodeError ->
      _decode_content content (Some charset) = _decode_content content None).
Proof.
  unfold _decode_content. split.
  - intros s -> ->. done.
  - intros [->| ->]; [done|]. by destruct (Py.truthy charset).
Qed.

(** X10.  Bytes that are not well-formed UTF-8 lose nothing when they are
    decoded without a charset: the text has one character for each byte. *)
Theorem decode_fallback_keeps_every_byte `{Runtime} (content : Py.bytes) :
  utf8_valid content = false ->
  exists s, _decode_content content None = Ok s
            /\ Py.len s = Z.of_nat (length content).
Proof.
  intros Hv. rewrite LadderFacts.decode_content_ladder, Hv.
  exists (Codec.latin1_decode content). split; [done|].
  apply LadderFacts.latin1_decode_len.
Qed.

Lemma decode_fallback_keeps_every_byte_witness :
  exists s, _decode_content ["099"; "097"; "102"; "233"]%byte None = Ok s
            /\ Py.len s = Z.of_nat (length ["099"; "097"; "102"; "233"]%byte).
Proof.
  apply (decode_fallback_keeps_every_byte ["099"; "097"; "102"; "233"]%byte).
  reflexivity.
Defined.

(** X11.  With no charset, an empty one, or one of utf-8, latin1,
    iso-8859-1 and cp1252, [_decode_content] returns a string for every
    byte sequence. *)
Theorem decode_returns_text_for_builtin_charsets `{Runtime}
    (content : Py.bytes) (charset : option string) :
  In charset [ None; Some ""; Some "utf-8"; Some "latin1"; Some "iso-8859-1";
               Some "cp1252" ] ->
  exists s, _decode_content content charset = Ok s.
Proof.
  intros [<-|[<-|Hin]].
  - apply DecodeFacts.decode_content_no_charset.
  - destruct (DecodeFacts.decode_content_no_charset content) as [s Hs].
    exists s. by rewrite <- Hs.
  - apply decode_content_total_on_known. intros cs ->.
    destruct Hin as [[= <-]|[[= <-]|[[= <-]|[[= <-]|[]]]]].
    + rewrite DecodeFacts.utf8_total. unfold Codec.utf8_decode.
      destruct (Codec.utf8_scan _ _ _ _); eauto.
    + left. rewrite DecodeFacts.latin1_total. eauto.
    + left. destruct content; simpl; eauto.
    + rewrite DecodeFacts.cp1252_total. unfold Codec.cp1252_decode.
      destruct (mapM _ _); eauto.
Qed.

Lemma decode_returns_text_for_builtin_charsets_witness :
  exists s, _decode_content ["099"; "097"; "102"; "233"]%byte (Some "cp1252") = Ok s.
Proof.
  apply (decode_returns_text_for_builtin_charsets
           ["099"; "097"; "102"; "233"]%byte (Some "cp1252")).
  simpl. tauto.
Defined.

(** X12.  The manual pass changes nothing but the text of a response, and
    the text it writes is what [_decode_content] makes of the decompressed
    body; a response whose status is not 200, or whose text has at least
    100 characters while its body has no NUL byte, is left as it is. *)
Theorem manual_decode_only_rewrites_text `{Runtime}
    (c : EnhancedHttpClient) (r r' : Response) :
  manual_decode c r = Ok r' ->
  status_code r' = status_code r /\ history r' = history r
  /\ retry_after r' = retry_after r /\ content_encoding r' = content_encoding r
  /\ content_type r' = content_type r /\ content r' = content r
  /\ (r' = r \/ _decode_content (manual_input c r) (manual_charset r) = Ok (text r'))
  /\ (status_code r <> 200
      \/ (100 <= Py.len (text r) /\ existsb (Byte.eqb NUL) (content r) = false) ->
      r' = r).
Proof.
  unfold manual_decode, manual_input, manual_charset. intros Hd.
  destruct (status_code r =? 200) eqn:Es; simpl in Hd.
  - destruct (negb (Py.truthy (text r)) || (Py.len (text r) <? 100)
              || existsb (Byte.eqb NUL) (content r)) eqn:Esus.
    + destruct (_decode_content _ _) as [t|e] eqn:Edec; [|done].
      injection Hd as <-. simpl. repeat split; try done; [by right|].
      intros [Hne|[Hlen Hnul]]; [lia|].
      rewrite Hnul, orb_false_r in Esus.
      apply orb_true_iff in Esus as [Hempty|Hshort]; [|lia].
      destruct (text r); [simpl in Hlen; lia|done].
    + injection Hd as <-. repeat split; try done. by left.
  - injection Hd as <-. repeat split; try done. by left.
Qed.

Lemma manual_decode_only_rewrites_text_witness :
  manual_decode direct_client long_page = Ok long_page.
Proof.
  assert (E : exists r', manual_decode direct_client long_page = Ok r')
    by (eexists; vm_compute; reflexivity).
  destruct E as [r' E]. rewrite E. f_equal.
  apply (manual_decode_only_rewrites_text direct_client long_page r' E).
  right. split; [vm_compute; discriminate|reflexivity].
Defined.

(** ** What every request of [get] has *)

Module RequestFacts.
Import RunFacts AttemptFacts PrepareFacts ClassifyFacts LoopFacts GetFacts.

Lemma get_random_proxy_member w st :
  returns frame
    (fun o => forall p, o = Some p ->
                use_proxies (self st) = true /\ In p (proxy_list (self st)))
    _get_random_proxy w st.
Proof.
  unfold _get_random_proxy.
  eapply (returns_bind_frame (fun c => c = self st)).
  { eexists _, _. split; [reflexivity|]. done. }
  intros c st' _ _ ->.
  destruct (use_proxies (self st)) eqn:Eu; simpl; [|by apply returns_ret_frame].
  destruct (proxy_list (self st)) as [|p ps] eqn:El; [by apply returns_ret_frame|].
  eapply returns_bind_frame; [by apply silent_random_choice|].
  intros x st2 _ _ Hin. apply returns_ret_frame. by intros q [= <-].
Qed.

Lemma browser_headers_accept_encoding :
  silent (fun h : dict => h !! "Accept-Encoding" = Some "gzip, deflate, br")
         _get_browser_headers.
Proof.
  unfold _get_browser_headers.
  eapply silent_bind; [by apply silent_random_choice|]. intros p Hp.
  eapply silent_bind; [by apply silent_random_choice|]. intros r _.
  apply silent_ret. rewrite lookup_insert_ne by done.
  cbn [In default_browser_profiles] in Hp.
  destruct Hp as [<-|[<-|[<-|[<-|[<-|[<-|[]]]]]]]; vm_compute; reflexivity.
Qed.

(** The loop body after the fingerprint, with what it does about proxies. *)
Lemma finish_request_proxy url headers cookies kwargs count w st :
  popped kwargs ->
  returns slept
    (fun rk : Request * Kwargs =>
       snd rk = kwargs /\ req_url (fst rk) = url /\ req_headers (fst rk) = headers
       /\ req_cookies (fst rk) = cookies /\ req_kwargs (fst rk) = kw_other kwargs
       /\ proxy_ok (self st) (req_proxies (fst rk)))
    (c ← get_self;
     proxy ← (if use_proxies c then _get_random_proxy else mret None);
     proxy ← (if opt_truthy proxy && (0 <? count)
              then _get_random_proxy else mret proxy);
     (if 0 <? count
      then sleep_retry_delay (2 * count) (5 * count)
      else mret tt);;
     sleep_human_delay (1 + count);;
     (if bool_decide (kw_headers kwargs = None ∧ kw_cookies kwargs = None)
      then mret tt else raise TypeError);;
     mret ({| req_url := url; req_headers := headers; req_cookies := cookies;
              req_kwargs := kw_other kwargs;
              req_proxies := if opt_truthy proxy then proxy else None |},
           kwargs)) w st.
Proof.
  intros Hpop.
  set (member := fun o : option string =>
         forall p, o = Some p -> use_proxies (self st) = true /\ In p (proxy_list (self st))).
  eapply (returns_bind slept (fun _ => True)); [exact slept_trans| |].
  { apply returns_of_silent, silent_get_self. }
  intros c st1 _ [Hs1 _] _.
  eapply (returns_bind slept member); [exact slept_trans| |].
  { destruct (use_proxies c).
    - eapply returns_weaken; [apply get_random_proxy_member|apply frame_slept|].
      unfold member. by rewrite Hs1.
    - by apply returns_ret. }
  intros proxy st2 _ [Hs2 _] Hm1.
  eapply (returns_bind slept member); [exact slept_trans| |].
  { destruct (opt_truthy proxy && (0 <? count)).
    - eapply returns_weaken; [apply get_random_proxy_member|apply frame_slept|].
      unfold member. by rewrite Hs2, Hs1.
    - by apply returns_ret. }
  intros proxy' st3 _ _ Hm2.
  eapply (returns_bind slept (fun _ => True)); [exact slept_trans| |].
  { destruct (0 <? count).
    - apply returns_sleep_retry_delay.
    - by apply returns_ret. }
  intros [] st4 _ _ _.
  eapply (returns_bind slept (fun _ => True)); [exact slept_trans| |].
  { apply returns_sleep_human_delay. }
  intros [] st5 _ _ _.
  rewrite bool_decide_eq_true_2 by exact Hpop.
  eapply (returns_bind slept (fun _ => True)); [exact slept_trans| |].
  { by apply returns_ret. }
  intros [] st6 _ _ _.
  apply returns_ret; [done|]. simpl. repeat split; try done.
  destruct proxy' as [p|]; simpl; [|done].
  destruct (Py.truthy p) eqn:Et; simpl; [|done].
  destruct (Hm2 p eq_refl). done.
Qed.

(** One pass prepares a well-formed request and keeps what is known of
    [kwargs]. *)
Lemma prepare_request_well_formed url profiles kwargs0 count kwargs w st :
  catalog_ok profiles -> catalog_accepts_encodings profiles ->
  kwargs_at kwargs0 count kwargs ->
  returns slept
    (fun rk : Request * Kwargs =>
       kwargs_at kwargs0 (count + 1) (snd rk)
       /\ well_formed_request (self st) url kwargs0 count (fst rk))
    (prepare_request url profiles count kwargs) w st.
Proof.
  intros Hcat Henc [[-> ->]|(Hc & Hpop & Hother)].
  - destruct (select_profile_first profiles kwargs0 w st (catalog_nonempty _ Hcat))
      as (p & h & st1 & E & F & Eh).
    destruct (browser_headers_accept_encoding w st) as (h' & st1' & Eh' & _ & Hacc).
    rewrite Eh in Eh'. injection Eh' as <- <-.
    unfold prepare_request.
    eapply returns_after; [exact slept_trans|exact E|by apply frame_slept|].
    cbv beta iota zeta.
    destruct (apply_custom_headers h (snd (pop_cookies kwargs0))) as [h2 kw'] eqn:Ea.
    assert (popped kw' /\ kw_other kw' = kw_other kwargs0
            /\ h2 = dict_update h (default ∅ (kw_headers kwargs0))) as (Hpop & Hother & Hh2).
    { unfold apply_custom_headers, pop_cookies in Ea. simpl in Ea.
      destruct (kw_headers kwargs0) as [custom_headers|] eqn:Ek;
        inversion Ea; subst; simpl; repeat split; try done.
      unfold dict_update. by rewrite (left_id_L ∅ (∪)). }
    eapply returns_weaken; [by apply finish_request_proxy|done|].
    intros [req kw2] (Hk & Hu & Hhd & Hck & Hkw & Hpx); simpl in *. subst kw2.
    split; [right; split; [lia|done]|].
    destruct F as [Hself _]. rewrite Hself in Hpx.
    split; [done|]. split; [by rewrite Hkw|]. split; [done|].
    intros [[_ Hno]|?]; [|lia].
    rewrite Hhd, Hh2. unfold dict_update.
    destruct (kw_headers kwargs0) as [custom_headers|] eqn:Ek; simpl.
    + rewrite lookup_union_r; [done|]. by apply Hno.
    + by rewrite (left_id_L ∅ (∪)).
  - destruct (select_profile_retry profiles count kwargs w st Hcat Hc)
      as (n & h & ck & Hlook & E).
    unfold prepare_request.
    eapply returns_after; [exact slept_trans|exact E|done|].
    cbv beta iota zeta.
    assert (apply_custom_headers h kwargs = (h, kwargs)) as ->.
    { unfold apply_custom_headers. destruct Hpop as [-> _]. done. }
    eapply returns_weaken; [by apply finish_request_proxy|done|].
    intros [req kw2] (Hk & Hu & Hhd & Hck & Hkw & Hpx); simpl in *. subst kw2.
    split; [right; split; [lia|done]|].
    split; [done|]. split; [by rewrite Hkw|]. split; [done|].
    intros _. rewrite Hhd. by eapply Henc.
Qed.

(** With [retry_anti_bot] off no response is answered with another pass. *)
Lemma classify_without_retry `{Runtime} max count r w st r' :
  fst (classify false max count r w st) <> Some (Ok (Continue r')).
Proof.
  unfold classify.
  destruct (10 <? history r)%nat; [done|].
  destruct (status_code r =? 429).
  { destruct (int_of_str _); done. }
  destruct (400 <=? status_code r).
  { by destruct (status_code r =? 404). }
  unfold mbind, M_bind, bind, get_self, lift.
  by destruct (manual_decode (self st) r).
Qed.

Lemma rest_of_attempt_without_retry `{Runtime} max count req kwargs w st r' kw' :
  fst (rest_of_attempt false max count req kwargs w st) <> Some (Ok (Continue r', kw')).
Proof.
  destruct (transport w (length (requests (trace st))) req) as [r|e] eqn:E.
  - rewrite (rest_of_attempt_ok _ _ _ _ _ r) by done.
    pose proof (classify_without_retry max count r w (log (Send req) st)) as Hc.
    destruct (classify false max count r w (log (Send req) st)) as [[[o|e]|] st'];
      simpl in *; try done.
    intros [= -> _]. by apply (Hc r').
  - by rewrite (rest_of_attempt_raise _ _ _ _ _ e).
Qed.

Local Ltac no_request :=
  split; [done|]; exists []; rewrite app_nil_r; split; [done|];
  split; [by intros [|?] ?|]; simpl; split; intros; lia.

(** The loop: the client is left alone, every request is well-formed, and
    there are no more requests than passes left, one at most without
    [retry_anti_bot]. *)
Lemma get_loop_well_formed `{Runtime} url flag max profiles kwargs0 c :
  catalog_ok profiles -> catalog_accepts_encodings profiles ->
  forall fuel count kwargs response w st,
    kwargs_at kwargs0 count kwargs -> self st = c ->
    self (snd (get_loop fuel url flag max profiles count kwargs response w st)) = c
    /\ exists rs,
         requests (trace (snd (get_loop fuel url flag max profiles count kwargs response w st)))
         = requests (trace st) ++ rs
         /\ (forall (j : nat) r, rs !! j = Some r ->
               well_formed_request c url kwargs0 (count + Z.of_nat j) r)
         /\ (length rs <= Z.to_nat (max + 1 - count))%nat
         /\ (flag = false -> (length rs <= 1)%nat).
Proof.
  intros Hcat Henc. induction fuel as [|fuel IH];
    intros count kwargs response w st Hkw Hself.
  { simpl. destruct (count <=? max); [|destruct response]; simpl; no_request. }
  simpl. destruct (count <=? max) eqn:Ec; [|destruct response; simpl; no_request].
  destruct (attempt_unfold url flag max profiles count kwargs w st _
              (prepare_request_well_formed url profiles kwargs0 count kwargs w st
                 Hcat Henc Hkw))
    as (req & kw' & st1 & [Hself1 Hreq1] & (Hkw' & Hwf) & Eatt).
  simpl in Hkw', Hwf. rewrite Hself in Hwf.
  destruct (rest_of_attempt_safe flag max count req kw' w st1)
    as (Hself2 & Hreq2 & _ & Hkw2).
  pose proof (fun r' kw2 => rest_of_attempt_without_retry max count req kw' w st1 r' kw2)
    as Hnr.
  unfold mbind, M_bind, bind. rewrite Eatt.
  assert (Hone : forall (j : nat) r, [req] !! j = Some r ->
            well_formed_request c url kwargs0 (count + Z.of_nat j) r).
  { intros [|j] r; [|done]. intros [= <-]. by rewrite Z.add_0_r. }
  destruct (rest_of_attempt flag max count req kw' w st1) as [[[[o kw2]|e]|] st2] eqn:Er;
    simpl in *.
  - specialize (Hkw2 o kw2 eq_refl). subst kw2.
    destruct o as [r'|r'].
    + simpl. split; [congruence|]. exists [req].
      split; [congruence|]. split; [done|]. simpl. split; lia.
    + destruct (IH (count + 1) kw' (Some r') w st2 Hkw' ltac:(congruence))
        as (Hself3 & rs & Hreq3 & Hrs & Hlen & Hflag).
      split; [done|]. exists (req :: rs). split.
      { rewrite Hreq3, Hreq2, Hreq1. by rewrite <- app_assoc. }
      split.
      { intros [|j] r; simpl.
        - intros [= <-]. by rewrite Z.add_0_r.
        - intros Hj. specialize (Hrs j r Hj).
          by replace (count + Z.of_nat (S j)) with (count + 1 + Z.of_nat j) by lia. }
      split; [simpl; lia|].
      intros ->. rewrite Er in Hnr. by destruct (Hnr r' kw').
  - split; [congruence|]. exists [req].
    split; [congruence|]. split; [done|]. simpl. split; lia.
  - split; [congruence|]. exists [req].
    split; [congruence|]. split; [done|]. simpl. split; lia.
Qed.

End RequestFacts.

(** ** One pass of the loop after another *)

Module PassFacts.
Import RunFacts AttemptFacts PrepareFacts ClassifyFacts LoopFacts GetFacts AnswerFacts.

(** The call as seen from its request number [k]: what the rest of that
    pass yields decides how the call goes on. *)
Lemma get_loop_pass `{Runtime} url flag max profiles :
  catalog_ok profiles ->
  forall fuel count kwargs response w st (k : nat) req,
    ready count kwargs ->
    drop (length (requests (trace st)))
         (requests (trace (snd (get_loop fuel url flag max profiles count kwargs
                                         response w st)))) !! k = Some req ->
    exists st2 kw',
      self st2 = self st
      /\ length (requests (trace st2)) = (length (requests (trace st)) + k)%nat
      /\ popped kw' /\ (k < fuel)%nat /\ 0 <= count /\ count + Z.of_nat k <= max
      /\ get_loop fuel url flag max profiles count kwargs response w st
         = match rest_of_attempt flag max (count + Z.of_nat k) req kw' w st2 with
           | (Some (Ok (Returned r', _)), st3) => (Some (Ok r'), st3)
           | (Some (Ok (Continue r', _)), st3) =>
               get_loop (fuel - S k) url flag max profiles (count + Z.of_nat k + 1)
                        kw' (Some r') w st3
           | (Some (Raise e), st3) => (Some (Raise e), st3)
           | (None, st3) => (None, st3)
           end.
Proof.
  intros Hcat. induction fuel as [|fuel IH];
    intros count kwargs response w st k req Hready Hk.
  { simpl in Hk. destruct (count <=? max); [|destruct response]; simpl in Hk;
      rewrite drop_all in Hk; done. }
  simpl in Hk |- *.
  destruct (count <=? max) eqn:Ec;
    [|destruct response; simpl in Hk; rewrite drop_all in Hk; done].
  assert (0 <= count) as Hc0 by (destruct Hready as [->|[? _]]; lia).
  destruct (attempt_cases url flag max profiles count kwargs w st Hcat Hready)
    as (req0 & kw' & st1 & [Hself1 Hreq1] & Hpop & Eatt).
  unfold mbind, M_bind, bind in Hk |- *. rewrite Eatt in Hk |- *.
  destruct (rest_of_attempt_safe flag max count req0 kw' w st1)
    as (Hself2 & Hreq2 & Hfuel & Hkw2).
  rewrite Hreq1 in Hreq2.
  destruct (rest_of_attempt flag max count req0 kw' w st1)
    as [[[[o kw2]|e]|] st3] eqn:Er; simpl in *; [| |done].
  - specialize (Hkw2 o kw2 eq_refl). subst kw2. destruct o as [r'|r'].
    + simpl in Hk. rewrite Hreq2, drop_app_length in Hk.
      destruct k as [|k]; [|done]. injection Hk as <-.
      exists st1, kw'. rewrite Z.add_0_r, Er, Hreq1, Nat.add_0_r.
      repeat (split; [done || lia|]). done.
    + destruct (get_loop_sends url flag max profiles Hcat fuel (count + 1) kw'
                  (Some r') w st3 ltac:(right; split; [lia|done])) as [rs Ers].
      destruct k as [|k].
      * rewrite Ers, Hreq2, <- app_assoc, drop_app_length in Hk. injection Hk as <-.
        exists st1, kw'. rewrite !Z.add_0_r, Er, Hreq1, Nat.add_0_r, Nat.sub_0_r.
        repeat (split; [done || lia|]). done.
      * assert (length (requests (trace st3)) = S (length (requests (trace st))))
          as Hlen3 by (rewrite Hreq2, length_app; simpl; lia).
        destruct (IH (count + 1) kw' (Some r') w st3 k req
                    ltac:(right; split; [lia|done]))
          as (st2 & kw'' & Hs2 & Hl2 & Hpop2 & Hlt & _ & Hle & Eq).
        { rewrite Ers, drop_app_length.
          rewrite Ers, Hreq2, <- app_assoc, drop_app_length in Hk. exact Hk. }
        exists st2, kw''.
        replace (count + Z.of_nat (S k)) with (count + 1 + Z.of_nat k) by lia.
        split; [congruence|]. split; [lia|]. split; [done|]. split; [lia|].
        split; [done|]. split; [lia|]. exact Eq.
  - rewrite Hreq2, drop_app_length in Hk.
    destruct k as [|k]; [|done]. injection Hk as <-.
    exists st1, kw'. rewrite Z.add_0_r, Er, Hreq1, Nat.add_0_r.
    repeat (split; [done || lia|]). done.
Qed.

Lemma get_pass `{Runtime} url flag max kwargs w st (k : nat) req :
  new_requests st (snd (get url flag max kwargs w st)) !! k = Some req ->
  exists profiles st2 kw',
    catalog_ok profiles /\ self st2 = self st
    /\ length (requests (trace st2)) = (length (requests (trace st)) + k)%nat
    /\ popped kw' /\ Z.of_nat k <= max
    /\ get url flag max kwargs w st
       = match rest_of_attempt flag max (Z.of_nat k) req kw' w st2 with
         | (Some (Ok (Returned r', _)), st3) => (Some (Ok r'), st3)
         | (Some (Ok (Continue r', _)), st3) =>
             get_loop (Z.to_nat (max + 1) - S k) url flag max profiles (Z.of_nat k + 1)
                      kw' (Some r') w st3
         | (Some (Raise e), st3) => (Some (Raise e), st3)
         | (None, st3) => (None, st3)
         end.
Proof.
  intros Hk. unfold new_requests in Hk.
  destruct (origin_of url) as [referer|] eqn:Eo.
  - destruct (browser_profiles_returns url referer Eo w st)
      as (profiles & st0 & Ebp & [Hself0 Htr0] & Hcat & _).
    assert (Eget : get url flag max kwargs w st
              = get_loop (Z.to_nat (max + 1)) url flag max profiles 0 kwargs None w st0).
    { unfold get, mbind, M_bind, bind. by rewrite Ebp. }
    rewrite Eget in Hk |- *.
    destruct (get_loop_pass url flag max profiles Hcat (Z.to_nat (max + 1)) 0
                kwargs None w st0 k req ltac:(by left))
      as (st2 & kw' & Hs2 & Hl2 & Hpop & _ & _ & Hle & Eq).
    { by rewrite Htr0. }
    exists profiles, st2, kw'. rewrite Htr0 in Hl2. rewrite !Z.add_0_l in Eq.
    split; [done|]. split; [congruence|]. split; [done|]. split; [done|].
    split; [lia|done].
  - unfold get, mbind, M_bind, bind in Hk. rewrite browser_profiles_raises in Hk by done.
    simpl in Hk. rewrite drop_all in Hk. done.
Qed.

(** A transport error ends the call. *)
Lemma get_transport_error `{Runtime} url flag max kwargs w st (k : nat) req e :
  new_requests st (snd (get url flag max kwargs w st)) !! k = Some req ->
  transport w (length (requests (trace st)) + k) req = Raise e ->
  exists st2,
    self st2 = self st
    /\ length (requests (trace st2)) = (length (requests (trace st)) + k)%nat
    /\ get url flag max kwargs w st = (Some (Raise e), log (Send req) st2).
Proof.
  intros Hk Htr.
  destruct (get_pass url flag max kwargs w st k req Hk)
    as (profiles & st2 & kw' & _ & Hs2 & Hl2 & _ & _ & Eq).
  exists st2. split; [done|]. split; [done|].
  rewrite Eq, (rest_of_attempt_raise _ _ _ _ _ e); [done|]. by rewrite Hl2.
Qed.

(** An answer that asks for another pass gets one. *)
Lemma get_continues `{Runtime} url max kwargs w st (k : nat) req r :
  new_requests st (snd (get url true max kwargs w st)) !! k = Some req ->
  transport w (length (requests (trace st)) + k) req = Ok r ->
  antibot_page (self st) r = true ->
  Z.of_nat k < max ->
  is_Some (new_requests st (snd (get url true max kwargs w st)) !! S k).
Proof.
  intros Hk Htr Hpage Hlt.
  destruct (get_pass url true max kwargs w st k req Hk)
    as (profiles & st2 & kw' & Hcat & Hs2 & Hl2 & Hpop & _ & Eq).
  destruct (ExhaustFacts.antibot_page_inv _ _ Hpage) as (Hst & Hh & r' & Hd & Hdet).
  rewrite (rest_of_attempt_ok _ _ _ _ _ r) in Eq by (by rewrite Hl2).
  rewrite (classify_page _ _ _ _ r') in Eq; [|done|lia|by simpl; rewrite Hs2].
  rewrite Hdet in Eq. replace (Z.of_nat k <? max) with true in Eq by lia.
  simpl in Eq.
  set (fuel := (Z.to_nat (max + 1) - S k)%nat) in Eq.
  assert (fuel = S (pred fuel)) as Hf by (unfold fuel; lia).
  rewrite Hf in Eq. simpl in Eq.
  replace (Z.of_nat k + 1 <=? max) with true in Eq by lia.
  destruct (attempt_cases url true max profiles (Z.of_nat k + 1) kw' w
              (log (Send req) st2) Hcat ltac:(right; split; [lia|done]))
    as (req1 & kw1 & st3 & [Hself3 Hreq3] & Hpop1 & Eatt).
  unfold mbind, M_bind, bind in Eq. rewrite Eatt in Eq.
  destruct (rest_of_attempt_safe true max (Z.of_nat k + 1) req1 kw1 w st3)
    as (_ & Hreq4 & _ & Hkw4).
  assert (exists rs, requests (trace (snd (get url true max kwargs w st)))
                     = requests (trace st3) ++ req1 :: rs) as [rs Ers].
  { rewrite Eq.
    destruct (rest_of_attempt true max (Z.of_nat k + 1) req1 kw1 w st3)
      as [[[[o kw2]|e]|] st4] eqn:Er; simpl in *.
    - specialize (Hkw4 o kw2 eq_refl). subst kw2. destruct o as [r2|r2].
      + exists []. done.
      + destruct (get_loop_sends url true max profiles Hcat (pred fuel)
                    (Z.of_nat k + 1 + 1) kw1 (Some r2) w st4
                    ltac:(right; split; [lia|done])) as [rs Ers].
        exists rs. by rewrite Ers, Hreq4, <- app_assoc.
    - exists []. done.
    - exists []. done. }
  unfold new_requests. rewrite Ers, Hreq3, requests_log_send.
  rewrite lookup_drop, <- app_assoc.
  rewrite lookup_app_r by (rewrite Hl2; lia).
  replace (length (requests (trace st)) + S k - length (requests (trace st2)))%nat
    with 1%nat by lia.
  simpl. eauto.
Qed.

End PassFacts.

(** ** Whole calls *)

Module CallFacts.
Import RunFacts AttemptFacts PrepareFacts ClassifyFacts LoopFacts GetFacts AnswerFacts.
Import RequestFacts PassFacts.

Lemma browser_profiles_accept_encodings url referer :
  origin_of url = Some referer ->
  silent (fun profiles => catalog_ok profiles /\ catalog_accepts_encodings profiles)
         (browser_profiles url).
Proof.
  intros E. unfold browser_profiles. rewrite E.
  eapply silent_bind; [by apply (silent_ret (fun _ => True))|]. intros r _.
  eapply silent_bind; [by apply silent_random_randint|]. intros depth _.
  eapply silent_bind; [by apply silent_random_choice|]. intros width _.
  eapply silent_bind; [by apply silent_random_choice|]. intros height _.
  eapply silent_bind; [by apply silent_time|]. intros now _.
  apply silent_ret. split.
  - split; [cbn [length]; lia|].
    intros [|[|[|[|[|[|i]]]]]] p Hi Hp; try lia;
      cbn [lookup list_lookup] in Hp; try done; by inversion Hp.
  - intros [|[|[|[|[|[|i]]]]]] n h c Hp;
      cbn [lookup list_lookup] in Hp; try done; inversion Hp; subst;
      vm_compute; reflexivity.
Qed.

Lemma get_well_formed `{Runtime} url flag max kwargs w st :
  (forall (j : nat) r,
      new_requests st (snd (get url flag max kwargs w st)) !! j = Some r ->
      well_formed_request (self st) url kwargs (Z.of_nat j) r)
  /\ (length (new_requests st (snd (get url flag max kwargs w st)))
      <= Z.to_nat (max + 1))%nat
  /\ (flag = false ->
      (length (new_requests st (snd (get url flag max kwargs w st))) <= 1)%nat).
Proof.
  destruct (origin_of url) as [referer|] eqn:Eo.
  - destruct (browser_profiles_accept_encodings url referer Eo w st)
      as (profiles & st0 & Ebp & [Hself0 Htr0] & Hcat & Henc).
    assert (Eget : get url flag max kwargs w st
              = get_loop (Z.to_nat (max + 1)) url flag max profiles 0 kwargs None w st0).
    { unfold get, mbind, M_bind, bind. by rewrite Ebp. }
    rewrite Eget.
    destruct (get_loop_well_formed url flag max profiles kwargs (self st) Hcat Henc
                (Z.to_nat (max + 1)) 0 kwargs None w st0
                (or_introl (conj eq_refl eq_refl)) Hself0)
      as (_ & rs & Hreq & Hrs & Hlen & Hflag).
    rewrite (FingerprintFacts.new_requests_app st _ rs) by (by rewrite Hreq, Htr0).
    split; [|split].
    + intros j r Hj. specialize (Hrs j r Hj). by rewrite Z.add_0_l in Hrs.
    + by replace (max + 1 - 0) with (max + 1) in Hlen by lia.
    + done.
  - unfold get, mbind, M_bind, bind. rewrite browser_profiles_raises by done.
    unfold new_requests. simpl. rewrite drop_all. simpl.
    split; [by intros [|?] ?|]. split; intros; lia.
Qed.

Lemma classify_429_unparsable `{Runtime} flag max count r w st :
  (history r <= 10)%nat -> status_code r = 429 ->
  int_of_str (default "5" (retry_after r)) = None ->
  classify flag max count r w st = (Some (Raise ValueError), st).
Proof.
  intros Hh Hs Hi. unfold classify.
  replace (10 <? history r)%nat with false by (symmetry; apply Nat.ltb_ge; lia).
  rewrite Hs. simpl. by rewrite Hi.
Qed.

Lemma split_acc_length sep acc s :
  length (Py.split_acc sep acc s) = S (count_char sep s).
Proof.
  revert acc. induction s as [|a s IH]; intros acc; [done|].
  simpl. destruct (Ascii.eqb a sep); simpl; by rewrite IH.
Qed.

Lemma origin_of_none url :
  (count_char "/" url < 2)%nat -> origin_of url = None.
Proof.
  intros Hc. unfold origin_of.
  pose proof (split_acc_length "/" "" url) as Hl. fold (Py.split "/" url) in Hl.
  destruct (Py.split "/" url) as [|a [|b [|c l]]]; try done.
  simpl in Hl. lia.
Qed.

Lemma origin_of_some url :
  (2 <= count_char "/" url)%nat -> exists referer, origin_of url = Some referer.
Proof.
  intros Hc. unfold origin_of.
  pose proof (split_acc_length "/" "" url) as Hl. fold (Py.split "/" url) in Hl.
  destruct (Py.split "/" url) as [|a [|b [|c l]]]; simpl in Hl; try lia. eauto.
Qed.

Lemma get_with_fallback_falls_back `{Runtime} url flag max kwargs w st e st1 :
  use_proxies (self st) = true ->
  get url flag max kwargs w st = (Some (Raise e), st1) ->
  is_RequestError e = true ->
  get_with_fallback url flag max kwargs w st
  = (fst (get url flag max kwargs w (assign_use_proxies false st1)),
     assign_use_proxies true
       (snd (get url flag max kwargs w (assign_use_proxies false st1)))).
Proof.
  intros Hu Eg He.
  unfold get_with_fallback, mbind, M_bind, bind, get_self. rewrite Hu. simpl.
  unfold except_RequestError. rewrite Eg, He.
  unfold put_self, finally_set_use_proxies. simpl.
  fold (assign_use_proxies false st1).
  by destruct (get url flag max kwargs w (assign_use_proxies false st1)).
Qed.

Lemma get_with_fallback_passes `{Runtime} url flag max kwargs w st :
  use_proxies (self st) = false
  \/ (forall e, fst (get url flag max kwargs w st) = Some (Raise e) ->
                is_RequestError e = false) ->
  get_with_fallback url flag max kwargs w st = get url flag max kwargs w st.
Proof.
  intros Hc. unfold get_with_fallback, mbind, M_bind, bind, get_self.
  destruct (use_proxies (self st)) eqn:Eu; simpl; [|done].
  destruct Hc as [?|Hc]; [done|].
  unfold except_RequestError.
  destruct (get url flag max kwargs w st) as [[[r|e]|] st1]; simpl in *; try done.
  by rewrite (Hc e eq_refl).
Qed.

End CallFacts.

(** X13.  A call of [get] sends at most [max_antibot_retries + 1] requests,
    none when that number is negative, and at most one when
    [retry_anti_bot] is off, whatever the network answers. *)
Theorem get_sends_a_bounded_number_of_requests `{Runtime}
    (url : string) (retry_anti_bot : bool) (max_antibot_retries : Z)
    (kwargs : Kwargs) (w : World) (st : State) :
  (length (new_requests st (snd (get url retry_anti_bot max_antibot_retries kwargs w st)))
   <= Z.to_nat (max_antibot_retries + 1))%nat
  /\ (length (new_requests st (snd (get url false max_antibot_retries kwargs w st)))
      <= 1)%nat.
Proof.
  split.
  - apply (CallFacts.get_well_formed url retry_anti_bot).
  - by apply (CallFacts.get_well_formed url false).
Qed.

(** X14.  Every request of a call of [get], the first attempt and each
    retry, goes to the URL the caller gave and carries the caller's other
    keyword arguments unchanged. *)
Theorem get_requests_keep_url_and_kwargs `{Runtime}
    (url : string) (retry_anti_bot : bool) (max_antibot_retries : Z)
    (kwargs : Kwargs) (w : World) (st : State) (j : nat) (r : Request) :
  new_requests st (snd (get url retry_anti_bot max_antibot_retries kwargs w st)) !! j
  = Some r ->
  req_url r = url /\ req_kwargs r = kw_other kwargs.
Proof.
  intros Hj.
  destruct (CallFacts.get_well_formed url retry_anti_bot max_antibot_retries kwargs w st)
    as [Hwf _].
  destruct (Hwf j r Hj) as (Hu & Hk & _). done.
Qed.

Lemma get_requests_keep_url_and_kwargs_witness :
  exists r,
    captcha_requests !! 3%nat = Some r
    /\ req_url r = example_url /\ req_kwargs r = kw_other kwargs_with_overrides.
Proof.
  assert (Hlen : length captcha_requests = 9%nat) by (vm_compute; reflexivity).
  destruct (lookup_lt_is_Some_2 captcha_requests 3) as [r E]; [rewrite Hlen; lia|].
  exists r. split; [exact E|].
  exact (get_requests_keep_url_and_kwargs example_url true 8 kwargs_with_overrides
           captcha_world (initial proxied_client) 3 r E).
Defined.

(** X15.  A request of [get] names a proxy only on a client that uses
    proxies, and then a non-empty entry of the client's proxy list; on a
    client with proxies off every request is direct. *)
Theorem get_proxies_come_from_the_list `{Runtime}
    (url : string) (retry_anti_bot : bool) (max_antibot_retries : Z)
    (kwargs : Kwargs) (w : World) (st : State) (j : nat) (r : Request) :
  new_requests st (snd (get url retry_anti_bot max_antibot_retries kwargs w st)) !! j
  = Some r ->
  (use_proxies (self st) = false -> req_proxies r = None)
  /\ (forall p, req_proxies r = Some p -> In p (proxy_list (self st)) /\ p <> "").
Proof.
  intros Hj.
  destruct (CallFacts.get_well_formed url retry_anti_bot max_antibot_retries kwargs w st)
    as [Hwf _].
  destruct (Hwf j r Hj) as (_ & _ & Hp & _). unfold proxy_ok in Hp.
  destruct (req_proxies r) as [p|]; [|done].
  destruct Hp as (Hu & Hin & Ht). split.
  - intros Hf. congruence.
  - intros q [= <-]. split; [done|]. by intros ->.
Qed.

Lemma get_proxies_come_from_the_list_witness :
  exists r,
    captcha_requests !! 2%nat = Some r
    /\ (use_proxies (self (initial proxied_client)) = false -> req_proxies r = None)
    /\ (forall p, req_proxies r = Some p ->
                  In p (proxy_list (self (initial proxied_client))) /\ p <> "").
Proof.
  assert (Hlen : length captcha_requests = 9%nat) by (vm_compute; reflexivity).
  destruct (lookup_lt_is_Some_2 captcha_requests 2) as [r E]; [rewrite Hlen; lia|].
  exists r. split; [exact E|].
  exact (get_proxies_come_from_the_list example_url true 8 kwargs_with_overrides
           captcha_world (initial proxied_client) 2 r E).
Defined.

(** X16.  Every request of [get] announces [Accept-Encoding: gzip, deflate,
    br], whether or not brotli could be imported; only the caller's own
    [Accept-Encoding] header can replace it, and only on the first
    attempt. *)
Theorem get_announces_three_encodings `{Runtime}
    (url : string) (retry_anti_bot : bool) (max_antibot_retries : Z)
    (kwargs : Kwargs) (w : World) (st : State) (j : nat) (r : Request) :
  new_requests st (snd (get url retry_anti_bot max_antibot_retries kwargs w st)) !! j
  = Some r ->
  (j = 0%nat ->
   forall custom_headers, kw_headers kwargs = Some custom_headers ->
                          custom_headers !! "Accept-Encoding" = None) ->
  req_headers r !! "Accept-Encoding" = Some "gzip, deflate, br".
Proof.
  intros Hj Hfirst.
  destruct (CallFacts.get_well_formed url retry_anti_bot max_antibot_retries kwargs w st)
    as [Hwf _].
  destruct (Hwf j r Hj) as (_ & _ & _ & Henc). apply Henc.
  destruct j as [|j]; [left|right; lia].
  split; [done|]. intros h Hh. by apply Hfirst.
Qed.

Lemma get_announces_three_encodings_witness :
  brotli_available (self (initial proxied_client)) = false
  /\ exists r,
       captcha_requests !! 0%nat = Some r
       /\ req_headers r !! "Accept-Encoding" = Some "gzip, deflate, br".
Proof.
  split; [reflexivity|].
  assert (Hlen : length captcha_requests = 9%nat) by (vm_compute; reflexivity).
  destruct (lookup_lt_is_Some_2 captcha_requests 0) as [r E]; [rewrite Hlen; lia|].
  exists r. split; [exact E|].
  apply (get_announces_three_encodings example_url true 8 kwargs_with_overrides
           captcha_world (initial proxied_client) 0 r E).
  intros _ custom_headers [= <-]. vm_compute. reflexivity.
Defined.

(** X17.  An exception of the transport ends the call: when a request of
    [get] fails, [get] raises that exception to its caller and sends
    nothing more, whatever remains of the retry budget. *)
Theorem transport_error_is_raised_at_once `{Runtime}
    (url : string) (retry_anti_bot : bool) (max_antibot_retries : Z)
    (kwargs : Kwargs) (w : World) (st : State) (k : nat) (req : Request)
    (e : Exception) :
  new_requests st (snd (get url retry_anti_bot max_antibot_retries kwargs w st)) !! k
  = Some req ->
  transport w (length (requests (trace st)) + k) req = Raise e ->
  fst (get url retry_anti_bot max_antibot_retries kwargs w st) = Some (Raise e)
  /\ length (new_requests st (snd (get url retry_anti_bot max_antibot_retries kwargs w st)))
     = S k.
Proof.
  intros Hk Htr.
  destruct (PassFacts.get_transport_error url retry_anti_bot max_antibot_retries kwargs
              w st k req e Hk Htr) as (st2 & _ & Hl & ->).
  split; [done|]. simpl snd. by apply StatusFacts.new_requests_length.
Qed.

Lemma transport_error_is_raised_at_once_witness :
  exists req,
    new_requests (initial direct_client)
      (snd (get example_url true 8 no_kwargs offline_world (initial direct_client)))
      !! 0%nat = Some req
    /\ fst (get example_url true 8 no_kwargs offline_world (initial direct_client))
       = Some (Raise (RequestError "connection failed"))
    /\ length (new_requests (initial direct_client)
                 (snd (get example_url true 8 no_kwargs offline_world
                           (initial direct_client)))) = 1%nat.
Proof.
  assert (Hlen : length (new_requests (initial direct_client)
                   (snd (get example_url true 8 no_kwargs offline_world
                             (initial direct_client)))) = 1%nat)
    by (vm_compute; reflexivity).
  destruct (lookup_lt_is_Some_2
              (new_requests (initial direct_client)
                 (snd (get example_url true 8 no_kwargs offline_world
                           (initial direct_client)))) 0) as [req E];
    [rewrite Hlen; lia|].
  exists req. split; [exact E|].
  apply (transport_error_is_raised_at_once example_url true 8 no_kwargs offline_world
           (initial direct_client) 0 req (RequestError "connection failed") E).
  reflexivity.
Defined.

(** X18.  A response that was reached through more than ten redirects is
    raised as the request error [Too many redirects], whatever its status
    and body, and the call sends nothing more. *)
Theorem too_many_redirects_raise `{Runtime}
    (url : string) (retry_anti_bot : bool) (max_antibot_retries : Z)
    (kwargs : Kwargs) (w : World) (st : State) (k : nat) (req : Request)
    (r : Response) :
  new_requests st (snd (get url retry_anti_bot max_antibot_retries kwargs w st)) !! k
  = Some req ->
  transport w (length (requests (trace st)) + k) req = Ok r ->
  (10 < history r)%nat ->
  fst (get url retry_anti_bot max_antibot_retries kwargs w st)
  = Some (Raise (RequestError "Too many redirects"))
  /\ length (new_requests st (snd (get url retry_anti_bot max_antibot_retries kwargs w st)))
     = S k.
Proof.
  intros Hk Htr Hh.
  destruct (AnswerFacts.get_answered url retry_anti_bot max_antibot_retries kwargs
              w st k req r Hk Htr) as (st2 & _ & Hl & Hcls).
  rewrite ClassifyFacts.classify_too_many_redirects in Hcls by done.
  rewrite Hcls. split; [done|]. simpl snd. by apply StatusFacts.new_requests_length.
Qed.

Lemma too_many_redirects_raise_witness :
  exists req,
    new_requests (initial direct_client)
      (snd (get example_url true 8 no_kwargs (always (page 200 11 "<html>te huur</html>"))
                (initial direct_client))) !! 0%nat = Some req
    /\ fst (get example_url true 8 no_kwargs (always (page 200 11 "<html>te huur</html>"))
                (initial direct_client))
       = Some (Raise (RequestError "Too many redirects"))
    /\ length (new_requests (initial direct_client)
                 (snd (get example_url true 8 no_kwargs
                           (always (page 200 11 "<html>te huur</html>"))
                           (initial direct_client)))) = 1%nat.
Proof.
  set (w := always (page 200 11 "<html>te huur</html>")).
  assert (Hlen : length (new_requests (initial direct_client)
                   (snd (get example_url true 8 no_kwargs w (initial direct_client))))
                 = 1%nat) by (vm_compute; reflexivity).
  destruct (lookup_lt_is_Some_2
              (new_requests (initial direct_client)
                 (snd (get example_url true 8 no_kwargs w (initial direct_client)))) 0)
    as [req E]; [rewrite Hlen; lia|].
  exists req. split; [exact E|].
  apply (too_many_redirects_raise example_url true 8 no_kwargs w
           (initial direct_client) 0 req (page 200 11 "<html>te huur</html>") E).
  - reflexivity.
  - simpl. lia.
Defined.

(** X19.  A page is returned as soon as it is clean: when a request of [get]
    is answered with a status below 400 through at most ten redirects and
    the text, after the manual pass, shows no anti-bot signature, [get]
    returns that response with that text and sends nothing more. *)
Theorem clean_page_is_returned_at_once `{Runtime}
    (url : string) (retry_anti_bot : bool) (max_antibot_retries : Z)
    (kwargs : Kwargs) (w : World) (st : State) (k : nat) (req : Request)
    (r r' : Response) :
  new_requests st (snd (get url retry_anti_bot max_antibot_retries kwargs w st)) !! k
  = Some req ->
  transport w (length (requests (trace st)) + k) req = Ok r ->
  (history r <= 10)%nat -> status_code r < 400 ->
  manual_decode (self st) r = Ok r' ->
  anti_bot_detected (text r') = false ->
  fst (get url retry_anti_bot max_antibot_retries kwargs w st) = Some (Ok r')
  /\ length (new_requests st (snd (get url retry_anti_bot max_antibot_retries kwargs w st)))
     = S k.
Proof.
  intros Hk Htr Hh Hs Hd Hclean.
  destruct (AnswerFacts.get_answered url retry_anti_bot max_antibot_retries kwargs
              w st k req r Hk Htr) as (st2 & Hs2 & Hl & Hcls).
  rewrite (ClassifyFacts.classify_page _ _ _ _ r') in Hcls;
    [|done|done|by simpl; rewrite Hs2].
  rewrite Hclean, andb_false_r in Hcls.
  rewrite Hcls. split; [done|]. simpl snd. by apply StatusFacts.new_requests_length.
Qed.

Lemma clean_page_is_returned_at_once_witness :
  exists req,
    new_requests (initial direct_client)
      (snd (get example_url true 8 no_kwargs captcha_once_world (initial direct_client)))
      !! 1%nat = Some req
    /\ fst (get example_url true 8 no_kwargs captcha_once_world (initial direct_client))
       = Some (Ok (page 200 0 "<html>te huur</html>"))
    /\ length (new_requests (initial direct_client)
                 (snd (get example_url true 8 no_kwargs captcha_once_world
                           (initial direct_client)))) = 2%nat.
Proof.
  assert (Hlen : length (new_requests (initial direct_client)
                   (snd (get example_url true 8 no_kwargs captcha_once_world
                             (initial direct_client)))) = 2%nat)
    by (vm_compute; reflexivity).
  destruct (lookup_lt_is_Some_2
              (new_requests (initial direct_client)
                 (snd (get example_url true 8 no_kwargs captcha_once_world
                           (initial direct_client)))) 1) as [req E];
    [rewrite Hlen; lia|].
  exists req. split; [exact E|].
  apply (clean_page_is_returned_at_once example_url true 8 no_kwargs captcha_once_world
           (initial direct_client) 1 req (page 200 0 "<html>te huur</html>")
           (page 200 0 "<html>te huur</html>") E).
  - reflexivity.
  - simpl. lia.
  - simpl. lia.
  - vm_compute. reflexivity.
  - vm_compute. reflexivity.
Defined.

(** X20.  A 429 answer whose [Retry-After] value [int] cannot read, an HTTP
    date for one, makes [get] raise [ValueError], which is not a request
    error: the call does not sleep, sends nothing more, and
    [get_with_fallback] does not catch it. *)
Theorem unreadable_retry_after_raises_value_error `{Runtime}
    (url : string) (retry_anti_bot : bool) (max_antibot_retries : Z)
    (kwargs : Kwargs) (w : World) (st : State) (k : nat) (req : Request)
    (r : Response) :
  new_requests st (snd (get url retry_anti_bot max_antibot_retries kwargs w st)) !! k
  = Some req ->
  transport w (length (requests (trace st)) + k) req = Ok r ->
  (history r <= 10)%nat -> status_code r = 429 ->
  int_of_str (default "5" (retry_after r)) = None ->
  fst (get url retry_anti_bot max_antibot_retries kwargs w st) = Some (Raise ValueError)
  /\ last (trace (snd (get url retry_anti_bot max_antibot_retries kwargs w st)))
     = Some (Send req)
  /\ get_with_fallback url retry_anti_bot max_antibot_retries kwargs w st
     = get url retry_anti_bot max_antibot_retries kwargs w st.
Proof.
  intros Hk Htr Hh Hs Hi.
  destruct (AnswerFacts.get_answered url retry_anti_bot max_antibot_retries kwargs
              w st k req r Hk Htr) as (st2 & _ & Hl & Hcls).
  rewrite CallFacts.classify_429_unparsable in Hcls by done.
  split; [by rewrite Hcls|]. split.
  - rewrite Hcls. simpl. apply last_snoc.
  - apply CallFacts.get_with_fallback_passes. right.
    rewrite Hcls. simpl. by intros e [= <-].
Qed.

Lemma unreadable_retry_after_raises_value_error_witness :
  exists req,
    new_requests (initial proxied_client)
      (snd (get example_url true 8 no_kwargs (always rate_limited_until_date)
                (initial proxied_client))) !! 0%nat = Some req
    /\ fst (get example_url true 8 no_kwargs (always rate_limited_until_date)
                (initial proxied_client)) = Some (Raise ValueError)
    /\ last (trace (snd (get example_url true 8 no_kwargs (always rate_limited_until_date)
                             (initial proxied_client)))) = Some (Send req)
    /\ get_with_fallback example_url true 8 no_kwargs (always rate_limited_until_date)
                         (initial proxied_client)
       = get example_url true 8 no_kwargs (always rate_limited_until_date)
             (initial proxied_client).
Proof.
  set (w := always rate_limited_until_date).
  assert (Hlen : length (new_requests (initial proxied_client)
                   (snd (get example_url true 8 no_kwargs w (initial proxied_client))))
                 = 1%nat) by (vm_compute; reflexivity).
  destruct (lookup_lt_is_Some_2
              (new_requests (initial proxied_client)
                 (snd (get example_url true 8 no_kwargs w (initial proxied_client)))) 0)
    as [req E]; [rewrite Hlen; lia|].
  exists req. split; [exact E|].
  apply (unreadable_retry_after_raises_value_error example_url true 8 no_kwargs w
           (initial proxied_client) 0 req rate_limited_until_date E).
  - reflexivity.
  - simpl. lia.
  - reflexivity.
  - vm_compute. reflexivity.
Defined.

(** X21.  While budget is left, an anti-bot page is answered with another
    attempt: when request number [k] of [get] with [retry_anti_bot] is
    answered with a page that matches a signature and
    [k < max_antibot_retries], a further request follows. *)
Theorem antibot_page_is_retried `{Runtime}
    (url : string) (max_antibot_retries : Z)
    (kwargs : Kwargs) (w : World) (st : State) (k : nat) (req : Request)
    (r : Response) :
  new_requests st (snd (get url true max_antibot_retries kwargs w st)) !! k = Some req ->
  transport w (length (requests (trace st)) + k) req = Ok r ->
  antibot_page (self st) r = true ->
  Z.of_nat k < max_antibot_retries ->
  is_Some (new_requests st (snd (get url true max_antibot_retries kwargs w st)) !! S k).
Proof. apply PassFacts.get_continues. Qed.

Lemma antibot_page_is_retried_witness :
  is_Some (captcha_requests !! 8%nat).
Proof.
  assert (Hlen : length captcha_requests = 9%nat) by (vm_compute; reflexivity).
  destruct (lookup_lt_is_Some_2 captcha_requests 7) as [req E]; [rewrite Hlen; lia|].
  apply (antibot_page_is_retried example_url 8 kwargs_with_overrides captcha_world
           (initial proxied_client) 7 req (page 200 0 "captcha") E).
  - reflexivity.
  - vm_compute. reflexivity.
  - lia.
Defined.

(** X22.  A URL with fewer than two slashes, one without [scheme://host],
    makes [get] raise [IndexError] while it builds its catalog: nothing is
    sent, nothing is drawn, the state is as before. *)
Theorem url_without_host_raises_index_error `{Runtime}
    (url : string) (retry_anti_bot : bool) (max_antibot_retries : Z)
    (kwargs : Kwargs) (w : World) (st : State) :
  (count_char "/" url < 2)%nat ->
  get url retry_anti_bot max_antibot_retries kwargs w st = (Some (Raise IndexError), st).
Proof.
  intros Hc. unfold get, mbind, M_bind, bind.
  by rewrite GetFacts.browser_profiles_raises by by apply CallFacts.origin_of_none.
Qed.

Lemma url_without_host_raises_index_error_witness :
  get "www.example.nl/huur" true 8 no_kwargs captcha_world (initial direct_client)
  = (Some (Raise IndexError), initial direct_client).
Proof.
  apply (url_without_host_raises_index_error "www.example.nl/huur" true 8 no_kwargs
           captcha_world (initial direct_client)).
  vm_compute. lia.
Defined.

(** X23.  With a negative [max_antibot_retries] the loop body never runs:
    [get] sends no request and fails at its final [return] with
    [UnboundLocalError] for the name [response]. *)
Theorem negative_budget_raises_unbound_local `{Runtime}
    (url : string) (retry_anti_bot : bool) (max_antibot_retries : Z)
    (kwargs : Kwargs) (w : World) (st : State) :
  (2 <= count_char "/" url)%nat ->
  max_antibot_retries < 0 ->
  fst (get url retry_anti_bot max_antibot_retries kwargs w st)
  = Some (Raise (UnboundLocalError "response"))
  /\ new_requests st (snd (get url retry_anti_bot max_antibot_retries kwargs w st)) = [].
Proof.
  intros Hc Hmax.
  destruct (CallFacts.origin_of_some url Hc) as [referer Eo].
  destruct (GetFacts.browser_profiles_returns url referer Eo w st)
    as (profiles & st0 & Ebp & [Hself0 Htr0] & _).
  unfold get, mbind, M_bind, bind. rewrite Ebp.
  replace (Z.to_nat (max_antibot_retries + 1)) with 0%nat by lia. simpl.
  replace (0 <=? max_antibot_retries) with false by lia. simpl.
  split; [done|]. unfold new_requests. rewrite Htr0. by rewrite drop_all.
Qed.

Lemma negative_budget_raises_unbound_local_witness :
  fst (get example_url true (-1) no_kwargs captcha_world (initial direct_client))
  = Some (Raise (UnboundLocalError "response"))
  /\ new_requests (initial direct_client)
       (snd (get example_url true (-1) no_kwargs captcha_world (initial direct_client)))
     = [].
Proof.
  apply (negative_budget_raises_unbound_local example_url true (-1) no_kwargs
           captcha_world (initial direct_client)).
  - vm_compute. lia.
  - lia.
Defined.

(** X24.  [get_with_fallback] is [get], same result and same state, on a
    client with proxies off, and on any client when [get] returns or raises
    something that is not a request error: only a request error of a client
    with proxies on starts the fallback. *)
Theorem fallback_only_after_a_request_error `{Runtime}
    (url : string) (retry_anti_bot : bool) (max_antibot_retries : Z)
    (kwargs : Kwargs) (w : World) (st : State) :
  use_proxies (self st) = false
  \/ (forall e, fst (get url retry_anti_bot max_antibot_retries kwargs w st)
                = Some (Raise e) -> is_RequestError e = false) ->
  get_with_fallback url retry_anti_bot max_antibot_retries kwargs w st
  = get url retry_anti_bot max_antibot_retries kwargs w st.
Proof. apply CallFacts.get_with_fallback_passes. Qed.

Lemma fallback_only_after_a_request_error_witness :
  get_with_fallback example_url true 8 no_kwargs offline_world (initial direct_client)
  = get example_url true 8 no_kwargs offline_world (initial direct_client).
Proof.
  apply (fallback_only_after_a_request_error example_url true 8 no_kwargs offline_world
           (initial direct_client)).
  left. reflexivity.
Defined.

(** X25.  When the first attempt of [get_with_fallback] on a client with
    proxies on fails with a request error, the call's result is that of a
    second [get] on the same arguments, run with proxies off, and every
    request of that second attempt goes to the same URL without a proxy. *)
Theorem fallback_attempt_is_direct `{Runtime}
    (url : string) (retry_anti_bot : bool) (max_antibot_retries : Z)
    (kwargs : Kwargs) (w : World) (st : State) (e : Exception) (j : nat) (r : Request) :
  use_proxies (self st) = true ->
  fst (get url retry_anti_bot max_antibot_retries kwargs w st) = Some (Raise e) ->
  is_RequestError e = true ->
  new_requests (snd (get url retry_anti_bot max_antibot_retries kwargs w st))
    (snd (get_with_fallback url retry_anti_bot max_antibot_retries kwargs w st)) !! j
  = Some r ->
  req_url r = url /\ req_proxies r = None
  /\ fst (get_with_fallback url retry_anti_bot max_antibot_retries kwargs w st)
     = fst (get url retry_anti_bot max_antibot_retries kwargs w
              (assign_use_proxies false
                 (snd (get url retry_anti_bot max_antibot_retries kwargs w st)))).
Proof.
  intros Hu Eg He Hj.
  destruct (get url retry_anti_bot max_antibot_retries kwargs w st) as [res st1] eqn:Eget.
  simpl in Eg. subst res.
  rewrite (CallFacts.get_with_fallback_falls_back _ _ _ _ _ _ e st1 Hu Eget He) in Hj |- *.
  simpl in Hj |- *.
  destruct (CallFacts.get_well_formed url retry_anti_bot max_antibot_retries kwargs w
              (assign_use_proxies false st1)) as [Hwf _].
  destruct (Hwf j r Hj) as (Hurl & _ & Hp & _).
  split; [done|]. split; [|done].
  unfold proxy_ok in Hp. destruct (req_proxies r) as [p|]; [|done].
  by destruct Hp as [? _].
Qed.

Lemma fallback_attempt_is_direct_witness :
  exists r,
    new_requests
      (snd (get example_url true 2 no_kwargs proxy_down_world (initial proxied_client)))
      (snd (get_with_fallback example_url true 2 no_kwargs proxy_down_world
                              (initial proxied_client))) !! 0%nat = Some r
    /\ req_url r = example_url /\ req_proxies r = None
    /\ fst (get_with_fallback example_url true 2 no_kwargs proxy_down_world
                              (initial proxied_client))
       = fst (get example_url true 2 no_kwargs proxy_down_world
                (assign_use_proxies false
                   (snd (get example_url true 2 no_kwargs proxy_down_world
                             (initial proxied_client))))).
Proof.
  set (st1 := snd (get example_url true 2 no_kwargs proxy_down_world
                       (initial proxied_client))).
  set (st2 := snd (get_with_fallback example_url true 2 no_kwargs proxy_down_world
                                     (initial proxied_client))).
  assert (Hlen : length (new_requests st1 st2) = 1%nat) by (vm_compute; reflexivity).
  destruct (lookup_lt_is_Some_2 (new_requests st1 st2) 0) as [r E]; [rewrite Hlen; lia|].
  exists r. split; [exact E|].
  apply (fallback_attempt_is_direct example_url true 2 no_kwargs proxy_down_world
           (initial proxied_client) (RequestError "proxy error") 0 r).
  - reflexivity.
  - vm_compute. reflexivity.
  - reflexivity.
  - exact E.
Defined.

(** X26.  A call of [get_with_fallback] sends at most twice
    [max_antibot_retries + 1] requests. *)
Theorem fallback_sends_a_bounded_number_of_requests `{Runtime}
    (url : string) (retry_anti_bot : bool) (max_antibot_retries : Z)
    (kwargs : Kwargs) (w : World) (st : State) :
  (length (new_requests st
             (snd (get_with_fallback url retry_anti_bot max_antibot_retries kwargs w st)))
   <= 2 * Z.to_nat (max_antibot_retries + 1))%nat.
Proof.
  destruct (CallFacts.get_well_formed url retry_anti_bot max_antibot_retries kwargs w st)
    as (_ & Hlen1 & _).
  destruct (use_proxies (self st)) eqn:Hu.
  2:{ rewrite CallFacts.get_with_fallback_passes by by left. lia. }
  destruct (get url retry_anti_bot max_antibot_retries kwargs w st)
    as [[[r|e]|] st1] eqn:Eget.
  - rewrite CallFacts.get_with_fallback_passes; [rewrite Eget; simpl in *; lia|].
    right. rewrite Eget. by intros e.
  - destruct (is_RequestError e) eqn:He.
    + rewrite (CallFacts.get_with_fallback_falls_back _ _ _ _ _ _ e st1 Hu Eget He).
      simpl in *.
      destruct (CallFacts.get_well_formed url retry_anti_bot max_antibot_retries kwargs w
                  (assign_use_proxies false st1)) as (_ & Hlen2 & _).
      destruct (GetFacts.get_requests url retry_anti_bot max_antibot_retries kwargs w st)
        as [_ Hr1].
      unfold new_requests in *. rewrite length_drop in *. simpl in *. lia.
    + rewrite CallFacts.get_with_fallback_passes; [rewrite Eget; simpl in *; lia|].
      right. rewrite Eget. simpl. by intros e' [= <-].
  - rewrite CallFacts.get_with_fallback_passes; [rewrite Eget; simpl in *; lia|].
    right. rewrite Eget. by intros e.
Qed.

(** X27.  [_get_browser_headers] always returns, without touching client or
    trace, the header set of one of the six built-in browsers: its
    User-Agent, a Referer from the list of search engines, and client hints
    ([sec-ch-ua]) exactly when it sends the [Sec-Fetch] headers, that is
    exactly when the User-Agent is a Chromium one (Chrome and Edge, never
    Firefox or Safari). *)
Theorem browser_headers_are_consistent :
  silent
    (fun headers : dict =>
       (exists browser_profile,
           In browser_profile default_browser_profiles
           /\ headers !! "User-Agent" = Some (user_agent browser_profile)
           /\ headers !! "sec-ch-ua" = sec_ch_ua browser_profile
           /\ (is_Some (headers !! "sec-ch-ua")
               <-> Py.contains "Chrome" (user_agent browser_profile) = true))
       /\ (exists referer, In referer referers /\ headers !! "Referer" = Some referer)
       /\ (is_Some (headers !! "sec-ch-ua") <-> is_Some (headers !! "Sec-Fetch-Dest")))
    _get_browser_headers.
Proof.
  unfold _get_browser_headers.
  eapply RunFacts.silent_bind; [by apply RunFacts.silent_random_choice|]. intros p Hp.
  eapply RunFacts.silent_bind; [by apply RunFacts.silent_random_choice|]. intros r Hr.
  apply RunFacts.silent_ret.
  split; [exists p|split; [exists r|]].
  - split; [done|].
    cbn [In default_browser_profiles] in Hp.
    destruct Hp as [<-|[<-|[<-|[<-|[<-|[<-|[]]]]]]];
      (split; [vm_compute; reflexivity|]); (split; [vm_compute; reflexivity|]);
      (split; [intros [x Hx]; vm_compute in Hx |- *; done
              |intros H1; vm_compute in H1 |- *; try done; eauto]).
  - split; [done|]. by rewrite lookup_insert.
  - cbn [In default_browser_profiles] in Hp.
    destruct Hp as [<-|[<-|[<-|[<-|[<-|[<-|[]]]]]]];
      (split; intros [x Hx]; vm_compute in Hx |- *; try done; eauto).
Qed.

(** X28.  The search URLs both scrapers build always have a scheme and a
    host, whatever the city and the page: the Referer that [get] derives
    from them is the root of the API, so [get] never fails on them while it
    builds its catalog. *)
Theorem search_urls_have_an_origin `{Runtime} (city : option string) (page : Z) :
  origin_of (VBTSearch.build_search_url city page)
  = Some "https://api.vbtverhuurmakelaars.nl/"
  /\ origin_of (HurenInHollandRijnlandSearch.build_search_url city page)
     = Some "https://api.housing-portal.nl/".
Proof. split; reflexivity. Qed.
